(** * integration-glue: GitHub webhook normalisation and dispatch

    A shallow embedding of the Python sources

      - [src/event_bus/schema.py]     the canonical event schema and [to_dict]
      - [src/github/mappers.py]       the six payload mappers
      - [src/github/webhook_handler.py] signature check, dispatch, request handling
      - [src/event_bus/publisher.py]  the publisher interface and [MultiPublisher]
      - [src/api/flask_app.py]        the HTTP endpoint that calls the handler

    Python values decoded from JSON are the inductive type [json]; exceptions
    are the type [exn] and a function that may raise returns a [result].
    A Python [str] is kept as the Rocq [string] of its UTF-8 encoding, so
    [str.encode('utf-8')] is the passage from [string] to bytes, a [str] is
    ASCII exactly when all its bytes are below 128, and [startswith], [in]
    and slicing past an ASCII prefix act on the bytes.  Code that prints
    is a function of the console; the builtins that the sources call and
    that can fail for reasons of their own ([str], [json.loads],
    [json.dumps], [print]) are the fields of the class [Runtime]. *)

From Stdlib Require Import ZArith List String Ascii Bool Lia PrimFloat.
From Stdlib Require Import Strings.Byte DecimalString.
Import ListNotations.
Open Scope string_scope.
Open Scope list_scope.
Open Scope Z_scope.
Set Warnings "-register-all".
Set Warnings "-automation".

(* ================================================================= *)
(** ** Exceptions and results *)

(** The exception classes the modelled code can raise.  [KeyError] carries
    the missing key; [ValueError] and its subclasses [JSONDecodeError],
    [UnicodeDecodeError] and [UnicodeEncodeError] carry their message.
    [RecursionError] is what [json.loads] raises on a body nested deeper
    than the interpreter allows; it is not a [ValueError]. *)
Inductive exn : Type :=
| KeyError (key : string)
| TypeError
| AttributeError
| ValueError (msg : string)
| JSONDecodeError (msg : string)
| UnicodeDecodeError (msg : string)
| UnicodeEncodeError (msg : string)
| RecursionError
| NotImplementedError
| RequestException.

Inductive result (A : Type) : Type :=
| Ok (a : A)
| Raise (e : exn).
Arguments Ok {A} a.
Arguments Raise {A} e.

Definition bind {A B : Type} (r : result A) (k : A -> result B) : result B :=
  match r with
  | Ok a => k a
  | Raise e => Raise e
  end.

Notation "x <- c ;; k" := (bind c (fun x => k))
  (at level 61, c at next level, right associativity).

(** [isinstance(e, ValueError)], as the clause [except ValueError] tests it. *)
Definition is_ValueError (e : exn) : bool :=
  match e with
  | ValueError _ | JSONDecodeError _ | UnicodeDecodeError _
  | UnicodeEncodeError _ => true
  | _ => false
  end.

(** The class of an exception, its arguments forgotten. *)
Inductive exn_class : Type :=
| cKeyError | cTypeError | cAttributeError | cValueError | cJSONDecodeError
| cUnicodeDecodeError | cUnicodeEncodeError | cRecursionError
| cNotImplementedError | cRequestException.

Definition class_of (e : exn) : exn_class :=
  match e with
  | KeyError _ => cKeyError
  | TypeError => cTypeError
  | AttributeError => cAttributeError
  | ValueError _ => cValueError
  | JSONDecodeError _ => cJSONDecodeError
  | UnicodeDecodeError _ => cUnicodeDecodeError
  | UnicodeEncodeError _ => cUnicodeEncodeError
  | RecursionError => cRecursionError
  | NotImplementedError => cNotImplementedError
  | RequestException => cRequestException
  end.

(* ================================================================= *)
(** ** Python values decoded from JSON *)

(** What [json.loads] produces: [None], [bool], [int], [float], [str],
    [list] and [dict] with [str] keys.  A dict is an association list in
    insertion order; lookup takes the first binding of a key. *)
Inductive json : Type :=
| JNull
| JBool (b : bool)
| JInt (z : Z)
| JFloat (f : float)
| JStr (s : string)
| JArr (l : list json)
| JObj (d : list (string * json)).

Fixpoint lookup {A : Type} (k : string) (d : list (string * A)) : option A :=
  match d with
  | [] => None
  | (k', v) :: d' => if String.eqb k k' then Some v else lookup k d'
  end.

(** [o[k]] for a [str] key [k]. *)
Definition getitem (o : json) (k : string) : result json :=
  match o with
  | JObj d => match lookup k d with
              | Some v => Ok v
              | None => Raise (KeyError k)
              end
  | _ => Raise TypeError
  end.

(** [o.get(k, default)]; only a dict has the method. *)
Definition get (o : json) (k : string) (default : json) : result json :=
  match o with
  | JObj d => match lookup k d with
              | Some v => Ok v
              | None => Ok default
              end
  | _ => Raise AttributeError
  end.

(** Truth value of a decoded value, as [if], [not] and [all] take it. *)
Definition truthy (v : json) : bool :=
  match v with
  | JNull => false
  | JBool b => b
  | JInt z => negb (z =? 0)
  | JFloat f => negb (PrimFloat.eqb f PrimFloat.zero)
  | JStr s => negb (String.eqb s "")
  | JArr l => match l with [] => false | _ => true end
  | JObj d => match d with [] => false | _ => true end
  end.

(** A UTF-8 continuation byte, [10xxxxxx]. *)
Definition is_continuation (c : ascii) : bool :=
  let n := Z.of_nat (nat_of_ascii c) in (128 <=? n) && (n <? 192).

(** The characters of a [str]: the text is cut before every byte that is
    not a continuation byte. *)
Fixpoint utf8_chars (s : string) : list string :=
  match s with
  | EmptyString => []
  | String c s' =>
      match utf8_chars s' with
      | [] => [String c EmptyString]
      | ch :: rest =>
          match ch with
          | String c' _ =>
              if is_continuation c' then String c ch :: rest
              else String c EmptyString :: ch :: rest
          | EmptyString => String c EmptyString :: rest
          end
      end
  end.

(** [for x in o]: the items an iteration over [o] yields. *)
Definition iterate (o : json) : result (list json) :=
  match o with
  | JArr l => Ok l
  | JObj d => Ok (map (fun kv => JStr (fst kv)) d)
  | JStr s => Ok (map JStr (utf8_chars s))
  | _ => Raise TypeError
  end.

(** [s[i:]] on the byte text. *)
Fixpoint drop (n : nat) (s : string) : string :=
  match n, s with
  | O, _ => s
  | S n', String _ s' => drop n' s'
  | S _, EmptyString => EmptyString
  end.

(** Substring test, [sub in s] for two [str]. *)
Fixpoint substring_of (sub s : string) : bool :=
  String.prefix sub s ||
  match s with
  | EmptyString => false
  | String _ s' => substring_of sub s'
  end.

(** [k in o] for a [str] [k]: key membership in a dict, element membership
    in a list, substring test in a [str]. *)
Definition contains (k : string) (o : json) : result bool :=
  match o with
  | JObj d => Ok (match lookup k d with Some _ => true | None => false end)
  | JArr l => Ok (existsb (fun v => match v with
                                    | JStr s => String.eqb s k
                                    | _ => false
                                    end) l)
  | JStr s => Ok (substring_of k s)
  | _ => Raise TypeError
  end.

(** Whether a value can be a dict key: lists and dicts are unhashable. *)
Definition hashable (v : json) : bool :=
  match v with
  | JArr _ | JObj _ => false
  | _ => true
  end.

(** [table.get(key, default)] on a dict literal whose keys are [str]: an
    unhashable key raises, a key that is not a [str] equals no entry. *)
Definition table_get {A : Type} (table : list (string * A)) (key : json)
    (default : A) : result A :=
  if hashable key
  then Ok (match key with
           | JStr s => match lookup s table with
                       | Some v => v
                       | None => default
                       end
           | _ => default
           end)
  else Raise TypeError.

(** The part of the Python runtime the sources call and that is not
    modelled here.  [py_str] is the builtin [str] on a decoded value, also
    what an f-string writes for it: it raises [ValueError] on an [int]
    with more digits than the interpreter converts (4300 unless
    configured otherwise).  [json_loads] is [json.loads] on a body.
    [json_dumps] is [json.dumps(v, indent=2)] on a decoded value: its
    text, or the exception it raises (an [int] beyond the same limit, a
    nesting too deep).  [print_error] is what [print] raises on a text, if
    anything: [UnicodeEncodeError] when the encoding of the console has no
    way to write it. *)
Class Runtime : Type := {
  py_str : json -> result string;
  json_loads : list byte -> result json;
  json_dumps : json -> result string;
  print_error : string -> option exn
}.

(* ================================================================= *)
(** ** SHA-256 and HMAC, as [hashlib.sha256] and [hmac.new] compute them *)

Module Sha256.

(** 32-bit words are [Z] reduced modulo [2^32]. *)
Definition wrap (x : Z) : Z := x mod 4294967296.
Definition add32 (x y : Z) : Z := wrap (x + y).
Definition rotr (n x : Z) : Z :=
  Z.lor (Z.shiftr x n) (wrap (Z.shiftl x (32 - n))).
Definition not32 (x : Z) : Z := Z.lxor x 4294967295.

Definition ch (x y z : Z) : Z := Z.lxor (Z.land x y) (Z.land (not32 x) z).
Definition maj (x y z : Z) : Z :=
  Z.lxor (Z.lxor (Z.land x y) (Z.land x z)) (Z.land y z).
Definition bsig0 (x : Z) : Z := Z.lxor (Z.lxor (rotr 2 x) (rotr 13 x)) (rotr 22 x).
Definition bsig1 (x : Z) : Z := Z.lxor (Z.lxor (rotr 6 x) (rotr 11 x)) (rotr 25 x).
Definition ssig0 (x : Z) : Z := Z.lxor (Z.lxor (rotr 7 x) (rotr 18 x)) (Z.shiftr x 3).
Definition ssig1 (x : Z) : Z := Z.lxor (Z.lxor (rotr 17 x) (rotr 19 x)) (Z.shiftr x 10).

(** The round constants and the initial chaining words of FIPS 180-4,
    written in decimal. *)
Definition round_constants : list Z :=
  [ 1116352408; 1899447441; 3049323471; 3921009573;
    961987163; 1508970993; 2453635748; 2870763221;
    3624381080; 310598401; 607225278; 1426881987;
    1925078388; 2162078206; 2614888103; 3248222580;
    3835390401; 4022224774; 264347078; 604807628;
    770255983; 1249150122; 1555081692; 1996064986;
    2554220882; 2821834349; 2952996808; 3210313671;
    3336571891; 3584528711; 113926993; 338241895;
    666307205; 773529912; 1294757372; 1396182291;
    1695183700; 1986661051; 2177026350; 2456956037;
    2730485921; 2820302411; 3259730800; 3345764771;
    3516065817; 3600352804; 4094571909; 275423344;
    430227734; 506948616; 659060556; 883997877;
    958139571; 1322822218; 1537002063; 1747873779;
    1955562222; 2024104815; 2227730452; 2361852424;
    2428436474; 2756734187; 3204031479; 3329325298 ].

(** The eight chaining words [a] to [h]. *)
Record state : Type := St { sa : Z; sb : Z; sc : Z; sd : Z;
                            se : Z; sf : Z; sg : Z; sh : Z }.

Definition initial : state :=
  St 1779033703 3144134277 1013904242 2773480762
     1359893119 2600822924 528734635 1541459225.

(** The message schedule, most recent word first: [n] more words are
    derived from the sixteen before them. *)
Fixpoint extend (n : nat) (ws : list Z) : list Z :=
  match n with
  | O => ws
  | S n' =>
      let wt := add32 (add32 (ssig1 (nth 1 ws 0)) (nth 6 ws 0))
                      (add32 (ssig0 (nth 14 ws 0)) (nth 15 ws 0)) in
      extend n' (wt :: ws)
  end.

Definition schedule (block : list Z) : list Z :=
  rev (extend 48 (rev block)).

Definition round (s : state) (kw : Z * Z) : state :=
  let t1 := add32 (add32 (add32 (sh s) (bsig1 (se s)))
                         (add32 (ch (se s) (sf s) (sg s)) (fst kw))) (snd kw) in
  let t2 := add32 (bsig0 (sa s)) (maj (sa s) (sb s) (sc s)) in
  St (add32 t1 t2) (sa s) (sb s) (sc s) (add32 (sd s) t1) (se s) (sf s) (sg s).

Definition compress (s : state) (block : list Z) : state :=
  let r := fold_left round (combine round_constants (schedule block)) s in
  St (add32 (sa s) (sa r)) (add32 (sb s) (sb r))
     (add32 (sc s) (sc r)) (add32 (sd s) (sd r))
     (add32 (se s) (se r)) (add32 (sf s) (sf r))
     (add32 (sg s) (sg r)) (add32 (sh s) (sh r)).

Definition Z_of_byte (b : byte) : Z := Z.of_N (Byte.to_N b).
Definition byte_of_Z (z : Z) : byte :=
  match Byte.of_N (Z.to_N (z mod 256)) with
  | Some b => b
  | None => x00
  end.

(** Big-endian bytes of a number, [n] of them. *)
Fixpoint be_bytes (n : nat) (z : Z) : list byte :=
  match n with
  | O => []
  | S n' => byte_of_Z (Z.shiftr z (8 * Z.of_nat n')) :: be_bytes n' z
  end.

Definition be_word (bs : list byte) : Z :=
  fold_left (fun acc b => acc * 256 + Z_of_byte b) bs 0.

(** The message followed by [0x80], zeros up to 56 modulo 64, and the bit
    length on eight bytes. *)
Definition pad (msg : list byte) : list byte :=
  let len := Z.of_nat (List.length msg) in
  msg ++ x80 :: repeat x00 (Z.to_nat ((55 - len) mod 64)) ++ be_bytes 8 (8 * len).

Fixpoint words (n : nat) (bs : list byte) : list Z :=
  match n with
  | O => []
  | S n' => be_word (firstn 4 bs) :: words n' (skipn 4 bs)
  end.

Fixpoint blocks (n : nat) (s : state) (bs : list byte) : state :=
  match n with
  | O => s
  | S n' => blocks n' (compress s (words 16 (firstn 64 bs))) (skipn 64 bs)
  end.

Definition digest (msg : list byte) : list byte :=
  let p := pad msg in
  let s := blocks (List.length p / 64) initial p in
  flat_map (be_bytes 4)
    [sa s; sb s; sc s; sd s; se s; sf s; sg s; sh s].

End Sha256.

Module Hmac.

Definition xor_byte (c : Z) (b : byte) : byte :=
  Sha256.byte_of_Z (Z.lxor c (Sha256.Z_of_byte b)).

(** The key on one 64-byte block: hashed when longer, then zero-filled. *)
Definition block_key (key : list byte) : list byte :=
  let k := if (64 <? List.length key)%nat then Sha256.digest key else key in
  k ++ repeat x00 (64 - List.length k).

Definition digest (key msg : list byte) : list byte :=
  let k := block_key key in
  Sha256.digest (map (xor_byte 0x5c) k
                 ++ Sha256.digest (map (xor_byte 0x36) k ++ msg)).

Definition hex_digit (z : Z) : ascii :=
  if z <? 10 then ascii_of_nat (Z.to_nat (48 + z))
  else ascii_of_nat (Z.to_nat (87 + z)).

Fixpoint hex (bs : list byte) : string :=
  match bs with
  | [] => EmptyString
  | b :: bs' =>
      let z := Sha256.Z_of_byte b in
      String (hex_digit (z / 16)) (String (hex_digit (z mod 16)) (hex bs'))
  end.

(** [hmac.new(key, msg, hashlib.sha256).hexdigest()] *)
Definition hexdigest (key msg : list byte) : string := hex (digest key msg).

End Hmac.

Definition bytes_of (s : string) : list byte := list_byte_of_string s.

(* ================================================================= *)
(** ** The canonical event schema ([src/event_bus/schema.py]) *)

Inductive EventType : Type :=
| CODE_PUSH | CODE_COMMIT
| PR_OPENED | PR_CLOSED | PR_MERGED | PR_REOPENED | PR_UPDATED
| PR_REVIEWED | PR_REVIEW_REQUESTED | PR_COMMENT
| ISSUE_OPENED | ISSUE_CLOSED | ISSUE_REOPENED | ISSUE_UPDATED | ISSUE_COMMENT
| RELEASE_PUBLISHED | RELEASE_CREATED | RELEASE_DELETED
| DEPLOYMENT_STARTED | DEPLOYMENT_COMPLETED | DEPLOYMENT_FAILED.

(** [EventType.value] *)
Definition EventType_value (t : EventType) : string :=
  match t with
  | CODE_PUSH => "code.push"
  | CODE_COMMIT => "code.commit"
  | PR_OPENED => "pr.opened"
  | PR_CLOSED => "pr.closed"
  | PR_MERGED => "pr.merged"
  | PR_REOPENED => "pr.reopened"
  | PR_UPDATED => "pr.updated"
  | PR_REVIEWED => "pr.reviewed"
  | PR_REVIEW_REQUESTED => "pr.review_requested"
  | PR_COMMENT => "pr.comment"
  | ISSUE_OPENED => "issue.opened"
  | ISSUE_CLOSED => "issue.closed"
  | ISSUE_REOPENED => "issue.reopened"
  | ISSUE_UPDATED => "issue.updated"
  | ISSUE_COMMENT => "issue.comment"
  | RELEASE_PUBLISHED => "release.published"
  | RELEASE_CREATED => "release.created"
  | RELEASE_DELETED => "release.deleted"
  | DEPLOYMENT_STARTED => "deployment.started"
  | DEPLOYMENT_COMPLETED => "deployment.completed"
  | DEPLOYMENT_FAILED => "deployment.failed"
  end.

Inductive ChangeType : Type :=
| COMMIT | FILE_ADD | FILE_MODIFY | FILE_DELETE.

(** [ChangeType.value] *)
Definition ChangeType_value (t : ChangeType) : string :=
  match t with
  | COMMIT => "commit"
  | FILE_ADD => "file.add"
  | FILE_MODIFY => "file.modify"
  | FILE_DELETE => "file.delete"
  end.

(** The dataclasses.  A dataclass does not check its field types, so a
    field filled from a payload holds whatever decoded value was there;
    [None] is [JNull]. *)
Module Actor.
Record t : Type := Build {
  id : json;
  username : json;
  name : json;
  email : json;
  avatar_url : json
}.

(** [self.__dict__], fields in declaration order. *)
Definition dict (a : t) : list (string * json) :=
  [ ("id", id a); ("username", username a); ("name", name a);
    ("email", email a); ("avatar_url", avatar_url a) ].
End Actor.

Module Repository.
Record t : Type := Build {
  id : json;
  name : json;
  full_name : json;
  owner : json;
  url : json;
  default_branch : json
}.

Definition dict (r : t) : list (string * json) :=
  [ ("id", id r); ("name", name r); ("full_name", full_name r);
    ("owner", owner r); ("url", url r);
    ("default_branch", default_branch r) ].
End Repository.

Module Change.
Record t : Type := Build {
  type : ChangeType;
  id : json;
  message : json;
  timestamp : json;
  author : option Actor.t;
  files_added : json;
  files_modified : json;
  files_removed : json
}.
End Change.

(** A keyword argument of a constructor call, or the field's default. *)
Definition kwarg (kw : list (string * json)) (name : string) (default : json)
    : json :=
  match lookup name kw with
  | Some v => v
  | None => default
  end.

Module EventMetadata.
Record t : Type := Build {
  ref : json; before : json; after : json;
  created : json; deleted : json; forced : json;
  base_ref : json; compare_url : json;
  pr_number : json; pr_title : json; pr_state : json; pr_url : json;
  pr_merged : json; pr_draft : json;
  pr_base_ref : json; pr_head_ref : json; pr_author : json;
  issue_number : json; issue_title : json; issue_state : json;
  issue_url : json; issue_author : json;
  comment_id : json; comment_body : json; comment_url : json;
  review_id : json; review_state : json; review_body : json;
  review_url : json;
  release_id : json; release_name : json; release_tag : json;
  release_url : json; release_draft : json; release_prerelease : json;
  action : json;
  labels : json;
  assignees : json;
  custom : json
}.

(** The generated [__init__]: every field is a keyword with a default,
    [None] for the optional ones, an empty list for [labels] and
    [assignees], an empty dict for [custom]. *)
Definition init (kw : list (string * json)) : t :=
  {| ref := kwarg kw "ref" JNull;
     before := kwarg kw "before" JNull;
     after := kwarg kw "after" JNull;
     created := kwarg kw "created" JNull;
     deleted := kwarg kw "deleted" JNull;
     forced := kwarg kw "forced" JNull;
     base_ref := kwarg kw "base_ref" JNull;
     compare_url := kwarg kw "compare_url" JNull;
     pr_number := kwarg kw "pr_number" JNull;
     pr_title := kwarg kw "pr_title" JNull;
     pr_state := kwarg kw "pr_state" JNull;
     pr_url := kwarg kw "pr_url" JNull;
     pr_merged := kwarg kw "pr_merged" JNull;
     pr_draft := kwarg kw "pr_draft" JNull;
     pr_base_ref := kwarg kw "pr_base_ref" JNull;
     pr_head_ref := kwarg kw "pr_head_ref" JNull;
     pr_author := kwarg kw "pr_author" JNull;
     issue_number := kwarg kw "issue_number" JNull;
     issue_title := kwarg kw "issue_title" JNull;
     issue_state := kwarg kw "issue_state" JNull;
     issue_url := kwarg kw "issue_url" JNull;
     issue_author := kwarg kw "issue_author" JNull;
     comment_id := kwarg kw "comment_id" JNull;
     comment_body := kwarg kw "comment_body" JNull;
     comment_url := kwarg kw "comment_url" JNull;
     review_id := kwarg kw "review_id" JNull;
     review_state := kwarg kw "review_state" JNull;
     review_body := kwarg kw "review_body" JNull;
     review_url := kwarg kw "review_url" JNull;
     release_id := kwarg kw "release_id" JNull;
     release_name := kwarg kw "release_name" JNull;
     release_tag := kwarg kw "release_tag" JNull;
     release_url := kwarg kw "release_url" JNull;
     release_draft := kwarg kw "release_draft" JNull;
     release_prerelease := kwarg kw "release_prerelease" JNull;
     action := kwarg kw "action" JNull;
     labels := kwarg kw "labels" (JArr []);
     assignees := kwarg kw "assignees" (JArr []);
     custom := kwarg kw "custom" (JObj []) |}.

(** [self.__dict__], fields in declaration order. *)
Definition dict (m : t) : list (string * json) :=
  [ ("ref", ref m); ("before", before m); ("after", after m);
    ("created", created m); ("deleted", deleted m); ("forced", forced m);
    ("base_ref", base_ref m); ("compare_url", compare_url m);
    ("pr_number", pr_number m); ("pr_title", pr_title m);
    ("pr_state", pr_state m); ("pr_url", pr_url m);
    ("pr_merged", pr_merged m); ("pr_draft", pr_draft m);
    ("pr_base_ref", pr_base_ref m); ("pr_head_ref", pr_head_ref m);
    ("pr_author", pr_author m);
    ("issue_number", issue_number m); ("issue_title", issue_title m);
    ("issue_state", issue_state m); ("issue_url", issue_url m);
    ("issue_author", issue_author m);
    ("comment_id", comment_id m); ("comment_body", comment_body m);
    ("comment_url", comment_url m);
    ("review_id", review_id m); ("review_state", review_state m);
    ("review_body", review_body m); ("review_url", review_url m);
    ("release_id", release_id m); ("release_name", release_name m);
    ("release_tag", release_tag m); ("release_url", release_url m);
    ("release_draft", release_draft m);
    ("release_prerelease", release_prerelease m);
    ("action", action m); ("labels", labels m);
    ("assignees", assignees m); ("custom", custom m) ].

End EventMetadata.

Module StandardEvent.
Record t : Type := Build {
  id : string;
  type : EventType;
  source : string;
  timestamp : string;
  actor : Actor.t;
  repository : Repository.t;
  metadata : EventMetadata.t;
  changes : list Change.t;
  raw_payload : json
}.
End StandardEvent.

(** Python objects as [to_dict] returns them: decoded JSON values, lists
    and dicts built by the method, and the objects that are not JSON
    values, members of [ChangeType] and instances of [Actor]. *)
Inductive pyval : Type :=
| PJson (v : json)
| PList (l : list pyval)
| PDict (d : list (string * pyval))
| PChangeType (c : ChangeType)
| PActor (a : Actor.t).

(** [change.__dict__]: the attributes as they are stored. *)
Definition Change_dict (c : Change.t) : list (string * pyval) :=
  [ ("type", PChangeType (Change.type c));
    ("id", PJson (Change.id c));
    ("message", PJson (Change.message c));
    ("timestamp", PJson (Change.timestamp c));
    ("author", match Change.author c with
               | Some a => PActor a
               | None => PJson JNull
               end);
    ("files_added", PJson (Change.files_added c));
    ("files_modified", PJson (Change.files_modified c));
    ("files_removed", PJson (Change.files_removed c)) ].

(** [StandardEvent.to_dict] *)
Definition to_dict (e : StandardEvent.t) : pyval :=
  PDict
    [ ("id", PJson (JStr (StandardEvent.id e)));
      ("type", PJson (JStr (EventType_value (StandardEvent.type e))));
      ("source", PJson (JStr (StandardEvent.source e)));
      ("timestamp", PJson (JStr (StandardEvent.timestamp e)));
      ("actor", PJson (JObj (Actor.dict (StandardEvent.actor e))));
      ("repository",
        PJson (JObj (Repository.dict (StandardEvent.repository e))));
      ("metadata",
        PJson (JObj (EventMetadata.dict (StandardEvent.metadata e))));
      ("changes",
        PList (map (fun c => PDict (Change_dict c)) (StandardEvent.changes e)));
      ("raw_payload", PJson (StandardEvent.raw_payload e)) ].

(** What [json.dumps] can serialise: JSON values, and lists and dicts of
    such; an enum member or a dataclass instance makes it raise
    [TypeError]. *)
Fixpoint json_compatible (v : pyval) : bool :=
  match v with
  | PJson _ => true
  | PList l => forallb json_compatible l
  | PDict d => forallb (fun kv => json_compatible (snd kv)) d
  | PChangeType _ => false
  | PActor _ => false
  end.

(** The JSON value a serialisable object stands for. *)
Fixpoint as_json (v : pyval) : json :=
  match v with
  | PJson j => j
  | PList l => JArr (map as_json l)
  | PDict d => JObj (map (fun kv => (fst kv, as_json (snd kv))) d)
  | PChangeType _ => JNull
  | PActor _ => JNull
  end.

(** [json.dumps] writes a value in order, and stops at the first object
    it cannot serialise.  [written v] is the part of [v] it has gone
    through by then: the entries before that object, in the lists and
    dicts that enclose it ([None] when [v] itself is such an object); for
    a value without such an object it is the whole value. *)
Fixpoint written (v : pyval) : option json :=
  match v with
  | PJson j => Some j
  | PList l =>
      Some (JArr
        ((fix items (l : list pyval) : list json :=
            match l with
            | [] => []
            | x :: l' =>
                match written x with
                | Some j => if json_compatible x then j :: items l' else [j]
                | None => []
                end
            end) l))
  | PDict d =>
      Some (JObj
        ((fix entries (d : list (string * pyval)) : list (string * json) :=
            match d with
            | [] => []
            | (k, x) :: d' =>
                match written x with
                | Some j =>
                    if json_compatible x then (k, j) :: entries d'
                    else [(k, j)]
                | None => []
                end
            end) d))
  | PChangeType _ => None
  | PActor _ => None
  end.

(** [json.dumps(v, indent=2)] on what [to_dict] returns: an exception
    raised while the decoded values are written, [TypeError] at the first
    enum member or dataclass instance, the text otherwise. *)
Definition dumps {R : Runtime} (v : pyval) : result string :=
  match written v with
  | None => Raise TypeError
  | Some j =>
      text <- json_dumps j ;;
      if json_compatible v then Ok text else Raise TypeError
  end.

(* ================================================================= *)
(** ** The mappers ([src/github/mappers.py]) *)

(** A loop or comprehension whose body may raise: the items are taken in
    order and the first exception ends it. *)
Fixpoint for_each {A B : Type} (f : A -> result B) (l : list A)
    : result (list B) :=
  match l with
  | [] => Ok []
  | x :: l' =>
      y <- f x ;;
      ys <- for_each f l' ;;
      Ok (y :: ys)
  end.

Section Mappers.
Context {R : Runtime}.

(** The arguments of a constructor call are evaluated in the order they
    are written: [str(user_data['id'])] comes before [user_data['login']]. *)
Definition extract_actor (user_data : json) : result Actor.t :=
  id_ <- getitem user_data "id" ;;
  id_str <- py_str id_ ;;
  login <- getitem user_data "login" ;;
  name <- get user_data "name" JNull ;;
  email <- get user_data "email" JNull ;;
  avatar_url <- get user_data "avatar_url" JNull ;;
  Ok {| Actor.id := JStr id_str;
        Actor.username := login;
        Actor.name := name;
        Actor.email := email;
        Actor.avatar_url := avatar_url |}.

Definition extract_repository (repo_data : json) : result Repository.t :=
  id_ <- getitem repo_data "id" ;;
  id_str <- py_str id_ ;;
  name <- getitem repo_data "name" ;;
  full_name <- getitem repo_data "full_name" ;;
  owner <- getitem repo_data "owner" ;;
  owner_login <- getitem owner "login" ;;
  html_url <- getitem repo_data "html_url" ;;
  default_branch <- get repo_data "default_branch" (JStr "main") ;;
  Ok {| Repository.id := JStr id_str;
        Repository.name := name;
        Repository.full_name := full_name;
        Repository.owner := owner_login;
        Repository.url := html_url;
        Repository.default_branch := default_branch |}.

(** The body of the loop of [map_push_event]: one [Change] per commit. *)
Definition commit_change (commit : json) : result Change.t :=
  id_ <- getitem commit "id" ;;
  message <- getitem commit "message" ;;
  timestamp <- getitem commit "timestamp" ;;
  author1 <- getitem commit "author" ;;
  username <- getitem author1 "username" ;;
  author2 <- getitem commit "author" ;;
  name <- getitem author2 "name" ;;
  author3 <- getitem commit "author" ;;
  email <- getitem author3 "email" ;;
  added <- get commit "added" (JArr []) ;;
  modified <- get commit "modified" (JArr []) ;;
  removed <- get commit "removed" (JArr []) ;;
  Ok {| Change.type := COMMIT;
        Change.id := id_;
        Change.message := message;
        Change.timestamp := timestamp;
        Change.author := Some {| Actor.id := JStr "";
                                 Actor.username := username;
                                 Actor.name := name;
                                 Actor.email := email;
                                 Actor.avatar_url := JNull |};
        Change.files_added := added;
        Change.files_modified := modified;
        Change.files_removed := removed |}.

(** Every mapper reads the clock for the event's timestamp; the reading,
    [datetime.utcnow().isoformat()], is the argument [now]. *)
Definition map_push_event (payload : json) (delivery_id now : string)
    : result StandardEvent.t :=
  commits <- get payload "commits" (JArr []) ;;
  items <- iterate commits ;;
  changes <- for_each commit_change items ;;
  pusher <- getitem payload "pusher" ;;
  actor <- extract_actor pusher ;;
  repo <- getitem payload "repository" ;;
  repository <- extract_repository repo ;;
  ref <- getitem payload "ref" ;;
  before <- getitem payload "before" ;;
  after <- getitem payload "after" ;;
  created <- get payload "created" (JBool false) ;;
  deleted <- get payload "deleted" (JBool false) ;;
  forced <- get payload "forced" (JBool false) ;;
  base_ref <- get payload "base_ref" JNull ;;
  compare <- get payload "compare" JNull ;;
  Ok {| StandardEvent.id := delivery_id;
        StandardEvent.type := CODE_PUSH;
        StandardEvent.source := "github";
        StandardEvent.timestamp := now;
        StandardEvent.actor := actor;
        StandardEvent.repository := repository;
        StandardEvent.metadata :=
          EventMetadata.init
            [ ("ref", ref); ("before", before); ("after", after);
              ("created", created); ("deleted", deleted);
              ("forced", forced); ("base_ref", base_ref);
              ("compare_url", compare) ];
        StandardEvent.changes := changes;
        StandardEvent.raw_payload := payload |}.

(** [[x[key] for x in seq]] *)
Definition project (key : string) (seq : json) : result json :=
  items <- iterate seq ;;
  vs <- for_each (fun x => getitem x key) items ;;
  Ok (JArr vs).

(** The lookup table of [map_pull_request_event]; the entry of
    ["closed"] is computed from the truth value of [pr.get('merged')]. *)
Definition pr_event_type_map (merged : json) : list (string * EventType) :=
  [ ("opened", PR_OPENED);
    ("closed", if truthy merged then PR_MERGED else PR_CLOSED);
    ("reopened", PR_REOPENED);
    ("synchronize", PR_UPDATED);
    ("edited", PR_UPDATED);
    ("review_requested", PR_REVIEW_REQUESTED) ].

Definition map_pull_request_event (payload : json)
    (delivery_id now : string) : result StandardEvent.t :=
  pr <- getitem payload "pull_request" ;;
  action <- getitem payload "action" ;;
  merged <- get pr "merged" JNull ;;
  event_type <- table_get (pr_event_type_map merged) action PR_UPDATED ;;
  sender <- getitem payload "sender" ;;
  actor <- extract_actor sender ;;
  repo <- getitem payload "repository" ;;
  repository <- extract_repository repo ;;
  pr_number <- getitem pr "number" ;;
  pr_title <- getitem pr "title" ;;
  pr_state <- getitem pr "state" ;;
  pr_url <- getitem pr "html_url" ;;
  pr_merged <- get pr "merged" (JBool false) ;;
  pr_draft <- get pr "draft" (JBool false) ;;
  base <- getitem pr "base" ;;
  pr_base_ref <- getitem base "ref" ;;
  head <- getitem pr "head" ;;
  pr_head_ref <- getitem head "ref" ;;
  user <- getitem pr "user" ;;
  pr_author <- getitem user "login" ;;
  pr_labels <- get pr "labels" (JArr []) ;;
  labels <- project "name" pr_labels ;;
  Ok {| StandardEvent.id := delivery_id;
        StandardEvent.type := event_type;
        StandardEvent.source := "github";
        StandardEvent.timestamp := now;
        StandardEvent.actor := actor;
        StandardEvent.repository := repository;
        StandardEvent.metadata :=
          EventMetadata.init
            [ ("pr_number", pr_number); ("pr_title", pr_title);
              ("pr_state", pr_state); ("pr_url", pr_url);
              ("pr_merged", pr_merged); ("pr_draft", pr_draft);
              ("pr_base_ref", pr_base_ref); ("pr_head_ref", pr_head_ref);
              ("pr_author", pr_author); ("action", action);
              ("labels", labels) ];
        StandardEvent.changes := [];
        StandardEvent.raw_payload := payload |}.

Definition issue_event_type_map : list (string * EventType) :=
  [ ("opened", ISSUE_OPENED);
    ("closed", ISSUE_CLOSED);
    ("reopened", ISSUE_REOPENED);
    ("edited", ISSUE_UPDATED);
    ("assigned", ISSUE_UPDATED);
    ("labeled", ISSUE_UPDATED) ].

Definition map_issue_event (payload : json) (delivery_id now : string)
    : result StandardEvent.t :=
  issue <- getitem payload "issue" ;;
  action <- getitem payload "action" ;;
  event_type <- table_get issue_event_type_map action ISSUE_UPDATED ;;
  sender <- getitem payload "sender" ;;
  actor <- extract_actor sender ;;
  repo <- getitem payload "repository" ;;
  repository <- extract_repository repo ;;
  issue_number <- getitem issue "number" ;;
  issue_title <- getitem issue "title" ;;
  issue_state <- getitem issue "state" ;;
  issue_url <- getitem issue "html_url" ;;
  user <- getitem issue "user" ;;
  issue_author <- getitem user "login" ;;
  issue_labels <- get issue "labels" (JArr []) ;;
  labels <- project "name" issue_labels ;;
  issue_assignees <- get issue "assignees" (JArr []) ;;
  assignees <- project "login" issue_assignees ;;
  Ok {| StandardEvent.id := delivery_id;
        StandardEvent.type := event_type;
        StandardEvent.source := "github";
        StandardEvent.timestamp := now;
        StandardEvent.actor := actor;
        StandardEvent.repository := repository;
        StandardEvent.metadata :=
          EventMetadata.init
            [ ("issue_number", issue_number); ("issue_title", issue_title);
              ("issue_state", issue_state); ("issue_url", issue_url);
              ("issue_author", issue_author); ("action", action);
              ("labels", labels); ("assignees", assignees) ];
        StandardEvent.changes := [];
        StandardEvent.raw_payload := payload |}.

Definition map_issue_comment_event (payload : json)
    (delivery_id now : string) : result StandardEvent.t :=
  comment <- getitem payload "comment" ;;
  issue <- getitem payload "issue" ;;
  is_pr <- contains "pull_request" issue ;;
  let event_type := if is_pr : bool then PR_COMMENT else ISSUE_COMMENT in
  sender <- getitem payload "sender" ;;
  actor <- extract_actor sender ;;
  repo <- getitem payload "repository" ;;
  repository <- extract_repository repo ;;
  comment_id <- getitem comment "id" ;;
  comment_body <- getitem comment "body" ;;
  comment_url <- getitem comment "html_url" ;;
  issue_number <- getitem issue "number" ;;
  issue_title <- getitem issue "title" ;;
  action <- getitem payload "action" ;;
  Ok {| StandardEvent.id := delivery_id;
        StandardEvent.type := event_type;
        StandardEvent.source := "github";
        StandardEvent.timestamp := now;
        StandardEvent.actor := actor;
        StandardEvent.repository := repository;
        StandardEvent.metadata :=
          EventMetadata.init
            [ ("comment_id", comment_id); ("comment_body", comment_body);
              ("comment_url", comment_url);
              ("issue_number", issue_number); ("issue_title", issue_title);
              ("action", action) ];
        StandardEvent.changes := [];
        StandardEvent.raw_payload := payload |}.

Definition map_pull_request_review_event (payload : json)
    (delivery_id now : string) : result StandardEvent.t :=
  review <- getitem payload "review" ;;
  pr <- getitem payload "pull_request" ;;
  sender <- getitem payload "sender" ;;
  actor <- extract_actor sender ;;
  repo <- getitem payload "repository" ;;
  repository <- extract_repository repo ;;
  review_id <- getitem review "id" ;;
  review_state <- getitem review "state" ;;
  review_body <- get review "body" (JStr "") ;;
  review_url <- getitem review "html_url" ;;
  pr_number <- getitem pr "number" ;;
  pr_title <- getitem pr "title" ;;
  action <- getitem payload "action" ;;
  Ok {| StandardEvent.id := delivery_id;
        StandardEvent.type := PR_REVIEWED;
        StandardEvent.source := "github";
        StandardEvent.timestamp := now;
        StandardEvent.actor := actor;
        StandardEvent.repository := repository;
        StandardEvent.metadata :=
          EventMetadata.init
            [ ("review_id", review_id); ("review_state", review_state);
              ("review_body", review_body); ("review_url", review_url);
              ("pr_number", pr_number); ("pr_title", pr_title);
              ("action", action) ];
        StandardEvent.changes := [];
        StandardEvent.raw_payload := payload |}.

Definition map_release_event (payload : json) (delivery_id now : string)
    : result StandardEvent.t :=
  release <- getitem payload "release" ;;
  sender <- getitem payload "sender" ;;
  actor <- extract_actor sender ;;
  repo <- getitem payload "repository" ;;
  repository <- extract_repository repo ;;
  release_id <- getitem release "id" ;;
  release_name <- getitem release "name" ;;
  release_tag <- getitem release "tag_name" ;;
  release_url <- getitem release "html_url" ;;
  release_draft <- getitem release "draft" ;;
  release_prerelease <- getitem release "prerelease" ;;
  action <- getitem payload "action" ;;
  Ok {| StandardEvent.id := delivery_id;
        StandardEvent.type := RELEASE_PUBLISHED;
        StandardEvent.source := "github";
        StandardEvent.timestamp := now;
        StandardEvent.actor := actor;
        StandardEvent.repository := repository;
        StandardEvent.metadata :=
          EventMetadata.init
            [ ("release_id", release_id); ("release_name", release_name);
              ("release_tag", release_tag); ("release_url", release_url);
              ("release_draft", release_draft);
              ("release_prerelease", release_prerelease);
              ("action", action) ];
        StandardEvent.changes := [];
        StandardEvent.raw_payload := payload |}.

End Mappers.

(* ================================================================= *)
(** ** The webhook handler ([src/github/webhook_handler.py]) *)

Definition is_ascii (s : string) : bool :=
  forallb (fun b => Sha256.Z_of_byte b <? 128) (bytes_of s).

(** [hmac.compare_digest] on two [str]: equality, and [TypeError] when
    either holds a character outside ASCII. *)
Definition compare_digest (a b : string) : result bool :=
  if is_ascii a && is_ascii b then Ok (String.eqb a b) else Raise TypeError.

Section Handler.
Context {R : Runtime}.

Definition mapper : Type := json -> string -> string -> result StandardEvent.t.

Record GitHubWebhookHandler : Type := {
  secret : list byte;
  event_mappers : list (string * mapper)
}.

(** [GitHubWebhookHandler.__init__]: the secret is kept as its UTF-8
    bytes and the registry has six entries.  (The module's import list
    also names [map_commit_event], which [mappers.py] does not define; the
    registry does not mention it.) *)
Definition new_handler (secret_text : string) : GitHubWebhookHandler :=
  {| secret := bytes_of secret_text;
     event_mappers :=
       [ ("push", map_push_event);
         ("pull_request", map_pull_request_event);
         ("issues", map_issue_event);
         ("issue_comment", map_issue_comment_event);
         ("pull_request_review", map_pull_request_review_event);
         ("release", map_release_event) ] |}.

Definition verify_signature (self : GitHubWebhookHandler)
    (payload : list byte) (signature : string) : result bool :=
  if String.eqb signature "" || negb (String.prefix "sha256=" signature)
  then Ok false
  else
    let expected_signature := Hmac.hexdigest (secret self) payload in
    let received_signature := drop 7 signature in
    compare_digest expected_signature received_signature.

(** What [process_webhook] returns or raises: [None] for a category
    without a mapper, the mapper's event, or the mapper's exception,
    re-raised as it is.  (Before it returns [None], and before it
    re-raises, it prints a line; the console is not part of this
    function.) *)
Definition process_webhook (self : GitHubWebhookHandler)
    (event_type : string) (payload : json) (delivery_id now : string)
    : result (option StandardEvent.t) :=
  match lookup event_type (event_mappers self) with
  | None => Ok None
  | Some mapper =>
      standard_event <- mapper payload delivery_id now ;;
      Ok (Some standard_event)
  end.

(** A header is missing when [headers.get] gives [None] and also when
    its value is the empty string: both are false for [not]. *)
Definition header_missing (h : option string) : bool :=
  match h with
  | None => true
  | Some v => String.eqb v ""
  end.

Definition handle_request (self : GitHubWebhookHandler)
    (headers : list (string * string)) (body : list byte) (now : string)
    : result (option StandardEvent.t) :=
  let signature := match lookup "X-Hub-Signature-256" headers with
                   | Some v => v
                   | None => ""
                   end in
  valid <- verify_signature self body signature ;;
  if negb valid then Raise (ValueError "Invalid webhook signature")
  else
    payload <- json_loads body ;;
    let event_type := lookup "X-GitHub-Event" headers in
    let delivery_id := lookup "X-GitHub-Delivery" headers in
    if header_missing event_type || header_missing delivery_id
    then Raise (ValueError "Missing required headers")
    else
      match event_type, delivery_id with
      | Some event_type, Some delivery_id =>
          process_webhook self event_type payload delivery_id now
      | _, _ => Raise (ValueError "Missing required headers")
      end.

End Handler.

(* ================================================================= *)
(** ** Publishers ([src/event_bus/publisher.py]) *)

Section Publishers.
(** Whatever a sink acts on: the console, the network, a queue. *)
Context {World : Type}.

(** The interface [EventPublisher]: [publish] returns a [bool] or
    raises, and acts on the world. *)
Record EventPublisher : Type := {
  publish : StandardEvent.t -> World -> result bool * World
}.

(** [MessageQueuePublisher.publish] *)
Definition MessageQueuePublisher : EventPublisher :=
  {| publish := fun _ w => (Raise NotImplementedError, w) |}.

(** [[publisher.publish(event) for publisher in self.publishers]]: the
    sinks are called in list order; an exception leaves the
    comprehension and the remaining sinks are not called. *)
Fixpoint publish_each (publishers : list EventPublisher)
    (event : StandardEvent.t) (w : World) : result (list bool) * World :=
  match publishers with
  | [] => (Ok [], w)
  | publisher :: rest =>
      match publish publisher event w with
      | (Raise e, w1) => (Raise e, w1)
      | (Ok r, w1) =>
          match publish_each rest event w1 with
          | (Raise e, w2) => (Raise e, w2)
          | (Ok rs, w2) => (Ok (r :: rs), w2)
          end
      end
  end.

(** [MultiPublisher.publish] *)
Definition MultiPublisher_publish (publishers : list EventPublisher)
    (event : StandardEvent.t) (w : World) : result bool * World :=
  match publish_each publishers event w with
  | (Raise e, w') => (Raise e, w')
  | (Ok results, w') => (Ok (forallb (fun r => r) results), w')
  end.

Definition MultiPublisher (publishers : list EventPublisher)
    : EventPublisher :=
  {| publish := MultiPublisher_publish publishers |}.

End Publishers.
Arguments EventPublisher World : clear implicits.

(** ["=" * n] *)
Fixpoint times (c : string) (n : nat) : string :=
  match n with
  | O => ""
  | S n' => (c ++ times c n')%string
  end.

(** Code that prints: from the texts on the console so far it gives what
    it returns or raises, and the texts on the console after it, one per
    call of [print]. *)
Definition console (A : Type) : Type := list string -> result A * list string.

Definition ret {A : Type} (a : A) : console A := fun out => (Ok a, out).

(** A computation that does not print. *)
Definition lift {A : Type} (r : result A) : console A := fun out => (r, out).

Definition seq {A B : Type} (c : console A) (k : A -> console B)
    : console B :=
  fun out =>
    match c out with
    | (Ok a, out1) => k a out1
    | (Raise e, out1) => (Raise e, out1)
    end.

Notation "x <~ c ;; k" := (seq c (fun x => k))
  (at level 61, c at next level, right associativity).

(** [print(text)] *)
Definition print {R : Runtime} (text : string) : console unit :=
  fun out =>
    match print_error text with
    | None => (Ok tt, out ++ [text])
    | Some e => (Raise e, out)
    end.

(** [ConsolePublisher.publish]: the world is the console.  An f-string
    formats a value with [str] before the line is printed, and
    [json.dumps] is evaluated before the call of [print] that takes its
    text. *)
Definition ConsolePublisher {R : Runtime} : EventPublisher (list string) :=
  {| publish := fun event =>
       _ <~ print (times "=" 80) ;;
       _ <~ print ("Event: " ++ EventType_value (StandardEvent.type event)) ;;
       _ <~ print ("Source: " ++ StandardEvent.source event) ;;
       username <~ lift (py_str (Actor.username (StandardEvent.actor event))) ;;
       _ <~ print ("Actor: " ++ username) ;;
       full_name <~ lift (py_str (Repository.full_name
                                    (StandardEvent.repository event))) ;;
       _ <~ print ("Repository: " ++ full_name) ;;
       _ <~ print ("Timestamp: " ++ StandardEvent.timestamp event) ;;
       _ <~ print (times "-" 80) ;;
       text <~ lift (dumps (to_dict event)) ;;
       _ <~ print text ;;
       _ <~ print (times "=" 80) ;;
       ret true |}.

(* ================================================================= *)
(** ** The HTTP endpoint ([src/api/flask_app.py]) *)

(** [str(e)] of an exception that the clause [except ValueError] catches:
    the message it carries. *)
Definition exn_message (e : exn) : string :=
  match e with
  | ValueError m | JSONDecodeError m | UnicodeDecodeError m
  | UnicodeEncodeError m => m
  | _ => ""
  end.

(** A response: its status and the JSON object of its body. *)
Record response : Type := {
  status_code : Z;
  response_body : list (string * string)
}.

Definition is_upper (c : ascii) : bool :=
  let n := nat_of_ascii c in ((65 <=? n) && (n <=? 90))%nat.

Definition is_lower (c : ascii) : bool :=
  let n := nat_of_ascii c in ((97 <=? n) && (n <=? 122))%nat.

Definition to_upper (c : ascii) : ascii :=
  if is_lower c then ascii_of_nat (nat_of_ascii c - 32) else c.

Definition to_lower (c : ascii) : ascii :=
  if is_upper c then ascii_of_nat (nat_of_ascii c + 32) else c.

(** [str.title()] on ASCII text: a letter that follows a letter is made
    lower case, any other letter upper case. *)
Fixpoint title_from (previous_is_cased : bool) (s : string) : string :=
  match s with
  | EmptyString => EmptyString
  | String c s' =>
      if is_lower c
      then String (if previous_is_cased then c else to_upper c)
                  (title_from true s')
      else if is_upper c
           then String (if previous_is_cased then to_lower c else c)
                       (title_from true s')
           else String c (title_from false s')
  end.

Definition title (s : string) : string := title_from false s.

(** [s.replace(a, b)] for two characters. *)
Fixpoint replace (a b : ascii) (s : string) : string :=
  match s with
  | EmptyString => EmptyString
  | String c s' => String (if Ascii.eqb c a then b else c) (replace a b s')
  end.

(** [dict(request.headers)].  The request is known to the application by
    its WSGI environment, where the server keeps the header field [Name]
    as the variable [HTTP_NAME], in upper case with underscores, and the
    content type and length without the prefix.  Werkzeug's
    [EnvironHeaders] yields each field under the name
    [key[5:].replace('_', '-').title()], and the content type and length,
    similarly renamed, when they are not empty. *)
Definition header_dict (environ : list (string * string))
    : list (string * string) :=
  flat_map
    (fun kv =>
       let key := fst kv in
       let value := snd kv in
       if String.prefix "HTTP_" key
          && negb (String.eqb key "HTTP_CONTENT_TYPE"
                   || String.eqb key "HTTP_CONTENT_LENGTH")
       then [(title (replace "_" "-" (drop 5 key)), value)]
       else if (String.eqb key "CONTENT_TYPE"
                || String.eqb key "CONTENT_LENGTH")
               && negb (String.eqb value "")
            then [(title (replace "_" "-" key), value)]
            else [])
    environ.

Section FlaskApp.
Context {R : Runtime} {World : Type}.

(** [github_webhook]: the request is its WSGI environment and raw body;
    the handler and the publisher are the module's [github_handler] and
    [event_publisher], and [w] is the world the publisher finds.  The
    result is the response the view returns.  (In its last clause the
    view also prints a line; the console is not part of this
    function.) *)
Definition github_webhook (github_handler : GitHubWebhookHandler)
    (event_publisher : EventPublisher World)
    (environ : list (string * string)) (body : list byte) (now : string)
    (w : World) : response :=
  let on_exception (e : exn) : response :=
    if is_ValueError e
    then {| status_code := 401;
            response_body := [("status", "error");
                              ("message", exn_message e)] |}
    else {| status_code := 500;
            response_body := [("status", "error");
                              ("message", "Internal server error")] |} in
  match handle_request github_handler (header_dict environ) body now with
  | Raise e => on_exception e
  | Ok None =>
      {| status_code := 200;
         response_body := [("status", "ignored");
                           ("message", "Event type not supported")] |}
  | Ok (Some event) =>
      match fst (publish event_publisher event w) with
      | Raise e => on_exception e
      | Ok true =>
          {| status_code := 200;
             response_body :=
               [("status", "success");
                ("event_id", StandardEvent.id event);
                ("event_type",
                  EventType_value (StandardEvent.type event))] |}
      | Ok false =>
          {| status_code := 500;
             response_body := [("status", "error");
                               ("message", "Failed to publish event")] |}
      end
  end.

End FlaskApp.

(* ================================================================= *)
(** ** Fixtures: the payloads of [tests/test_github_handler.py] *)

Module Fixture.

(** [str] on the values the fixtures hold: a [str] is itself, an [int]
    its decimal numeral, refused when it has more than 4300 digits, [None]
    and the booleans their names. *)
Definition str_scalar (v : json) : result string :=
  match v with
  | JStr s => Ok s
  | JInt z =>
      let digits := NilEmpty.string_of_uint (N.to_uint (Z.abs_N z)) in
      if (String.length digits <=? 4300)%nat
      then Ok (NilEmpty.string_of_int (Z.to_int z))
      else Raise (ValueError
                    "Exceeds the limit (4300 digits) for integer string conversion")
  | JBool true => Ok "True"
  | JBool false => Ok "False"
  | JNull => Ok "None"
  | _ => Ok ""
  end.

Definition pusher : json :=
  JObj [ ("id", JInt 1); ("login", JStr "testuser");
         ("name", JStr "Test User"); ("email", JStr "test@example.com") ].

Definition repository : json :=
  JObj [ ("id", JInt 123); ("name", JStr "test-repo");
         ("full_name", JStr "testuser/test-repo");
         ("owner", JObj [("login", JStr "testuser")]);
         ("html_url", JStr "https://github.com/testuser/test-repo");
         ("default_branch", JStr "main") ].

Definition commit : json :=
  JObj [ ("id", JStr "def456"); ("message", JStr "Test commit");
         ("timestamp", JStr "2026-02-27T21:00:00Z");
         ("author", JObj [ ("username", JStr "testuser");
                           ("name", JStr "Test User");
                           ("email", JStr "test@example.com") ]);
         ("added", JArr [JStr "file1.txt"]);
         ("modified", JArr [JStr "file2.txt"]);
         ("removed", JArr []) ].

(** The payload of [test_push_event_mapping], with the given commits. *)
Definition push_with (commits : list json) : json :=
  JObj [ ("ref", JStr "refs/heads/main"); ("before", JStr "abc123");
         ("after", JStr "def456"); ("pusher", pusher);
         ("repository", repository); ("commits", JArr commits) ].

Definition push : json := push_with [commit].

Definition sender : json :=
  JObj [ ("id", JInt 1); ("login", JStr "testuser");
         ("avatar_url", JStr "https://github.com/testuser.png") ].

Definition repository_pr : json :=
  JObj [ ("id", JInt 123); ("name", JStr "test-repo");
         ("full_name", JStr "testuser/test-repo");
         ("owner", JObj [("login", JStr "testuser")]);
         ("html_url", JStr "https://github.com/testuser/test-repo") ].

(** The pull request of [test_pull_request_opened], its [merged] entry
    given by [merged] (none when [None]). *)
Definition pull_request (merged : option json) : json :=
  JObj ([ ("number", JInt 42); ("title", JStr "Add new feature");
          ("state", JStr "open");
          ("html_url", JStr "https://github.com/testuser/test-repo/pull/42") ]
        ++ match merged with
           | Some m => [("merged", m)]
           | None => []
           end
        ++ [ ("draft", JBool false);
             ("user", JObj [("login", JStr "testuser")]);
             ("base", JObj [("ref", JStr "main")]);
             ("head", JObj [("ref", JStr "feature-branch")]);
             ("labels", JArr []) ]).

Definition pr_event (action : json) (merged : option json) : json :=
  JObj [ ("action", action); ("sender", sender);
         ("repository", repository_pr);
         ("pull_request", pull_request merged) ].

(** The payload of [test_pull_request_opened]. *)
Definition pr_opened : json := pr_event (JStr "opened") (Some (JBool false)).

Definition issue (linked : bool) : json :=
  JObj ([ ("number", JInt 7); ("title", JStr "A question") ]
        ++ if linked
           then [("pull_request", JObj [("url", JStr "https://api.github.com/pulls/7")])]
           else []).

Definition issue_comment (linked : bool) : json :=
  JObj [ ("action", JStr "created"); ("sender", sender);
         ("repository", repository_pr);
         ("issue", issue linked);
         ("comment", JObj [ ("id", JInt 99); ("body", JStr "Looks good");
                            ("html_url", JStr "https://github.com/c/99") ]) ].

(** A review without a [body]. *)
Definition review : json :=
  JObj [ ("action", JStr "submitted"); ("sender", sender);
         ("repository", repository_pr);
         ("pull_request", pull_request None);
         ("review", JObj [ ("id", JInt 5); ("state", JStr "approved");
                           ("html_url", JStr "https://github.com/r/5") ]) ].

(** The body and the secret of [test_signature_verification]; the body is
    the sixteen bytes of the text: brace, "test", colon, space, "data",
    brace, the two words in double quotes. *)
Definition dq : string := String (ascii_of_nat 34) EmptyString.
Definition body : list byte :=
  bytes_of ("{" ++ dq ++ "test" ++ dq ++ ": " ++ dq ++ "data" ++ dq ++ "}")%string.
Definition secret_text : string := "test-secret".

Definition list_byte_eqb (a b : list byte) : bool :=
  String.eqb (string_of_list_byte a) (string_of_list_byte b).

(** A stand-in for [json.loads] that knows one text: [body] decodes to the
    object it denotes, any other body is refused. *)
Definition loads (b : list byte) : result json :=
  if list_byte_eqb b body then Ok (JObj [("test", JStr "data")])
  else Raise (JSONDecodeError "Expecting value: line 1 column 1 (char 0)").

(** A stand-in for the text of [json.dumps], and a console that takes
    every text. *)
Definition dumps (v : json) : result string := Ok "{...}".

Definition runtime : Runtime :=
  {| py_str := str_scalar; json_loads := loads; json_dumps := dumps;
     print_error := fun _ => None |}.

Definition handler : GitHubWebhookHandler :=
  new_handler (R := runtime) secret_text.

Definition now : string := "2026-02-27T21:00:01.000000".

(** The signature header of the test: the tag followed by the digest of
    [body] under the secret. *)
Definition signature : string :=
  "sha256=b4820cec871eff53285edfbf9e7cd0081e8e5cca759fa3b0453d9023489421a3".

(** A body that is not JSON, and its signature under the secret. *)
Definition body_not_json : list byte := bytes_of "not json".
Definition signature_not_json : string :=
  "sha256=fe68c90da0bbb712f0f5c50663c6a30698f249678fb190ddd85d95dfe208faa6".

(** A signed request without the event and delivery headers, a complete
    request with a wrong signature, and a complete, signed request. *)
Definition headers_signed_only : list (string * string) :=
  [ ("X-Hub-Signature-256", signature) ].

Definition headers_bad_signature : list (string * string) :=
  [ ("X-Hub-Signature-256", "sha256=invalid");
    ("X-GitHub-Event", "push");
    ("X-GitHub-Delivery", "test-delivery-id") ].

Definition headers_complete (sig : string) : list (string * string) :=
  [ ("X-Hub-Signature-256", sig);
    ("X-GitHub-Event", "push");
    ("X-GitHub-Delivery", "test-delivery-id") ].

(** An event to publish: the one a ping-like payload without metadata
    would give. *)
Definition event : StandardEvent.t :=
  {| StandardEvent.id := "test-delivery-id";
     StandardEvent.type := PR_OPENED;
     StandardEvent.source := "github";
     StandardEvent.timestamp := now;
     StandardEvent.actor :=
       {| Actor.id := JStr "1"; Actor.username := JStr "testuser";
          Actor.name := JNull; Actor.email := JNull;
          Actor.avatar_url := JNull |};
     StandardEvent.repository :=
       {| Repository.id := JStr "123"; Repository.name := JStr "test-repo";
          Repository.full_name := JStr "testuser/test-repo";
          Repository.owner := JStr "testuser";
          Repository.url := JStr "https://github.com/testuser/test-repo";
          Repository.default_branch := JStr "main" |};
     StandardEvent.metadata := EventMetadata.init [];
     StandardEvent.changes := [];
     StandardEvent.raw_payload := JObj [] |}.

(** Test doubles for sinks: each appends its name to the log it is given
    and returns a fixed answer. *)
Definition sink (name : string) (answer : bool)
    : EventPublisher (list string) :=
  {| publish := fun _ log => (Ok answer, log ++ [name]) |}.

End Fixture.

(* ================================================================= *)
(** ** Shapes of payloads, for stating the properties *)

(** The commit objects of a push payload, as the loop of [map_push_event]
    meets them: the items of [payload.get('commits', [])]. *)
Definition push_commits (payload : json) : result (list json) :=
  commits <- get payload "commits" (JArr []) ;;
  iterate commits.

(** [o] is a dict that has every key of [ks]. *)
Definition has_keys (ks : list string) (o : json) : bool :=
  match o with
  | JObj d => forallb (fun k => match lookup k d with
                                | Some _ => true
                                | None => false
                                end) ks
  | _ => false
  end.

(** [o[k]] exists and satisfies [p]. *)
Definition field_ok (o : json) (k : string) (p : json -> bool) : bool :=
  match getitem o k with
  | Ok v => p v
  | Raise _ => false
  end.

(** A commit object with the keys the push mapper subscripts. *)
Definition commit_object (c : json) : bool :=
  has_keys ["id"; "message"; "timestamp"] c
  && field_ok c "author" (has_keys ["username"; "name"; "email"]).

(** [str(v)] returns: [v] is not an [int] beyond the digit limit, nor
    holds one. *)
Definition str_defined {R : Runtime} (v : json) : bool :=
  match py_str v with
  | Ok _ => true
  | Raise _ => false
  end.

(** A user object: a dict with a [login] and an [id] that [str]
    converts. *)
Definition user_object {R : Runtime} (u : json) : bool :=
  has_keys ["id"; "login"] u && field_ok u "id" str_defined.

(** A repository object: a dict with the keys the mappers subscript, an
    [id] that [str] converts and an [owner] with a [login]. *)
Definition repository_object {R : Runtime} (r : json) : bool :=
  has_keys ["id"; "name"; "full_name"; "html_url"] r
  && field_ok r "id" str_defined
  && field_ok r "owner" (has_keys ["login"]).

(** A push payload whose commit objects are [commits]. *)
Definition push_payload {R : Runtime} (payload : json)
    (commits : list json) : bool :=
  has_keys ["ref"; "before"; "after"] payload
  && field_ok payload "pusher" user_object
  && field_ok payload "repository" repository_object
  && forallb commit_object commits.

(** The items of [o.get(k, [])] form a list of dicts that have [key]. *)
Definition list_field_ok (o : json) (k key : string) : bool :=
  match get o k (JArr []) with
  | Ok (JArr items) => forallb (has_keys [key]) items
  | _ => false
  end.

(** A pull request object with the keys the mapper subscripts. *)
Definition pull_request_object (pr : json) : bool :=
  has_keys ["number"; "title"; "state"; "html_url"] pr
  && field_ok pr "base" (has_keys ["ref"])
  && field_ok pr "head" (has_keys ["ref"])
  && field_ok pr "user" (has_keys ["login"])
  && list_field_ok pr "labels" "name".

(** A pull_request payload: a pull request object, an action that can be
    looked up, a sender and a repository. *)
Definition pull_request_payload {R : Runtime} (payload : json) : bool :=
  field_ok payload "pull_request" pull_request_object
  && field_ok payload "action" hashable
  && field_ok payload "sender" user_object
  && field_ok payload "repository" repository_object.

(** An issue_comment payload: a comment, an issue object, an action, a
    sender and a repository. *)
Definition issue_comment_payload {R : Runtime} (payload : json) : bool :=
  has_keys ["action"] payload
  && field_ok payload "comment" (has_keys ["id"; "body"; "html_url"])
  && field_ok payload "issue" (has_keys ["number"; "title"])
  && field_ok payload "sender" user_object
  && field_ok payload "repository" repository_object.



(** Following the words of the specification of the composite publisher:
    every sink is invoked, in list order, whatever the earlier ones
    answered.  The outcomes are listed in that order, with the world the
    last sink leaves. *)
Fixpoint invoke_all {World : Type} (sinks : list (EventPublisher World))
    (event : StandardEvent.t) (w : World) : list (result bool) * World :=
  match sinks with
  | [] => ([], w)
  | sink :: rest =>
      let (outcome, w1) := publish sink event w in
      let (outcomes, w2) := invoke_all rest event w1 in
      (outcome :: outcomes, w2)
  end.

(** The sink returned, it did not raise. *)
Definition returned (outcome : result bool) : Prop :=
  exists b, outcome = Ok b.

(** The sink returned [True]. *)
Definition succeeded (outcome : result bool) : bool :=
  match outcome with
  | Ok true => true
  | _ => false
  end.

(** The value [handle_request] takes for the signature:
    [headers.get('X-Hub-Signature-256', '')]. *)
Definition signature_header (headers : list (string * string)) : string :=
  match lookup "X-Hub-Signature-256" headers with
  | Some v => v
  | None => ""
  end.

(* ================================================================= *)
(** ** More payloads and shapes, for the properties of the other code *)

Module Sample.

(** An issues payload with two labels and two assignees. *)
Definition issue_event (action : json) : json :=
  JObj [ ("action", action); ("sender", Fixture.sender);
         ("repository", Fixture.repository_pr);
         ("issue",
           JObj [ ("number", JInt 7); ("title", JStr "A question");
                  ("state", JStr "open");
                  ("html_url", JStr "https://github.com/testuser/test-repo/issues/7");
                  ("user", JObj [("login", JStr "testuser")]);
                  ("labels", JArr [ JObj [("name", JStr "bug"); ("color", JStr "d73a4a")];
                                    JObj [("name", JStr "help wanted")] ]);
                  ("assignees", JArr [ JObj [("login", JStr "alice")];
                                       JObj [("login", JStr "bob")] ]) ]) ].

(** A release payload; its action is a parameter. *)
Definition release_event (action : json) : json :=
  JObj [ ("action", action); ("sender", Fixture.sender);
         ("repository", Fixture.repository_pr);
         ("release",
           JObj [ ("id", JInt 9); ("name", JStr "First release");
                  ("tag_name", JStr "v1.0.0");
                  ("html_url", JStr "https://github.com/testuser/test-repo/releases/v1.0.0");
                  ("draft", JBool false); ("prerelease", JBool false) ]) ].

(** A JSON text is written here with apostrophes where the text has
    double quotes. *)
Fixpoint requote (s : string) : string :=
  match s with
  | EmptyString => EmptyString
  | String c s' =>
      String (if Ascii.eqb c (ascii_of_nat 39) then ascii_of_nat 34 else c)
             (requote s')
  end.

(** The body of a push delivery with one commit, the object it denotes,
    and its signature under the secret of the test suite. *)
Definition push_body : list byte :=
  bytes_of (requote
    ("{'ref':'refs/heads/main','before':'abc123','after':'def456',"
     ++ "'pusher':{'id':1,'login':'testuser'},"
     ++ "'repository':{'id':123,'name':'test-repo',"
     ++ "'full_name':'testuser/test-repo','owner':{'login':'testuser'},"
     ++ "'html_url':'https://github.com/testuser/test-repo'},"
     ++ "'commits':[{'id':'def456','message':'Test commit',"
     ++ "'timestamp':'2026-02-27T21:00:00Z',"
     ++ "'author':{'username':'testuser','name':'Test User',"
     ++ "'email':'test@example.com'},'added':['file1.txt']}]}")%string).

Definition push_payload : json :=
  JObj [ ("ref", JStr "refs/heads/main"); ("before", JStr "abc123");
         ("after", JStr "def456");
         ("pusher", JObj [("id", JInt 1); ("login", JStr "testuser")]);
         ("repository", Fixture.repository_pr);
         ("commits",
           JArr [ JObj [ ("id", JStr "def456");
                         ("message", JStr "Test commit");
                         ("timestamp", JStr "2026-02-27T21:00:00Z");
                         ("author", JObj [ ("username", JStr "testuser");
                                           ("name", JStr "Test User");
                                           ("email", JStr "test@example.com") ]);
                         ("added", JArr [JStr "file1.txt"]) ] ]) ].

Definition push_signature : string :=
  "sha256=da70ac3de40b57a13577f32bb83489eace9c0a443e4358e8494bd19c3d48645f".

(** The body of a ping delivery, a category without a mapper. *)
Definition ping_body : list byte :=
  bytes_of (requote "{'zen':'Keep it logically awesome.'}").

Definition ping_signature : string :=
  "sha256=64b947b7356228127e1c745ede671f76005899750568413f046249b50de86a94".

(** A body of two thousand opening brackets, nested deeper than
    [json.loads] goes, and its signature. *)
Definition deep_body : list byte := bytes_of (times "[" 2000).

Definition deep_signature : string :=
  "sha256=5432404d813a154c4dd90333b4b1f86ea29b71329ebb1baf4040bf2e2e3a1ce4".

(** A stand-in for [json.loads] that knows the bodies above. *)
Definition loads (b : list byte) : result json :=
  if Fixture.list_byte_eqb b push_body then Ok push_payload
  else if Fixture.list_byte_eqb b ping_body
       then Ok (JObj [("zen", JStr "Keep it logically awesome.")])
       else if Fixture.list_byte_eqb b deep_body
            then Raise RecursionError
            else Raise (JSONDecodeError
                          "Expecting value: line 1 column 1 (char 0)").

Definition runtime : Runtime :=
  {| py_str := Fixture.str_scalar; json_loads := loads;
     json_dumps := Fixture.dumps; print_error := fun _ => None |}.

Definition handler : GitHubWebhookHandler :=
  new_handler (R := runtime) Fixture.secret_text.

Definition headers (category sig : string) : list (string * string) :=
  [ ("X-Hub-Signature-256", sig);
    ("X-GitHub-Event", category);
    ("X-GitHub-Delivery", "72d3162e-cc78-11e3-81ab-4c9367dc0958") ].

(** A sink that raises the given exception, leaving the log as it is. *)
Definition raising_sink (e : exn) : EventPublisher (list string) :=
  {| publish := fun _ log => (Raise e, log) |}.

(** The WSGI environment of a delivery: the three header fields as a
    server keeps them, among other variables. *)
Definition environ (category sig : string) : list (string * string) :=
  [ ("REQUEST_METHOD", "POST");
    ("PATH_INFO", "/webhooks/github");
    ("CONTENT_TYPE", "application/json");
    ("HTTP_USER_AGENT", "GitHub-Hookshot/044aadd");
    ("HTTP_X_HUB_SIGNATURE_256", sig);
    ("HTTP_X_GITHUB_EVENT", category);
    ("HTTP_X_GITHUB_DELIVERY", "72d3162e-cc78-11e3-81ab-4c9367dc0958") ].

(** A pull_request payload with two labels. *)
Definition pull_request_labeled : json :=
  JObj [ ("action", JStr "labeled"); ("sender", Fixture.sender);
         ("repository", Fixture.repository_pr);
         ("pull_request",
           JObj [ ("number", JInt 42); ("title", JStr "Add new feature");
                  ("state", JStr "open");
                  ("html_url", JStr "https://github.com/testuser/test-repo/pull/42");
                  ("user", JObj [("login", JStr "testuser")]);
                  ("base", JObj [("ref", JStr "main")]);
                  ("head", JObj [("ref", JStr "feature-branch")]);
                  ("labels",
                    JArr [ JObj [("name", JStr "enhancement"); ("id", JInt 7)];
                           JObj [("name", JStr "needs review")] ]) ]) ].

(** An id of 4301 digits, which [str] refuses, and a release payload
    whose sender has it. *)
Definition long_id : json := JInt (10 ^ 4300).

Definition release_long_id : json :=
  JObj [ ("action", JStr "published");
         ("sender", JObj [("id", long_id); ("login", JStr "testuser")]);
         ("repository", Fixture.repository_pr);
         ("release",
           JObj [ ("id", JInt 9); ("name", JStr "First release");
                  ("tag_name", JStr "v1.0.0");
                  ("html_url", JStr "https://github.com/testuser/test-repo/releases/v1.0.0");
                  ("draft", JBool false); ("prerelease", JBool false) ]) ].

(** A login with a letter outside ASCII: the word Jose with an acute
    accent on its last letter, in UTF-8. *)
Definition accented : string :=
  ("Jos" ++ String (ascii_of_nat 195) (String (ascii_of_nat 169) ""))%string.

(** An event whose actor has that login. *)
Definition accented_event : StandardEvent.t :=
  {| StandardEvent.id := "test-delivery-id";
     StandardEvent.type := PR_OPENED;
     StandardEvent.source := "github";
     StandardEvent.timestamp := Fixture.now;
     StandardEvent.actor :=
       {| Actor.id := JStr "1"; Actor.username := JStr accented;
          Actor.name := JNull; Actor.email := JNull;
          Actor.avatar_url := JNull |};
     StandardEvent.repository := StandardEvent.repository Fixture.event;
     StandardEvent.metadata := EventMetadata.init [];
     StandardEvent.changes := [];
     StandardEvent.raw_payload := JObj [] |}.

(** A console whose encoding is ASCII. *)
Definition ascii_console : Runtime :=
  {| py_str := Fixture.str_scalar; json_loads := loads;
     json_dumps := Fixture.dumps;
     print_error := fun text =>
       if is_ascii text then None
       else Some (UnicodeEncodeError
                    "'ascii' codec can't encode character: ordinal not in range(128)") |}.

End Sample.

(** A release payload with the keys the release mapper subscripts. *)
Definition release_payload {R : Runtime} (payload : json) : bool :=
  field_ok payload "release"
    (has_keys ["id"; "name"; "tag_name"; "html_url"; "draft"; "prerelease"])
  && field_ok payload "sender" user_object
  && field_ok payload "repository" repository_object
  && has_keys ["action"] payload.

(** A pull_request_review payload with the keys the review mapper
    subscripts; the review's [body] is not among them. *)
Definition review_payload {R : Runtime} (payload : json) : bool :=
  field_ok payload "review" (has_keys ["id"; "state"; "html_url"])
  && field_ok payload "pull_request" (has_keys ["number"; "title"])
  && field_ok payload "sender" user_object
  && field_ok payload "repository" repository_object
  && has_keys ["action"] payload.

(** An issue object with the keys the issues mapper subscripts; its labels
    and assignees, when present, are lists of dicts with a [name] and a
    [login]. *)
Definition issue_object (issue : json) : bool :=
  has_keys ["number"; "title"; "state"; "html_url"] issue
  && field_ok issue "user" (has_keys ["login"])
  && list_field_ok issue "labels" "name"
  && list_field_ok issue "assignees" "login".

(** An issues payload: an issue object, an action that can be looked up,
    a sender and a repository. *)
Definition issues_payload {R : Runtime} (payload : json) : bool :=
  field_ok payload "issue" issue_object
  && field_ok payload "action" hashable
  && field_ok payload "sender" user_object
  && field_ok payload "repository" repository_object.

(** A payload that is well formed for a registered category. *)
Definition well_formed {R : Runtime} (category : string) (payload : json)
    : bool :=
  if String.eqb category "push" then
    match push_commits payload with
    | Ok commits => push_payload payload commits
    | Raise _ => false
    end
  else if String.eqb category "pull_request" then pull_request_payload payload
  else if String.eqb category "issues" then issues_payload payload
  else if String.eqb category "issue_comment" then
    issue_comment_payload payload
  else if String.eqb category "pull_request_review" then
    review_payload payload
  else if String.eqb category "release" then release_payload payload
  else false.

(** The key under which a category's payload names who acted. *)
Definition actor_key (category : string) : string :=
  if String.eqb category "push" then "pusher" else "sender".

(** A digit of a lower-case hexadecimal numeral. *)
Definition is_lower_hex (c : ascii) : bool :=
  let n := nat_of_ascii c in
  ((48 <=? n) && (n <=? 57) || (97 <=? n) && (n <=? 102))%nat.

(** The seven texts that [ConsolePublisher.publish] prints before it
    serialises the event, given what [str] made of the actor's username
    and of the repository's full name. *)
Definition heading (event : StandardEvent.t) (username full_name : string)
    : list string :=
  [ times "=" 80;
    ("Event: " ++ EventType_value (StandardEvent.type event))%string;
    ("Source: " ++ StandardEvent.source event)%string;
    ("Actor: " ++ username)%string;
    ("Repository: " ++ full_name)%string;
    ("Timestamp: " ++ StandardEvent.timestamp event)%string;
    times "-" 80 ].

(** The console takes every one of the texts. *)
Definition console_accepts {R : Runtime} (texts : list string) : bool :=
  forallb (fun text => match print_error text with
                       | None => true
                       | Some _ => false
                       end) texts.

(** A text in title case, as [str.title()] leaves it: no lower-case
    letter without a letter before it, no upper-case letter after a
    letter. *)
Fixpoint titled (previous_is_cased : bool) (s : string) : bool :=
  match s with
  | EmptyString => true
  | String c s' =>
      if is_lower c then previous_is_cased && titled true s'
      else if is_upper c then negb previous_is_cased && titled true s'
           else titled false s'
  end.

(** The three header names [handle_request] reads. *)
Definition request_headers : list string :=
  [ "X-Hub-Signature-256"; "X-GitHub-Event"; "X-GitHub-Delivery" ].

(** The categories of the registry. *)
Definition registered_categories : list string :=
  [ "push"; "pull_request"; "issues"; "issue_comment";
    "pull_request_review"; "release" ].

(* ================================================================= *)
(** * Properties *)

(** ** The hash functions on published test vectors *)

Example sha256_abc :
  Hmac.hex (Sha256.digest (bytes_of "abc"))
  = "ba7816bf8f01cfea414140de5dae2223b00361a396177a9cb410ff61f20015ad".
Proof. vm_compute. reflexivity. Qed.

Example sha256_empty :
  Hmac.hex (Sha256.digest [])
  = "e3b0c44298fc1c149afbf4c8996fb92427ae41e4649b934ca495991b7852b855".
Proof. vm_compute. reflexivity. Qed.

Example hmac_fox :
  Hmac.hexdigest (bytes_of "key")
    (bytes_of "The quick brown fox jumps over the lazy dog")
  = "f7bc83f430538424b13298e6aa6fb143ef4d59a14946175997479dbc2d1a3cd8".
Proof. vm_compute. reflexivity. Qed.

(** ** Reasoning about results *)

Lemma bind_Ok {A B : Type} (r : result A) (k : A -> result B) (b : B) :
  bind r k = Ok b -> exists a, r = Ok a /\ k a = Ok b.
Proof.
  destruct r as [a | e]; simpl; intros H.
  - exists a. split; [reflexivity | exact H].
  - discriminate H.
Qed.

(** Splits a successful run of a mapper into the successful steps it is
    made of. *)
Ltac bind_inv H :=
  repeat (let a := fresh "v" in
          let E := fresh "E" in
          apply bind_Ok in H; destruct H as (a & E & H)).

Lemma getitem_Ok_dict (o : json) (k : string) (v : json) :
  getitem o k = Ok v -> exists d, o = JObj d /\ lookup k d = Some v.
Proof.
  destruct o; simpl; try discriminate.
  destruct (lookup k d) eqn:E; intros H; inversion H; subst.
  exists d. split; [reflexivity | assumption].
Qed.

Lemma get_Ok_dict (o : json) (k : string) (dflt v : json) :
  get o k dflt = Ok v ->
  exists d, o = JObj d /\
            v = match lookup k d with Some x => x | None => dflt end.
Proof.
  destruct o; simpl; try discriminate.
  intros H. exists d. split; [reflexivity|].
  destruct (lookup k d); inversion H; reflexivity.
Qed.

Lemma for_each_length {A B : Type} (f : A -> result B) (l : list A)
    (r : list B) :
  for_each f l = Ok r -> List.length r = List.length l.
Proof.
  revert r. induction l as [| x l IH]; simpl; intros r H.
  - inversion H. reflexivity.
  - bind_inv H. inversion H; subst. simpl. f_equal. apply IH. assumption.
Qed.

Lemma for_each_nth {A B : Type} (f : A -> result B) (l : list A)
    (r : list B) :
  for_each f l = Ok r ->
  forall i x, nth_error l i = Some x ->
  exists y, nth_error r i = Some y /\ f x = Ok y.
Proof.
  revert r. induction l as [| a l IH]; simpl; intros r H i x Hi.
  - destruct i; discriminate Hi.
  - bind_inv H. inversion H; subst.
    destruct i as [| i]; simpl in *.
    + inversion Hi; subst. eexists. split; [reflexivity | assumption].
    + eapply IH; eassumption.
Qed.

Lemma for_each_In {A B : Type} (f : A -> result B) (l : list A)
    (r : list B) :
  for_each f l = Ok r ->
  forall y, In y r -> exists x, In x l /\ f x = Ok y.
Proof.
  revert r. induction l as [| a l IH]; simpl; intros r H y Hy.
  - inversion H; subst. destruct Hy.
  - bind_inv H. inversion H; subst. destruct Hy as [<- | Hy].
    + exists a. split; [left; reflexivity | assumption].
    + destruct (IH _ E0 y Hy) as (x & Hx & Hf).
      exists x. split; [right; assumption | assumption].
Qed.

Lemma for_each_Raise {A B : Type} (f : A -> result B) (l : list A) (x : A) :
  In x l -> (forall y, f x <> Ok y) -> exists e, for_each f l = Raise e.
Proof.
  induction l as [| a l IH]; simpl; intros Hin Hx.
  - destruct Hin.
  - destruct (f a) as [y | e] eqn:Ea.
    + destruct Hin as [-> | Hin].
      * exfalso. eapply Hx. eassumption.
      * destruct (IH Hin Hx) as (e & He). exists e. simpl. rewrite He. reflexivity.
    + exists e. reflexivity.
Qed.

Lemma get_JObj d k dflt :
  get (JObj d) k dflt
  = Ok (match lookup k d with Some v => v | None => dflt end).
Proof. simpl. destruct (lookup k d); reflexivity. Qed.

Lemma has_keys_dict ks o :
  has_keys ks o = true -> exists d, o = JObj d.
Proof. destruct o; simpl; try discriminate. intros _. eexists; reflexivity. Qed.

Lemma has_keys_getitem ks o k :
  has_keys ks o = true -> In k ks -> exists v, getitem o k = Ok v.
Proof.
  destruct o; simpl; try discriminate. intros H Hin.
  rewrite forallb_forall in H. specialize (H k Hin).
  destruct (lookup k d); [eexists; reflexivity | discriminate].
Qed.

Lemma field_ok_getitem o k p :
  field_ok o k p = true -> exists v, getitem o k = Ok v /\ p v = true.
Proof.
  unfold field_ok. destruct (getitem o k); [|discriminate].
  intros H. eexists. split; [reflexivity | assumption].
Qed.

(** Takes the next subscript of a run from a [has_keys] fact. *)
Ltac step_key Hkeys :=
  match goal with
  | |- context [bind (getitem ?o ?k) _] =>
      let v := fresh "v" in
      let E := fresh "E" in
      destruct (has_keys_getitem _ o k Hkeys) as (v & E);
      [ simpl; tauto | rewrite E; cbn [bind] ]
  end.

Lemma for_each_total {A B : Type} (f : A -> result B) (p : A -> bool) l :
  (forall x, p x = true -> exists y, f x = Ok y) ->
  forallb p l = true -> exists r, for_each f l = Ok r.
Proof.
  intros Hf. induction l as [| x l IH]; simpl; intros H.
  - eexists. reflexivity.
  - apply andb_true_iff in H. destruct H as (Hx & Hl).
    destruct (Hf x Hx) as (y & ->). destruct (IH Hl) as (r & ->).
    simpl. eexists. reflexivity.
Qed.

Section SenderAndRepository.
Context {R : Runtime}.

(** An id that [str] converts lets the conversion step of a run go
    through. *)
Lemma str_defined_Ok v :
  str_defined v = true -> exists s, py_str v = Ok s.
Proof.
  unfold str_defined. destruct (py_str v) as [s | e]; [|discriminate].
  intros _. exists s. reflexivity.
Qed.

Lemma extract_actor_total u :
  user_object u = true -> exists a, extract_actor u = Ok a.
Proof.
  unfold user_object, extract_actor. intros H.
  apply andb_true_iff in H. destruct H as (H & Hid).
  apply field_ok_getitem in Hid. destruct Hid as (id_ & -> & Hstr).
  apply str_defined_Ok in Hstr. destruct Hstr as (s & Hs).
  destruct (has_keys_dict _ _ H) as (d & ->).
  cbn [bind]. rewrite Hs. cbn [bind]. step_key H.
  rewrite !get_JObj. cbn [bind]. eexists. reflexivity.
Qed.

Lemma extract_repository_total r :
  repository_object r = true -> exists a, extract_repository r = Ok a.
Proof.
  unfold repository_object, extract_repository. intros H.
  apply andb_true_iff in H. destruct H as (H & Howner).
  apply andb_true_iff in H. destruct H as (H & Hid).
  apply field_ok_getitem in Hid. destruct Hid as (id_ & -> & Hstr).
  apply str_defined_Ok in Hstr. destruct Hstr as (s & Hs).
  destruct (has_keys_dict _ _ H) as (d & ->).
  cbn [bind]. rewrite Hs. cbn [bind]. step_key H. step_key H.
  apply field_ok_getitem in Howner. destruct Howner as (o & -> & Ho).
  cbn [bind]. step_key Ho. step_key H.
  rewrite !get_JObj. cbn [bind]. eexists. reflexivity.
Qed.

End SenderAndRepository.

(* ================================================================= *)
(** ** What every mapper puts in the event *)

Section MapperProperties.
Context {R : Runtime}.

Lemma map_push_event_id_source payload delivery_id now ev :
  map_push_event payload delivery_id now = Ok ev ->
  StandardEvent.id ev = delivery_id /\ StandardEvent.source ev = "github"
  /\ StandardEvent.type ev = CODE_PUSH
  /\ StandardEvent.raw_payload ev = payload.
Proof.
  unfold map_push_event. intros H. bind_inv H.
  inversion H; subst; simpl. repeat split.
Qed.

Lemma map_pull_request_event_id_source payload delivery_id now ev :
  map_pull_request_event payload delivery_id now = Ok ev ->
  StandardEvent.id ev = delivery_id /\ StandardEvent.source ev = "github"
  /\ StandardEvent.raw_payload ev = payload.
Proof.
  unfold map_pull_request_event. intros H. bind_inv H.
  inversion H; subst; simpl. repeat split.
Qed.

Lemma map_issue_event_id_source payload delivery_id now ev :
  map_issue_event payload delivery_id now = Ok ev ->
  StandardEvent.id ev = delivery_id /\ StandardEvent.source ev = "github"
  /\ StandardEvent.raw_payload ev = payload.
Proof.
  unfold map_issue_event. intros H. bind_inv H.
  inversion H; subst; simpl. repeat split.
Qed.

Lemma map_issue_comment_event_id_source payload delivery_id now ev :
  map_issue_comment_event payload delivery_id now = Ok ev ->
  StandardEvent.id ev = delivery_id /\ StandardEvent.source ev = "github"
  /\ StandardEvent.raw_payload ev = payload.
Proof.
  unfold map_issue_comment_event. intros H. bind_inv H.
  inversion H; subst; simpl. repeat split.
Qed.

Lemma map_pull_request_review_event_id_source payload delivery_id now ev :
  map_pull_request_review_event payload delivery_id now = Ok ev ->
  StandardEvent.id ev = delivery_id /\ StandardEvent.source ev = "github"
  /\ StandardEvent.type ev = PR_REVIEWED
  /\ StandardEvent.raw_payload ev = payload.
Proof.
  unfold map_pull_request_review_event. intros H. bind_inv H.
  inversion H; subst; simpl. repeat split.
Qed.

Lemma map_release_event_id_source payload delivery_id now ev :
  map_release_event payload delivery_id now = Ok ev ->
  StandardEvent.id ev = delivery_id /\ StandardEvent.source ev = "github"
  /\ StandardEvent.type ev = RELEASE_PUBLISHED
  /\ StandardEvent.raw_payload ev = payload.
Proof.
  unfold map_release_event. intros H. bind_inv H.
  inversion H; subst; simpl. repeat split.
Qed.

(** The registry of [__init__] holds exactly the six mappers. *)
Lemma event_mappers_registered secret_text category m :
  lookup category (event_mappers (new_handler secret_text)) = Some m ->
  (category = "push" /\ m = map_push_event)
  \/ (category = "pull_request" /\ m = map_pull_request_event)
  \/ (category = "issues" /\ m = map_issue_event)
  \/ (category = "issue_comment" /\ m = map_issue_comment_event)
  \/ (category = "pull_request_review" /\ m = map_pull_request_review_event)
  \/ (category = "release" /\ m = map_release_event).
Proof.
  simpl.
  repeat match goal with
         | |- context [String.eqb category ?s] =>
             destruct (String.eqb_spec category s) as [-> | _];
             [ intros H; inversion H; subst; tauto | ]
         end.
  discriminate.
Qed.

End MapperProperties.

(* ================================================================= *)
(** ** Pull-request events: the type table *)

Section PullRequestTotality.
Context {R : Runtime}.

Lemma project_total o k key :
  list_field_ok o k key = true ->
  exists items vs, get o k (JArr []) = Ok items /\ project key items = Ok vs.
Proof.
  unfold list_field_ok, project.
  destruct (get o k (JArr [])) as [[| | | | | items |] |]; try discriminate.
  intros H. exists (JArr items).
  destruct (for_each_total (fun x => getitem x key) (has_keys [key]) items)
    as (vs & Hvs); [| assumption |].
  - intros x Hx. apply (has_keys_getitem [key] x key Hx). simpl. tauto.
  - exists (JArr vs). split; [reflexivity|].
    cbn [iterate bind]. rewrite Hvs. reflexivity.
Qed.

(** A well-formed pull_request payload is mapped. *)
Lemma map_pull_request_event_total payload delivery_id now :
  pull_request_payload payload = true ->
  exists ev, map_pull_request_event payload delivery_id now = Ok ev.
Proof.
  unfold pull_request_payload, map_pull_request_event. intros H.
  apply andb_true_iff in H. destruct H as (H & Hrepo).
  apply andb_true_iff in H. destruct H as (H & Hsender).
  apply andb_true_iff in H. destruct H as (Hpr & Haction).
  apply field_ok_getitem in Hpr. destruct Hpr as (pr & -> & Hpr).
  apply field_ok_getitem in Haction.
  destruct Haction as (action & -> & Haction).
  cbn [bind].
  unfold pull_request_object in Hpr.
  apply andb_true_iff in Hpr. destruct Hpr as (Hpr & Hlabels).
  apply andb_true_iff in Hpr. destruct Hpr as (Hpr & Huser).
  apply andb_true_iff in Hpr. destruct Hpr as (Hpr & Hhead).
  apply andb_true_iff in Hpr. destruct Hpr as (Hpr & Hbase).
  destruct (has_keys_dict _ _ Hpr) as (d & ->).
  rewrite get_JObj. cbn [bind].
  unfold table_get. rewrite Haction. cbn [bind].
  apply field_ok_getitem in Hsender. destruct Hsender as (sender & -> & Hs).
  cbn [bind]. destruct (extract_actor_total _ Hs) as (a & ->). cbn [bind].
  apply field_ok_getitem in Hrepo. destruct Hrepo as (repo & -> & Hr).
  cbn [bind]. destruct (extract_repository_total _ Hr) as (r & ->).
  cbn [bind].
  step_key Hpr. step_key Hpr. step_key Hpr. step_key Hpr.
  rewrite !get_JObj. cbn [bind].
  apply field_ok_getitem in Hbase. destruct Hbase as (base & -> & Hb).
  cbn [bind]. step_key Hb.
  apply field_ok_getitem in Hhead. destruct Hhead as (head & -> & Hh).
  cbn [bind]. step_key Hh.
  apply field_ok_getitem in Huser. destruct Huser as (user & -> & Hu).
  cbn [bind]. step_key Hu.
  destruct (project_total _ _ _ Hlabels) as (items & vs & Hitems & Hvs).
  rewrite get_JObj in Hitems. injection Hitems as <-.
  rewrite Hvs. cbn [bind]. eexists. reflexivity.
Qed.

End PullRequestTotality.

(** A successful run read [pull_request] as a dict and [action], and
    took the type from the table built for that dict. *)
Lemma map_pull_request_event_type_lookup {R : Runtime}
    payload delivery_id now ev :
  map_pull_request_event payload delivery_id now = Ok ev ->
  exists d action,
    getitem payload "pull_request" = Ok (JObj d)
    /\ getitem payload "action" = Ok action
    /\ table_get
         (pr_event_type_map
            (match lookup "merged" d with Some x => x | None => JNull end))
         action PR_UPDATED = Ok (StandardEvent.type ev).
Proof.
  unfold map_pull_request_event. intros H.
  apply bind_Ok in H. destruct H as (pr & Epr & H).
  apply bind_Ok in H. destruct H as (action & Eaction & H).
  apply bind_Ok in H. destruct H as (merged & Emerged & H).
  apply bind_Ok in H. destruct H as (ty & Ety & H).
  bind_inv H. inversion H; subst; simpl.
  apply get_Ok_dict in Emerged. destruct Emerged as (d & -> & ->).
  exists d, action. repeat split; assumption.
Qed.

(** C1.  A pull_request payload that holds a well-formed [pull_request]
    object, an [action], a sender and a repository is mapped to an event;
    and on every payload that [map_pull_request_event] maps, the payload
    holds a [pull_request] object and an [action], and the event's type
    is: PR_MERGED for action closed with [merged] true; PR_CLOSED for
    action closed with [merged] false or absent; PR_OPENED for opened;
    PR_REOPENED for reopened; PR_UPDATED for synchronize and for edited;
    PR_REVIEW_REQUESTED for review_requested; and PR_UPDATED for every
    action outside this table. *)
Theorem map_pull_request_event_type {R : Runtime} :
  forall payload delivery_id now,
    (pull_request_payload payload = true ->
     exists ev, map_pull_request_event payload delivery_id now = Ok ev)
    /\ (forall ev,
          map_pull_request_event payload delivery_id now = Ok ev ->
          exists d action,
            getitem payload "pull_request" = Ok (JObj d)
            /\ getitem payload "action" = Ok action
            /\ (action = JStr "closed" ->
                lookup "merged" d = Some (JBool true) ->
                StandardEvent.type ev = PR_MERGED)
            /\ (action = JStr "closed" ->
                lookup "merged" d = Some (JBool false)
                \/ lookup "merged" d = None ->
                StandardEvent.type ev = PR_CLOSED)
            /\ (action = JStr "opened" -> StandardEvent.type ev = PR_OPENED)
            /\ (action = JStr "reopened" ->
                StandardEvent.type ev = PR_REOPENED)
            /\ (action = JStr "synchronize" ->
                StandardEvent.type ev = PR_UPDATED)
            /\ (action = JStr "edited" -> StandardEvent.type ev = PR_UPDATED)
            /\ (action = JStr "review_requested" ->
                StandardEvent.type ev = PR_REVIEW_REQUESTED)
            /\ (~ In action (map JStr [ "opened"; "closed"; "reopened";
                                        "synchronize"; "edited";
                                        "review_requested" ]) ->
                StandardEvent.type ev = PR_UPDATED)).
Proof.
  intros payload did now. split.
  { apply map_pull_request_event_total. }
  intros ev H.
  apply map_pull_request_event_type_lookup in H.
  destruct H as (d & action & Hpr & Haction & Hty).
  unfold table_get in Hty.
  exists d, action. split; [assumption|]. split; [assumption|].
  repeat split.
  - intros -> Hm. rewrite Hm in Hty. simpl in Hty. congruence.
  - intros -> [Hm | Hm]; rewrite Hm in Hty; simpl in Hty; congruence.
  - intros ->. simpl in Hty. congruence.
  - intros ->. simpl in Hty. congruence.
  - intros ->. simpl in Hty. congruence.
  - intros ->. simpl in Hty. congruence.
  - intros ->. simpl in Hty. congruence.
  - intros Hnot. destruct action as [| b | z | f | s | l | o];
      simpl in Hty; try congruence.
    revert Hty.
    repeat match goal with
           | |- context [String.eqb s ?k] =>
               destruct (String.eqb_spec s k) as [-> | _];
               [ exfalso; apply Hnot; simpl; tauto | ]
           end.
    congruence.
Qed.

Lemma map_pull_request_event_type_witness :
  exists ev,
    map_pull_request_event (R := Fixture.runtime)
      (Fixture.pr_event (JStr "closed") (Some (JBool true)))
      "test-delivery-id" Fixture.now = Ok ev
    /\ StandardEvent.type ev = PR_MERGED.
Proof.
  destruct (@map_pull_request_event_type Fixture.runtime
              (Fixture.pr_event (JStr "closed") (Some (JBool true)))
              "test-delivery-id" Fixture.now) as (Htotal & Hrun).
  destruct (Htotal eq_refl) as (ev & Hev).
  exists ev. split; [exact Hev|].
  destruct (Hrun ev Hev) as (d & action & Hpr & Haction & Hmerged & _).
  inversion Hpr; subst d. inversion Haction; subst action.
  apply Hmerged; reflexivity.
Defined.

(** The rows of the table on the test's payload. *)
Example pr_types_on_fixture :
  let type_of action merged :=
    match map_pull_request_event (R := Fixture.runtime)
            (Fixture.pr_event action merged) "d" Fixture.now with
    | Ok ev => Some (StandardEvent.type ev)
    | Raise _ => None
    end in
  type_of (JStr "closed") (Some (JBool true)) = Some PR_MERGED
  /\ type_of (JStr "closed") (Some (JBool false)) = Some PR_CLOSED
  /\ type_of (JStr "closed") None = Some PR_CLOSED
  /\ type_of (JStr "opened") (Some (JBool false)) = Some PR_OPENED
  /\ type_of (JStr "reopened") None = Some PR_REOPENED
  /\ type_of (JStr "synchronize") None = Some PR_UPDATED
  /\ type_of (JStr "edited") None = Some PR_UPDATED
  /\ type_of (JStr "review_requested") None = Some PR_REVIEW_REQUESTED
  /\ type_of (JStr "labeled") None = Some PR_UPDATED
  /\ type_of JNull None = Some PR_UPDATED
  /\ type_of (JArr []) None = None.
Proof. vm_compute. repeat split. Qed.

(* ================================================================= *)
(** ** Issue comments: pull-request linkage *)

(** A well-formed issue_comment payload is mapped. *)
Lemma map_issue_comment_event_total {R : Runtime}
    payload delivery_id now :
  issue_comment_payload payload = true ->
  exists ev, map_issue_comment_event payload delivery_id now = Ok ev.
Proof.
  unfold issue_comment_payload, map_issue_comment_event. intros H.
  apply andb_true_iff in H. destruct H as (H & Hrepo).
  apply andb_true_iff in H. destruct H as (H & Hsender).
  apply andb_true_iff in H. destruct H as (H & Hissue).
  apply andb_true_iff in H. destruct H as (Haction & Hcomment).
  apply field_ok_getitem in Hcomment.
  destruct Hcomment as (comment & -> & Hc).
  apply field_ok_getitem in Hissue. destruct Hissue as (issue & -> & Hi).
  cbn [bind].
  destruct (has_keys_dict _ _ Hi) as (d & ->). cbn [contains bind].
  apply field_ok_getitem in Hsender. destruct Hsender as (sender & -> & Hs).
  cbn [bind]. destruct (extract_actor_total _ Hs) as (a & ->). cbn [bind].
  apply field_ok_getitem in Hrepo. destruct Hrepo as (repo & -> & Hr).
  cbn [bind]. destruct (extract_repository_total _ Hr) as (r & ->).
  cbn [bind].
  step_key Hc. step_key Hc. step_key Hc.
  step_key Hi. step_key Hi. step_key Haction.
  eexists. reflexivity.
Qed.


(** C4.  An issue_comment payload that holds a comment, an [issue] object,
    an action, a sender and a repository is mapped to an event; and on
    every payload that [map_issue_comment_event] maps, the payload's
    [issue] is an object, and the event's type is PR_COMMENT if and only
    if that object has a [pull_request] key, and ISSUE_COMMENT
    otherwise. *)
Theorem map_issue_comment_event_type {R : Runtime} :
  forall payload delivery_id now,
    (issue_comment_payload payload = true ->
     exists ev, map_issue_comment_event payload delivery_id now = Ok ev)
    /\ (forall ev,
          map_issue_comment_event payload delivery_id now = Ok ev ->
          exists d,
            getitem payload "issue" = Ok (JObj d)
            /\ (StandardEvent.type ev = PR_COMMENT <->
                lookup "pull_request" d <> None)
            /\ (StandardEvent.type ev = ISSUE_COMMENT <->
                lookup "pull_request" d = None)).
Proof.
  intros payload did now. split.
  { apply map_issue_comment_event_total. }
  intros ev. unfold map_issue_comment_event. intros H.
  apply bind_Ok in H. destruct H as (comment & Ecomment & H).
  apply bind_Ok in H. destruct H as (issue & Eissue & H).
  apply bind_Ok in H. destruct H as (is_pr & Eis_pr & H).
  bind_inv H. inversion H; subst; simpl.
  destruct issue as [| b | z | f | s | l | d]; simpl in Eis_pr;
    try discriminate;
    try match goal with
        | E : getitem (JArr _) _ = Ok _ |- _ => discriminate E
        | E : getitem (JStr _) _ = Ok _ |- _ => discriminate E
        end.
  exists d. split; [assumption|].
  destruct (lookup "pull_request" d) as [linkage |];
    inversion Eis_pr; subst; simpl; split; split;
    intros; congruence.
Qed.

Lemma map_issue_comment_event_type_witness :
  exists ev,
    map_issue_comment_event (R := Fixture.runtime)
      (Fixture.issue_comment true) "test-delivery-id" Fixture.now = Ok ev
    /\ StandardEvent.type ev = PR_COMMENT.
Proof.
  destruct (@map_issue_comment_event_type Fixture.runtime
              (Fixture.issue_comment true) "test-delivery-id" Fixture.now)
    as (Htotal & Hrun).
  destruct (Htotal eq_refl) as (ev & Hev).
  exists ev. split; [exact Hev|].
  destruct (Hrun ev Hev) as (d & Hissue & Hpr & _).
  inversion Hissue; subst d. apply Hpr. discriminate.
Defined.

Example issue_comment_types_on_fixture :
  let type_of linked :=
    match map_issue_comment_event (R := Fixture.runtime)
            (Fixture.issue_comment linked) "d" Fixture.now with
    | Ok ev => Some (StandardEvent.type ev)
    | Raise _ => None
    end in
  type_of true = Some PR_COMMENT /\ type_of false = Some ISSUE_COMMENT.
Proof. vm_compute. split; reflexivity. Qed.

(* ================================================================= *)
(** ** Push events: one change per commit *)

Section PushProperties.
Context {R : Runtime}.

Lemma commit_change_total c :
  commit_object c = true -> exists ch, commit_change c = Ok ch.
Proof.
  unfold commit_object, commit_change. intros H.
  apply andb_true_iff in H. destruct H as (H & Hauthor).
  destruct (has_keys_dict _ _ H) as (d & ->).
  step_key H. step_key H. step_key H.
  apply field_ok_getitem in Hauthor. destruct Hauthor as (a & -> & Ha).
  cbn [bind]. step_key Ha. step_key Ha. step_key Ha.
  rewrite !get_JObj. cbn [bind]. eexists. reflexivity.
Qed.

(** A push payload with well-formed commit objects is mapped. *)
Lemma map_push_event_total payload delivery_id now commits :
  push_commits payload = Ok commits ->
  push_payload payload commits = true ->
  exists ev, map_push_event payload delivery_id now = Ok ev.
Proof.
  unfold push_commits, push_payload, map_push_event. intros Hc H.
  apply bind_Ok in Hc. destruct Hc as (cs & Ecs & Eitems).
  rewrite Ecs. cbn [bind]. rewrite Eitems. cbn [bind].
  repeat (apply andb_true_iff in H; let H' := fresh "H" in destruct H as (H & H')).
  destruct (for_each_total commit_change commit_object commits
              commit_change_total) as (changes & ->); [assumption|].
  cbn [bind].
  match goal with
  | Hp : field_ok payload "pusher" _ = true |- _ =>
      apply field_ok_getitem in Hp; destruct Hp as (pusher & -> & Hp);
      cbn [bind]; destruct (extract_actor_total _ Hp) as (a & ->)
  end.
  cbn [bind].
  match goal with
  | Hr : field_ok payload "repository" _ = true |- _ =>
      apply field_ok_getitem in Hr; destruct Hr as (repo & -> & Hr);
      cbn [bind]; destruct (extract_repository_total _ Hr) as (r & ->)
  end.
  cbn [bind].
  destruct (has_keys_dict _ _ H) as (d & ->).
  step_key H. step_key H. step_key H.
  rewrite !get_JObj. cbn [bind]. eexists. reflexivity.
Qed.

(** What the loop body makes of one commit. *)
Lemma commit_change_spec c ch :
  commit_change c = Ok ch ->
  Change.type ch = COMMIT
  /\ get c "added" (JArr []) = Ok (Change.files_added ch)
  /\ get c "modified" (JArr []) = Ok (Change.files_modified ch)
  /\ get c "removed" (JArr []) = Ok (Change.files_removed ch)
  /\ (exists a, Change.author ch = Some a /\ Actor.id a = JStr "")
  /\ (exists a u n e,
        getitem c "author" = Ok a /\ getitem a "username" = Ok u
        /\ getitem a "name" = Ok n /\ getitem a "email" = Ok e).
Proof.
  unfold commit_change. intros H.
  apply bind_Ok in H. destruct H as (id_ & Eid & H).
  apply bind_Ok in H. destruct H as (message & Emessage & H).
  apply bind_Ok in H. destruct H as (timestamp & Etimestamp & H).
  apply bind_Ok in H. destruct H as (a1 & Ea1 & H).
  apply bind_Ok in H. destruct H as (username & Eusername & H).
  apply bind_Ok in H. destruct H as (a2 & Ea2 & H).
  apply bind_Ok in H. destruct H as (name & Ename & H).
  apply bind_Ok in H. destruct H as (a3 & Ea3 & H).
  apply bind_Ok in H. destruct H as (email & Eemail & H).
  apply bind_Ok in H. destruct H as (added & Eadded & H).
  apply bind_Ok in H. destruct H as (modified & Emodified & H).
  apply bind_Ok in H. destruct H as (removed & Eremoved & H).
  inversion H; subst; simpl.
  assert (a2 = a1) by congruence. assert (a3 = a1) by congruence. subst.
  repeat split; try assumption.
  - eexists. split; reflexivity.
  - exists a1, username, name, email. repeat split; assumption.
Qed.

(** A successful run made its changes from the payload's commits. *)
Lemma map_push_event_changes_of_run payload delivery_id now ev :
  map_push_event payload delivery_id now = Ok ev ->
  exists commits,
    push_commits payload = Ok commits
    /\ for_each commit_change commits = Ok (StandardEvent.changes ev).
Proof.
  unfold map_push_event, push_commits. intros H.
  apply bind_Ok in H. destruct H as (cs & Ecs & H).
  apply bind_Ok in H. destruct H as (items & Eitems & H).
  apply bind_Ok in H. destruct H as (changes & Echanges & H).
  bind_inv H. inversion H; subst; simpl.
  exists items. rewrite Ecs. cbn [bind]. split; assumption.
Qed.

End PushProperties.

(** C3.  A push payload whose commit objects are well formed, whatever
    their number [N] (zero included), is mapped to one event; and on every
    push payload that [map_push_event] maps, with commit objects
    [commits], the event has exactly as many changes as there are
    commits, the i-th change has kind COMMIT, and its [files_added],
    [files_modified] and [files_removed] are the i-th commit's [added],
    [modified] and [removed] values as they stand (the empty list where
    the commit has no such key). *)
Theorem map_push_event_changes {R : Runtime} :
  forall payload delivery_id now,
    (forall commits,
        push_commits payload = Ok commits ->
        push_payload payload commits = true ->
        exists ev, map_push_event payload delivery_id now = Ok ev)
    /\ (forall ev,
          map_push_event payload delivery_id now = Ok ev ->
          exists commits,
            push_commits payload = Ok commits
            /\ List.length (StandardEvent.changes ev) = List.length commits
            /\ forall i c,
                nth_error commits i = Some c ->
                exists ch,
                  nth_error (StandardEvent.changes ev) i = Some ch
                  /\ Change.type ch = COMMIT
                  /\ get c "added" (JArr []) = Ok (Change.files_added ch)
                  /\ get c "modified" (JArr []) = Ok (Change.files_modified ch)
                  /\ get c "removed" (JArr []) = Ok (Change.files_removed ch)
                  /\ (forall v, getitem c "added" = Ok v ->
                                Change.files_added ch = v)
                  /\ (forall v, getitem c "modified" = Ok v ->
                                Change.files_modified ch = v)
                  /\ (forall v, getitem c "removed" = Ok v ->
                                Change.files_removed ch = v)).
Proof.
  intros payload did now. split.
  - intros commits Hc Hwf. eapply map_push_event_total; eassumption.
  - intros ev Hrun.
    destruct (map_push_event_changes_of_run _ _ _ _ Hrun)
      as (commits & Hc & Hloop).
    exists commits. split; [assumption|]. split.
    + eapply for_each_length. eassumption.
    + intros i c Hi.
      destruct (for_each_nth _ _ _ Hloop i c Hi) as (ch & Hch & Hbody).
      exists ch. split; [assumption|].
      destruct (commit_change_spec _ _ Hbody)
        as (Hty & Hadd & Hmod & Hrem & _).
      repeat split; try assumption.
      * intros v Hv. apply getitem_Ok_dict in Hv.
        destruct Hv as (d & -> & Hv). rewrite get_JObj, Hv in Hadd. congruence.
      * intros v Hv. apply getitem_Ok_dict in Hv.
        destruct Hv as (d & -> & Hv). rewrite get_JObj, Hv in Hmod. congruence.
      * intros v Hv. apply getitem_Ok_dict in Hv.
        destruct Hv as (d & -> & Hv). rewrite get_JObj, Hv in Hrem. congruence.
Qed.

Lemma map_push_event_changes_witness :
  exists ev ch,
    map_push_event (R := Fixture.runtime) Fixture.push "test-delivery-id"
      Fixture.now = Ok ev
    /\ List.length (StandardEvent.changes ev) = 1%nat
    /\ nth_error (StandardEvent.changes ev) 0 = Some ch
    /\ Change.type ch = COMMIT
    /\ Change.files_added ch = JArr [JStr "file1.txt"]
    /\ Change.files_modified ch = JArr [JStr "file2.txt"]
    /\ Change.files_removed ch = JArr [].
Proof.
  destruct (@map_push_event_changes Fixture.runtime Fixture.push
              "test-delivery-id" Fixture.now) as (Htotal & Hrun).
  destruct (Htotal [Fixture.commit] eq_refl eq_refl) as (ev & Hev).
  destruct (Hrun ev Hev) as (commits & Hc & Hlen & Hnth).
  inversion Hc; subst commits.
  destruct (Hnth 0%nat Fixture.commit eq_refl)
    as (ch & Hch & Hty & _ & _ & _ & Hadd & Hmod & Hrem).
  exists ev, ch. repeat split; try assumption.
  - apply Hadd. reflexivity.
  - apply Hmod. reflexivity.
  - apply Hrem. reflexivity.
Defined.

(** A push without commits, as a branch deletion sends it, gives an event
    without changes; so does a payload without the [commits] key. *)
Example push_without_commits :
  (exists ev,
      map_push_event (R := Fixture.runtime) (Fixture.push_with []) "d"
        Fixture.now = Ok ev
      /\ StandardEvent.changes ev = [])
  /\ (exists ev,
        map_push_event (R := Fixture.runtime)
          (JObj [ ("ref", JStr "refs/heads/gone"); ("before", JStr "abc123");
                  ("after", JStr "0000000"); ("deleted", JBool true);
                  ("pusher", Fixture.pusher);
                  ("repository", Fixture.repository) ]) "d"
          Fixture.now = Ok ev
        /\ StandardEvent.changes ev = []
        /\ EventMetadata.deleted (StandardEvent.metadata ev) = JBool true).
Proof.
  split; eexists; (split; [reflexivity | simpl; auto]).
Qed.

(* ================================================================= *)
(** ** Push events: the author of a change *)

(** C10.  Every change of an event that [map_push_event] returns carries
    an author, an [Actor] whose [id] is the empty string; and the mapper
    requires the author of every commit to have the keys [username],
    [name] and [email]: if the author of some commit lacks one of them the
    mapper raises, and [process_webhook] passes the exception on, although
    [Change.author] and the actor's [name] and [email] are optional in the
    schema. *)
Theorem map_push_event_author {R : Runtime} :
  forall payload delivery_id now,
    (forall ev,
        map_push_event payload delivery_id now = Ok ev ->
        forall ch, In ch (StandardEvent.changes ev) ->
        exists a, Change.author ch = Some a /\ Actor.id a = JStr "")
    /\ (forall commits c a k,
          push_commits payload = Ok commits ->
          In c commits ->
          getitem c "author" = Ok a ->
          In k ["username"; "name"; "email"] ->
          (forall v, getitem a k <> Ok v) ->
          exists e,
            map_push_event payload delivery_id now = Raise e
            /\ forall secret_text,
                process_webhook (new_handler secret_text) "push" payload
                  delivery_id now = Raise e).
Proof.
  intros payload did now. split.
  - intros ev Hrun ch Hin.
    destruct (map_push_event_changes_of_run _ _ _ _ Hrun)
      as (commits & _ & Hloop).
    destruct (for_each_In _ _ _ Hloop ch Hin) as (c & _ & Hbody).
    apply commit_change_spec in Hbody. tauto.
  - intros commits c a k Hc Hin Ha Hk Hmissing.
    assert (Hbody : forall ch, commit_change c <> Ok ch).
    { intros ch Hch. apply commit_change_spec in Hch.
      destruct Hch as (_ & _ & _ & _ & _ & a' & u & n & e & Ha' & Hu & Hn & He).
      assert (a' = a) by congruence. subst a'.
      simpl in Hk.
      destruct Hk as [<- | [<- | [<- | []]]]; eapply Hmissing; eassumption. }
    destruct (for_each_Raise commit_change commits c Hin Hbody) as (e & He).
    assert (Hraise : map_push_event payload did now = Raise e).
    { unfold push_commits in Hc. apply bind_Ok in Hc.
      destruct Hc as (cs & Ecs & Eitems).
      unfold map_push_event. rewrite Ecs. cbn [bind].
      rewrite Eitems. cbn [bind]. rewrite He. reflexivity. }
    exists e. split; [assumption|].
    intros s. unfold process_webhook. simpl. rewrite Hraise. reflexivity.
Qed.

Lemma map_push_event_author_witness :
  (exists ev ch a,
      map_push_event (R := Fixture.runtime) Fixture.push "test-delivery-id"
        Fixture.now = Ok ev
      /\ StandardEvent.changes ev = [ch]
      /\ Change.author ch = Some a /\ Actor.id a = JStr "")
  /\ (exists e,
        map_push_event (R := Fixture.runtime)
          (Fixture.push_with
             [JObj [ ("id", JStr "def456"); ("message", JStr "Test commit");
                     ("timestamp", JStr "2026-02-27T21:00:00Z");
                     ("author", JObj [ ("username", JStr "testuser");
                                       ("name", JStr "Test User") ]) ]])
          "test-delivery-id" Fixture.now = Raise e).
Proof.
  split.
  - pose proof (proj1 (@map_push_event_author Fixture.runtime Fixture.push
                         "test-delivery-id" Fixture.now)) as H.
    eexists. eexists.
    destruct (H _ eq_refl _ (or_introl eq_refl)) as (a & Ha & Hid).
    exists a. repeat split; assumption.
  - pose proof (proj2 (@map_push_event_author Fixture.runtime
                         (Fixture.push_with
                            [JObj [ ("id", JStr "def456");
                                    ("message", JStr "Test commit");
                                    ("timestamp", JStr "2026-02-27T21:00:00Z");
                                    ("author",
                                      JObj [ ("username", JStr "testuser");
                                             ("name", JStr "Test User") ]) ]])
                         "test-delivery-id" Fixture.now)) as H.
    destruct (H _ _ _ "email" eq_refl (or_introl eq_refl) eq_refl)
      as (e & He & _).
    + simpl. tauto.
    + intros v Hv. discriminate Hv.
    + exists e. exact He.
Defined.

(** The exception is the [KeyError] of the missing key. *)
Example push_author_without_email :
  map_push_event (R := Fixture.runtime)
    (Fixture.push_with
       [JObj [ ("id", JStr "def456"); ("message", JStr "Test commit");
               ("timestamp", JStr "2026-02-27T21:00:00Z");
               ("author", JObj [ ("username", JStr "testuser");
                                 ("name", JStr "Test User") ]) ]])
    "test-delivery-id" Fixture.now = Raise (KeyError "email").
Proof. reflexivity. Qed.

(* ================================================================= *)
(** ** The registry: every mapper returns events, with the delivery id *)

Section Totality.
Context {R : Runtime}.

(** A well-formed issues payload is mapped. *)
Lemma map_issue_event_total payload delivery_id now :
  issues_payload payload = true ->
  exists ev, map_issue_event payload delivery_id now = Ok ev.
Proof.
  unfold issues_payload, map_issue_event. intros H.
  apply andb_true_iff in H. destruct H as (H & Hrepo).
  apply andb_true_iff in H. destruct H as (H & Hsender).
  apply andb_true_iff in H. destruct H as (Hissue & Haction).
  apply field_ok_getitem in Hissue. destruct Hissue as (issue & -> & Hi).
  apply field_ok_getitem in Haction.
  destruct Haction as (action & -> & Haction).
  cbn [bind].
  unfold table_get. rewrite Haction. cbn [bind].
  apply field_ok_getitem in Hsender. destruct Hsender as (sender & -> & Hs).
  cbn [bind]. destruct (extract_actor_total _ Hs) as (a & ->). cbn [bind].
  apply field_ok_getitem in Hrepo. destruct Hrepo as (repo & -> & Hr).
  cbn [bind]. destruct (extract_repository_total _ Hr) as (r & ->).
  cbn [bind].
  unfold issue_object in Hi.
  apply andb_true_iff in Hi. destruct Hi as (Hi & Hassignees).
  apply andb_true_iff in Hi. destruct Hi as (Hi & Hlabels).
  apply andb_true_iff in Hi. destruct Hi as (Hi & Huser).
  destruct (has_keys_dict _ _ Hi) as (d & ->).
  step_key Hi. step_key Hi. step_key Hi. step_key Hi.
  apply field_ok_getitem in Huser. destruct Huser as (user & -> & Hu).
  cbn [bind]. step_key Hu.
  destruct (project_total _ _ _ Hlabels) as (items & vs & Hitems & Hvs).
  rewrite Hitems. cbn [bind]. rewrite Hvs. cbn [bind].
  destruct (project_total _ _ _ Hassignees) as (items' & vs' & Hitems' & Hvs').
  rewrite Hitems'. cbn [bind]. rewrite Hvs'. cbn [bind].
  eexists. reflexivity.
Qed.

(** A well-formed release payload is mapped. *)
Lemma map_release_event_total payload delivery_id now :
  release_payload payload = true ->
  exists ev, map_release_event payload delivery_id now = Ok ev.
Proof.
  unfold release_payload, map_release_event. intros H.
  apply andb_true_iff in H. destruct H as (H & Haction).
  apply andb_true_iff in H. destruct H as (H & Hrepo).
  apply andb_true_iff in H. destruct H as (Hrelease & Hsender).
  apply field_ok_getitem in Hrelease.
  destruct Hrelease as (release & -> & Hr). cbn [bind].
  apply field_ok_getitem in Hsender. destruct Hsender as (sender & -> & Hs).
  cbn [bind]. destruct (extract_actor_total _ Hs) as (a & ->). cbn [bind].
  apply field_ok_getitem in Hrepo. destruct Hrepo as (repo & -> & Hrp).
  cbn [bind]. destruct (extract_repository_total _ Hrp) as (r & ->).
  cbn [bind].
  step_key Hr. step_key Hr. step_key Hr. step_key Hr. step_key Hr.
  step_key Hr. step_key Haction.
  eexists. reflexivity.
Qed.

(** A well-formed pull_request_review payload is mapped. *)
Lemma map_pull_request_review_event_total payload delivery_id now :
  review_payload payload = true ->
  exists ev, map_pull_request_review_event payload delivery_id now = Ok ev.
Proof.
  unfold review_payload, map_pull_request_review_event. intros H.
  apply andb_true_iff in H. destruct H as (H & Haction).
  apply andb_true_iff in H. destruct H as (H & Hrepo).
  apply andb_true_iff in H. destruct H as (H & Hsender).
  apply andb_true_iff in H. destruct H as (Hreview & Hpr).
  apply field_ok_getitem in Hreview.
  destruct Hreview as (review & -> & Hr). cbn [bind].
  apply field_ok_getitem in Hpr. destruct Hpr as (pr & -> & Hp).
  cbn [bind].
  apply field_ok_getitem in Hsender. destruct Hsender as (sender & -> & Hs).
  cbn [bind]. destruct (extract_actor_total _ Hs) as (a & ->). cbn [bind].
  apply field_ok_getitem in Hrepo. destruct Hrepo as (repo & -> & Hrp).
  cbn [bind]. destruct (extract_repository_total _ Hrp) as (r & ->).
  cbn [bind].
  step_key Hr. step_key Hr.
  destruct (has_keys_dict _ _ Hr) as (d & ->).
  rewrite get_JObj. cbn [bind].
  step_key Hr. step_key Hp. step_key Hp. step_key Haction.
  eexists. reflexivity.
Qed.

End Totality.

(** C6.  The registry holds a mapper for each of the six categories
    push, pull_request, issues, issue_comment, pull_request_review and
    release, and for no other.  Each of these mappers returns an event on
    every payload that is well formed for its category, and on every
    payload on which it returns an event, the event's [id] is the
    delivery id that was passed and its [source] is the text github. *)
Theorem registered_mapper_id_source {R : Runtime} :
  forall secret_text,
    (forall category,
        In category registered_categories
        <-> exists m,
              lookup category (event_mappers (new_handler secret_text))
              = Some m)
    /\ (forall category m payload delivery_id now,
          lookup category (event_mappers (new_handler secret_text)) = Some m ->
          (well_formed category payload = true ->
           exists ev, m payload delivery_id now = Ok ev)
          /\ (forall ev,
                m payload delivery_id now = Ok ev ->
                StandardEvent.id ev = delivery_id
                /\ StandardEvent.source ev = "github")).
Proof.
  intros s. split.
  - intros category. split.
    + intros Hin. simpl in Hin.
      destruct Hin as [<- | [<- | [<- | [<- | [<- | [<- | []]]]]]];
        eexists; reflexivity.
    + intros (m & Hreg). apply event_mappers_registered in Hreg.
      destruct Hreg
        as [[-> _] | [[-> _] | [[-> _] | [[-> _] | [[-> _] | [-> _]]]]]];
        simpl; tauto.
  - intros category m payload did now Hreg.
    apply event_mappers_registered in Hreg.
    destruct Hreg
      as [[-> ->] | [[-> ->] | [[-> ->] | [[-> ->] | [[-> ->] | [-> ->]]]]]];
      unfold well_formed; cbn [String.eqb Ascii.eqb Bool.eqb]; split.
    + destruct (push_commits payload) as [commits |] eqn:Hc; [|discriminate].
      intros Hwf. eapply map_push_event_total; eassumption.
    + intros ev Hrun. apply map_push_event_id_source in Hrun. tauto.
    + apply map_pull_request_event_total.
    + intros ev Hrun. apply map_pull_request_event_id_source in Hrun. tauto.
    + apply map_issue_event_total.
    + intros ev Hrun. apply map_issue_event_id_source in Hrun. tauto.
    + apply map_issue_comment_event_total.
    + intros ev Hrun. apply map_issue_comment_event_id_source in Hrun. tauto.
    + apply map_pull_request_review_event_total.
    + intros ev Hrun.
      apply map_pull_request_review_event_id_source in Hrun. tauto.
    + apply map_release_event_total.
    + intros ev Hrun. apply map_release_event_id_source in Hrun. tauto.
Qed.

(** From a fact [H] about the registered mappers, of the form the
    registry theorem has: the event a mapper returns on a well-formed
    payload, with what [H] says of it. *)
Ltac mapped_by H category mapper payload :=
  let Hwf := fresh "Hwf" in
  let Hrun := fresh "Hrun" in
  let ev := fresh "ev" in
  let Hev := fresh "Hev" in
  destruct (H category mapper payload "test-delivery-id" Fixture.now eq_refl)
    as (Hwf & Hrun);
  destruct (Hwf eq_refl) as (ev & Hev);
  exists ev; split; [exact Hev | exact (Hrun ev Hev)].

Lemma registered_mapper_id_source_witness :
  let mapped (m : mapper) (payload : json) :=
    exists ev,
      m payload "test-delivery-id" Fixture.now = Ok ev
      /\ StandardEvent.id ev = "test-delivery-id"
      /\ StandardEvent.source ev = "github" in
  mapped (map_push_event (R := Fixture.runtime)) Fixture.push
  /\ mapped (map_pull_request_event (R := Fixture.runtime)) Fixture.pr_opened
  /\ mapped (map_issue_event (R := Fixture.runtime))
       (Sample.issue_event (JStr "opened"))
  /\ mapped (map_issue_comment_event (R := Fixture.runtime))
       (Fixture.issue_comment false)
  /\ mapped (map_pull_request_review_event (R := Fixture.runtime))
       Fixture.review
  /\ mapped (map_release_event (R := Fixture.runtime))
       (Sample.release_event (JStr "published")).
Proof.
  cbv zeta.
  pose proof (proj2 (@registered_mapper_id_source Fixture.runtime
                       Fixture.secret_text)) as H.
  split; [|split; [|split; [|split; [|split]]]].
  - mapped_by H "push" (map_push_event (R := Fixture.runtime)) Fixture.push.
  - mapped_by H "pull_request"
      (map_pull_request_event (R := Fixture.runtime)) Fixture.pr_opened.
  - mapped_by H "issues" (map_issue_event (R := Fixture.runtime))
      (Sample.issue_event (JStr "opened")).
  - mapped_by H "issue_comment"
      (map_issue_comment_event (R := Fixture.runtime))
      (Fixture.issue_comment false).
  - mapped_by H "pull_request_review"
      (map_pull_request_review_event (R := Fixture.runtime)) Fixture.review.
  - mapped_by H "release" (map_release_event (R := Fixture.runtime))
      (Sample.release_event (JStr "published")).
Defined.

(* ================================================================= *)
(** ** Serialisation: [to_dict] *)

(** What [to_dict] does render: the event's type as its string code, the
    actor, the repository and the metadata as plain dicts, and one entry
    per change, in the order of [changes]. *)
Lemma to_dict_top_level (e : StandardEvent.t) :
  exists d,
    to_dict e = PDict d
    /\ lookup "type" d
       = Some (PJson (JStr (EventType_value (StandardEvent.type e))))
    /\ lookup "actor" d
       = Some (PJson (JObj (Actor.dict (StandardEvent.actor e))))
    /\ lookup "repository" d
       = Some (PJson (JObj (Repository.dict (StandardEvent.repository e))))
    /\ lookup "metadata" d
       = Some (PJson (JObj (EventMetadata.dict (StandardEvent.metadata e))))
    /\ lookup "changes" d
       = Some (PList (map (fun c => PDict (Change_dict c))
                          (StandardEvent.changes e))).
Proof. eexists. split; [reflexivity|]. repeat split. Qed.

(** The dict of a change keeps the enum member and the author object. *)
Lemma Change_dict_objects (c : Change.t) :
  lookup "type" (Change_dict c) = Some (PChangeType (Change.type c))
  /\ forall a, Change.author c = Some a ->
               lookup "author" (Change_dict c) = Some (PActor a).
Proof.
  split; [reflexivity|]. intros a Ha. unfold Change_dict. rewrite Ha.
  reflexivity.
Qed.

(** [to_dict] gives a value that [json.dumps] accepts exactly when the
    event has no change. *)
Lemma to_dict_json_compatible_iff (e : StandardEvent.t) :
  json_compatible (to_dict e) = true <-> StandardEvent.changes e = [].
Proof.
  unfold to_dict. cbn [json_compatible forallb snd andb].
  destruct (StandardEvent.changes e) as [| c cs]; simpl.
  - split; reflexivity.
  - split; discriminate.
Qed.

(** What [json.dumps] makes of [to_dict]: for an event without changes
    the value is a decoded one and the outcome is that of [json_dumps];
    for an event with a change the encoder writes the fields that come
    before [changes], opens the list and the first change, and meets the
    member of [ChangeType] under [type]. *)
Lemma dumps_to_dict {R : Runtime} (e : StandardEvent.t) :
  (StandardEvent.changes e = [] ->
   dumps (to_dict e) = json_dumps (as_json (to_dict e)))
  /\ (StandardEvent.changes e <> [] ->
      exists j,
        written (to_dict e) = Some j
        /\ dumps (to_dict e)
           = match json_dumps j with
             | Ok _ => Raise TypeError
             | Raise err => Raise err
             end).
Proof.
  unfold dumps, to_dict. split.
  - intros ->. cbn.
    destruct (json_dumps _) as [text | err]; reflexivity.
  - intros Hne. destruct (StandardEvent.changes e) as [| c cs]; [congruence|].
    eexists. split; [reflexivity|]. cbn.
    destruct (json_dumps _) as [text | err]; reflexivity.
Qed.

Lemma console_accepts_cons {R : Runtime} text texts :
  console_accepts (text :: texts) = true
  <-> print_error text = None /\ console_accepts texts = true.
Proof.
  unfold console_accepts. cbn [forallb]. rewrite andb_true_iff.
  destruct (print_error text); split; intros (H1 & H2);
    split; congruence.
Qed.

Lemma cons_eq_inv {A : Type} (a b : A) (l m : list A) :
  a :: l = b :: m -> a = b /\ l = m.
Proof. intros H. injection H as Ha Hl. split; assumption. Qed.

Section ConsoleProperties.
Context {R : Runtime}.
Variable ev : StandardEvent.t.
Variable out : list string.

(** Once the seven heading texts are on the console, the outcome is that
    of [json.dumps] and of printing its text; the closing rule is the
    first text again, so it is taken. *)
Lemma ConsolePublisher_publish_heading username full_name :
  py_str (Actor.username (StandardEvent.actor ev)) = Ok username ->
  py_str (Repository.full_name (StandardEvent.repository ev))
  = Ok full_name ->
  console_accepts (heading ev username full_name) = true ->
  publish ConsolePublisher ev out
  = match dumps (to_dict ev) with
    | Raise e => (Raise e, out ++ heading ev username full_name)
    | Ok text =>
        match print_error text with
        | Some e => (Raise e, out ++ heading ev username full_name)
        | None =>
            (Ok true,
             out ++ heading ev username full_name ++ [text; times "=" 80])
        end
    end.
Proof.
  intros Hu Hf Hacc. unfold heading in *.
  repeat (apply console_accepts_cons in Hacc;
          let H := fresh "Hp" in destruct Hacc as (H & Hacc)).
  cbn [publish ConsolePublisher]. unfold seq, print, lift, ret.
  rewrite Hp; cbv beta iota zeta. rewrite Hp0; cbv beta iota zeta.
  rewrite Hp1; cbv beta iota zeta. rewrite Hu; cbv beta iota zeta.
  rewrite Hp2; cbv beta iota zeta. rewrite Hf; cbv beta iota zeta.
  rewrite Hp3; cbv beta iota zeta. rewrite Hp4; cbv beta iota zeta.
  rewrite Hp5; cbv beta iota zeta.
  destruct (dumps (to_dict ev)) as [text | e]; cbv beta iota zeta.
  - destruct (print_error text) as [e |]; cbv beta iota zeta.
    + rewrite <- !app_assoc. reflexivity.
    + rewrite <- !app_assoc. reflexivity.
  - rewrite <- !app_assoc. reflexivity.
Qed.

(** Whatever happens, the texts that were on the console stay, [False]
    is never the answer, and [True] is the answer only after [str] has
    converted both names, [json.dumps] has given a text and the console
    has taken the heading and that text. *)
Lemma ConsolePublisher_publish_shape :
  (exists printed, snd (publish ConsolePublisher ev out) = out ++ printed)
  /\ fst (publish ConsolePublisher ev out) <> Ok false
  /\ (fst (publish ConsolePublisher ev out) = Ok true ->
      exists username full_name text,
        py_str (Actor.username (StandardEvent.actor ev)) = Ok username
        /\ py_str (Repository.full_name (StandardEvent.repository ev))
           = Ok full_name
        /\ dumps (to_dict ev) = Ok text
        /\ console_accepts (heading ev username full_name ++ [text]) = true).
Proof.
  cbn [publish ConsolePublisher]. unfold seq, print, lift, ret.
  unfold console_accepts, heading.
  destruct (print_error (times "=" 80)) eqn:H1;
    [ cbn; split; [exists []; rewrite app_nil_r; reflexivity|];
      split; discriminate |].
  destruct (print_error ("Event: " ++ _)) eqn:H2;
    [ cbn; split; [eexists; reflexivity|]; split; discriminate |].
  destruct (print_error ("Source: " ++ _)) eqn:H3;
    [ cbn; split; [eexists; rewrite <- !app_assoc; reflexivity|];
      split; discriminate |].
  destruct (py_str (Actor.username _)) as [username | e] eqn:Hu;
    [| cbn; split; [eexists; rewrite <- !app_assoc; reflexivity|];
       split; discriminate ].
  destruct (print_error ("Actor: " ++ _)) eqn:H4;
    [ cbn; split; [eexists; rewrite <- !app_assoc; reflexivity|];
      split; discriminate |].
  destruct (py_str (Repository.full_name _)) as [full_name | e] eqn:Hf;
    [| cbn; split; [eexists; rewrite <- !app_assoc; reflexivity|];
       split; discriminate ].
  destruct (print_error ("Repository: " ++ _)) eqn:H5;
    [ cbn; split; [eexists; rewrite <- !app_assoc; reflexivity|];
      split; discriminate |].
  destruct (print_error ("Timestamp: " ++ _)) eqn:H6;
    [ cbn; split; [eexists; rewrite <- !app_assoc; reflexivity|];
      split; discriminate |].
  destruct (print_error (times "-" 80)) eqn:H7;
    [ cbn; split; [eexists; rewrite <- !app_assoc; reflexivity|];
      split; discriminate |].
  destruct (dumps (to_dict ev)) as [text | e] eqn:Hd;
    [| cbn; split; [eexists; rewrite <- !app_assoc; reflexivity|];
       split; discriminate ].
  destruct (print_error text) eqn:H8;
    [ cbn; split; [eexists; rewrite <- !app_assoc; reflexivity|];
      split; discriminate |].
  cbn [fst snd].
  split; [eexists; rewrite <- !app_assoc; reflexivity|].
  split; [discriminate|]. intros _.
  exists username, full_name, text.
  split; [reflexivity|]. split; [reflexivity|]. split; [reflexivity|].
  cbn [app forallb]. rewrite H1, H2, H3, H4, H5, H6, H7, H8. reflexivity.
Qed.

(** The console refuses a text of the heading: [print] raises there and
    the texts before it have been printed. *)
Lemma ConsolePublisher_publish_refused username full_name before text after e :
  py_str (Actor.username (StandardEvent.actor ev)) = Ok username ->
  py_str (Repository.full_name (StandardEvent.repository ev))
  = Ok full_name ->
  heading ev username full_name = before ++ text :: after ->
  console_accepts before = true ->
  print_error text = Some e ->
  publish ConsolePublisher ev out = (Raise e, out ++ before).
Proof.
  intros Hu Hf Hsplit Hacc He. unfold heading in Hsplit.
  cbn [publish ConsolePublisher]. unfold seq, print, lift, ret.
  repeat (destruct before as [| ? before];
          [ cbn [app] in Hsplit; apply cons_eq_inv in Hsplit;
            destruct Hsplit as (<- & _);
            repeat (apply console_accepts_cons in Hacc;
                    let H := fresh "Hp" in destruct Hacc as (H & Hacc));
            repeat match goal with
                   | H : print_error _ = None |- _ =>
                       rewrite H; clear H; cbv beta iota zeta
                   | H : py_str _ = Ok _ |- _ =>
                       rewrite H; clear H; cbv beta iota zeta
                   end;
            rewrite He; rewrite <- ?app_assoc; try rewrite app_nil_r;
            reflexivity
          | cbn [app] in Hsplit; apply cons_eq_inv in Hsplit;
            destruct Hsplit as (<- & Hsplit) ]).
  destruct before; simpl in Hsplit; discriminate Hsplit.
Qed.

End ConsoleProperties.

(** On an event with a change, once [str] has converted the two names
    and the console has taken the heading, the console publisher raises
    what [json.dumps] raises: [TypeError], unless writing the fields
    before [changes] has failed already.  Behind [github_webhook] a
    [TypeError] is answered with status 500. *)
Lemma ConsolePublisher_publish_outcome {R : Runtime}
    (e : StandardEvent.t) (out : list string) (username full_name : string) :
  py_str (Actor.username (StandardEvent.actor e)) = Ok username ->
  py_str (Repository.full_name (StandardEvent.repository e)) = Ok full_name ->
  console_accepts (heading e username full_name) = true ->
  StandardEvent.changes e <> [] ->
  exists j,
    written (to_dict e) = Some j
    /\ publish ConsolePublisher e out
       = (match json_dumps j with
          | Ok _ => Raise TypeError
          | Raise err => Raise err
          end,
          out ++ heading e username full_name).
Proof.
  intros Hu Hf Hacc Hne.
  rewrite (ConsolePublisher_publish_heading e out username full_name Hu Hf Hacc).
  destruct (proj2 (dumps_to_dict e) Hne) as (j & Hj & ->).
  exists j. split; [exact Hj|].
  destruct (json_dumps j); reflexivity.
Qed.

(** C9, at the push payload of the test suite (one commit).  The event is
    mapped, and in its [to_dict] the entry [type] is the string code and
    the actor is a plain dict, but the first element of [changes] holds
    the member [ChangeType.COMMIT] itself under [type], not the string
    commit, and the [Actor] instance itself under [author], not a dict;
    the result is not a value [json.dumps] can serialise, and
    [ConsolePublisher.publish], which passes it to [json.dumps], raises
    [TypeError]. *)
Theorem to_dict_push_not_json_compatible :
  exists ev d c a,
    map_push_event (R := Fixture.runtime) Fixture.push "test-delivery-id"
      Fixture.now = Ok ev
    /\ to_dict ev = PDict d
    /\ lookup "type" d = Some (PJson (JStr "code.push"))
    /\ lookup "changes" d = Some (PList [PDict c])
    /\ lookup "type" c = Some (PChangeType COMMIT)
    /\ lookup "type" c <> Some (PJson (JStr (ChangeType_value COMMIT)))
    /\ lookup "author" c = Some (PActor a)
    /\ (forall fields, lookup "author" c <> Some (PJson (JObj fields)))
    /\ json_compatible (to_dict ev) = false
    /\ fst (publish (ConsolePublisher (R := Fixture.runtime)) ev [])
       = Raise TypeError.
Proof.
  eexists. eexists. eexists. eexists.
  split; [reflexivity|].
  split; [reflexivity|].
  split; [reflexivity|].
  split; [reflexivity|].
  split; [reflexivity|].
  split; [discriminate|].
  split; [reflexivity|].
  split; [intros fields; discriminate|].
  split; [reflexivity|].
  vm_compute. reflexivity.
Qed.

(* ================================================================= *)
(** ** Metadata: which fields a mapper fills *)


Section MetadataProperties.
Context {R : Runtime}.







End MetadataProperties.




(* ================================================================= *)
(** ** The composite publisher *)

Section PublisherProperties.
Context {World : Type}.

(** As long as no sink raises, the comprehension of
    [MultiPublisher.publish] is [invoke_all]: same calls, same order, same
    world at the end. *)
Lemma publish_each_invoke_all (sinks : list (EventPublisher World)) ev w :
  Forall returned (fst (invoke_all sinks ev w)) ->
  publish_each sinks ev w
  = (Ok (map succeeded (fst (invoke_all sinks ev w))),
     snd (invoke_all sinks ev w)).
Proof.
  revert w. induction sinks as [| sink rest IH]; intros w; simpl.
  - reflexivity.
  - destruct (publish sink ev w) as [outcome w1].
    specialize (IH w1).
    destruct (invoke_all rest ev w1) as [outcomes w2]. simpl in *.
    intros H. inversion H as [| ? ? Hhead Htail]; subst.
    destruct Hhead as (b & ->). rewrite (IH Htail). simpl.
    destruct b; reflexivity.
Qed.

Lemma invoke_all_length (sinks : list (EventPublisher World)) ev w :
  List.length (fst (invoke_all sinks ev w)) = List.length sinks.
Proof.
  revert w. induction sinks as [| sink rest IH]; intros w; simpl.
  - reflexivity.
  - destruct (publish sink ev w) as [outcome w1]. specialize (IH w1).
    destruct (invoke_all rest ev w1) as [outcomes w2]. simpl in *.
    f_equal. exact IH.
Qed.

Lemma forallb_succeeded (outcomes : list (result bool)) :
  forallb (fun r => r) (map succeeded outcomes) = true
  <-> Forall (fun o => o = Ok true) outcomes.
Proof.
  induction outcomes as [| o os IH]; simpl.
  - split; [constructor | reflexivity].
  - rewrite andb_true_iff, IH. split.
    + intros (Ho & Hos). constructor; [|assumption].
      destruct o as [[|] | e]; simpl in Ho; congruence.
    + intros H. inversion H; subst. split; [reflexivity | assumption].
Qed.

Lemma forallb_map_succeeded (outcomes : list (result bool)) :
  forallb (fun r => r) (map succeeded outcomes) = forallb succeeded outcomes.
Proof.
  induction outcomes as [| o os IH]; simpl; [reflexivity|].
  rewrite IH. reflexivity.
Qed.

(** The comprehension stops at the first sink that raises: the sinks
    before it have been called, the ones after it are not. *)
Lemma publish_each_raise (before after : list (EventPublisher World))
    (sink : EventPublisher World) ev w e :
  Forall returned (fst (invoke_all before ev w)) ->
  fst (publish sink ev (snd (invoke_all before ev w))) = Raise e ->
  publish_each (before ++ sink :: after) ev w
  = (Raise e, snd (publish sink ev (snd (invoke_all before ev w)))).
Proof.
  revert w. induction before as [| s rest IH]; intros w; simpl.
  - intros _. destruct (publish sink ev w) as [o w1]. simpl.
    intros ->. reflexivity.
  - destruct (publish s ev w) as [outcome w1]. specialize (IH w1).
    destruct (invoke_all rest ev w1) as [outcomes w2]. simpl in *.
    intros H Hraise. inversion H as [| ? ? Hhead Htail]; subst.
    destruct Hhead as (b & ->). rewrite (IH Htail Hraise). reflexivity.
Qed.

(** A sink that raises ends the publication: its exception is the
    outcome and no later sink is called. *)
Lemma MultiPublisher_publish_raise (before after : list (EventPublisher World))
    (sink : EventPublisher World) ev w e :
  Forall returned (fst (invoke_all before ev w)) ->
  fst (publish sink ev (snd (invoke_all before ev w))) = Raise e ->
  MultiPublisher_publish (before ++ sink :: after) ev w
  = (Raise e, snd (publish sink ev (snd (invoke_all before ev w)))).
Proof.
  unfold MultiPublisher_publish.
  revert w. induction before as [| s rest IH]; intros w; simpl.
  - intros _. destruct (publish sink ev w) as [o w1]. simpl.
    intros ->. reflexivity.
  - destruct (publish s ev w) as [outcome w1]. specialize (IH w1).
    destruct (invoke_all rest ev w1) as [outcomes w2]. simpl in *.
    intros H Hraise. inversion H as [| ? ? Hhead Htail]; subst.
    destruct Hhead as (b & ->). specialize (IH Htail Hraise).
    destruct (publish_each (rest ++ sink :: after) ev w1) as [[rs | e'] w'];
      inversion IH; subst; reflexivity.
Qed.

End PublisherProperties.

(** C5, as the code has it.  For every ordered list of sinks and every
    event, [MultiPublisher.publish] calls the sinks in list order and a
    false answer does not stop it.  As long as the sinks return, every
    sink is invoked, once: the result and the world it leaves are those
    of invoking them all, and the result is true if and only if every
    sink returned true.  A sink that raises does stop it: when the sinks
    before it have returned, its exception is the outcome, no boolean is
    returned, and the world is the one that sink leaves, so the sinks
    after it are not invoked. *)
Theorem MultiPublisher_publish_all {World : Type} :
  forall (sinks : list (EventPublisher World)) ev w,
    (Forall returned (fst (invoke_all sinks ev w)) ->
     MultiPublisher_publish sinks ev w
     = (Ok (forallb succeeded (fst (invoke_all sinks ev w))),
        snd (invoke_all sinks ev w))
     /\ List.length (fst (invoke_all sinks ev w)) = List.length sinks
     /\ (fst (MultiPublisher_publish sinks ev w) = Ok true
         <-> Forall (fun o => o = Ok true) (fst (invoke_all sinks ev w))))
    /\ (forall before sink after e,
          sinks = before ++ sink :: after ->
          Forall returned (fst (invoke_all before ev w)) ->
          fst (publish sink ev (snd (invoke_all before ev w))) = Raise e ->
          MultiPublisher_publish sinks ev w
          = (Raise e, snd (publish sink ev (snd (invoke_all before ev w))))).
Proof.
  intros sinks ev w. split.
  - intros H. unfold MultiPublisher_publish.
    rewrite (publish_each_invoke_all sinks ev w H). simpl.
    rewrite forallb_map_succeeded.
    split; [reflexivity|]. split; [apply invoke_all_length|].
    rewrite <- forallb_succeeded, forallb_map_succeeded.
    split; intros E; congruence.
  - intros before sink after e -> Hbefore Hraise.
    unfold MultiPublisher_publish.
    rewrite (publish_each_raise before after sink ev w e Hbefore Hraise).
    reflexivity.
Qed.

Lemma MultiPublisher_publish_all_witness :
  MultiPublisher_publish
    [ Fixture.sink "first" true; Fixture.sink "second" false;
      Fixture.sink "third" true ] Fixture.event []
  = (Ok false, ["first"; "second"; "third"])
  /\ MultiPublisher_publish
       [ Fixture.sink "first" true; Fixture.sink "second" true ]
       Fixture.event []
     = (Ok true, ["first"; "second"])
  /\ MultiPublisher_publish
       [ Fixture.sink "first" false;
         Sample.raising_sink (ValueError "queue refused the event");
         Fixture.sink "third" true ] Fixture.event []
     = (Raise (ValueError "queue refused the event"), ["first"]).
Proof.
  split; [|split].
  - apply (proj1 (proj1 (MultiPublisher_publish_all
                           [ Fixture.sink "first" true;
                             Fixture.sink "second" false;
                             Fixture.sink "third" true ] Fixture.event [])
                    ltac:(repeat constructor; eexists; reflexivity))).
  - apply (proj1 (proj1 (MultiPublisher_publish_all
                           [ Fixture.sink "first" true;
                             Fixture.sink "second" true ]
                           Fixture.event [])
                    ltac:(repeat constructor; eexists; reflexivity))).
  - apply (proj2 (MultiPublisher_publish_all
                    [ Fixture.sink "first" false;
                      Sample.raising_sink
                        (ValueError "queue refused the event");
                      Fixture.sink "third" true ] Fixture.event [])
             [Fixture.sink "first" false]
             (Sample.raising_sink (ValueError "queue refused the event"))
             [Fixture.sink "third" true]
             (ValueError "queue refused the event") eq_refl).
    + repeat constructor. eexists. reflexivity.
    + reflexivity.
Defined.

(** C5, as the claim states it, fails: with a sink that raises in the
    middle, here the repository's own [MessageQueuePublisher], invoking
    every sink would reach the third one, but [MultiPublisher.publish]
    does not; it returns no boolean, it raises. *)
Lemma MultiPublisher_stops_at_raising_sink :
  let sinks := [ Fixture.sink "first" true; MessageQueuePublisher;
                 Fixture.sink "third" true ] in
  invoke_all sinks Fixture.event []
  = ([Ok true; Raise NotImplementedError; Ok true], ["first"; "third"])
  /\ MultiPublisher_publish sinks Fixture.event []
     = (Raise NotImplementedError, ["first"])
  /\ (forall b : bool,
         fst (MultiPublisher_publish sinks Fixture.event []) <> Ok b).
Proof.
  cbv zeta. split; [reflexivity|]. split; [reflexivity|].
  intros b. discriminate.
Qed.

(* ================================================================= *)
(** ** Signature verification *)

Lemma prefix_drop (p s : string) :
  String.prefix p s = true -> s = (p ++ drop (String.length p) s)%string.
Proof.
  revert s. induction p as [| c p IH]; intros s; destruct s as [| c' s];
    simpl; try reflexivity; try discriminate.
  destruct (Ascii.ascii_dec c c') as [-> | Hne]; [|discriminate].
  intros H. f_equal. apply IH. assumption.
Qed.

Lemma prefix_append (p s : string) : String.prefix p (p ++ s) = true.
Proof.
  induction p as [| c p IH]; simpl.
  - destruct s; reflexivity.
  - destruct (Ascii.ascii_dec c c) as [_ | Hne]; [exact IH | congruence].
Qed.

Lemma drop_append (p s : string) : drop (String.length p) (p ++ s) = s.
Proof. induction p as [| c p IH]; simpl; [reflexivity | exact IH]. Qed.

Lemma is_ascii_String (c : ascii) (s : string) :
  is_ascii (String c s)
  = (Sha256.Z_of_byte (byte_of_ascii c) <? 128) && is_ascii s.
Proof. reflexivity. Qed.

Lemma is_ascii_hex (bs : list byte) : is_ascii (Hmac.hex bs) = true.
Proof.
  induction bs as [| b bs IH]; [reflexivity|].
  cbn [Hmac.hex]. rewrite !is_ascii_String, IH.
  destruct b; reflexivity.
Qed.

(** A digest in hexadecimal is ASCII text, so [hmac.compare_digest] does
    not raise on account of the expected signature. *)
Lemma is_ascii_hexdigest (key msg : list byte) :
  is_ascii (Hmac.hexdigest key msg) = true.
Proof. exact (is_ascii_hex (Hmac.digest key msg)). Qed.

(** The check of [verify_signature] against an expected digest that is
    ASCII text. *)
Lemma signature_check_true_iff (expected signature : string) :
  is_ascii expected = true ->
  (if String.eqb signature "" || negb (String.prefix "sha256=" signature)
   then Ok false
   else compare_digest expected (drop 7 signature)) = Ok true
  <-> signature = ("sha256=" ++ expected)%string.
Proof.
  intros Hascii. split.
  - destruct (String.eqb signature "") eqn:Eempty; [discriminate|].
    destruct (String.prefix "sha256=" signature) eqn:Eprefix;
      [|discriminate].
    cbn [negb orb]. unfold compare_digest. rewrite Hascii. cbn [andb].
    destruct (is_ascii (drop 7 signature)); [|discriminate].
    intros H. injection H as Heq. apply String.eqb_eq in Heq.
    subst expected. apply (prefix_drop "sha256=" signature Eprefix).
  - intros ->.
    change 7%nat with (String.length "sha256=").
    rewrite prefix_append, drop_append.
    unfold compare_digest. rewrite Hascii, String.eqb_refl. reflexivity.
Qed.

(** The same check, of a header made of the tag and [expected], against
    another expected digest. *)
Lemma signature_check_other (expected other : string) :
  is_ascii expected = true -> is_ascii other = true ->
  (if String.eqb ("sha256=" ++ expected) ""
      || negb (String.prefix "sha256=" ("sha256=" ++ expected))
   then Ok false
   else compare_digest other (drop 7 ("sha256=" ++ expected)))
  = Ok (String.eqb other expected).
Proof.
  intros He Ho.
  change 7%nat with (String.length "sha256=").
  rewrite prefix_append, drop_append.
  unfold compare_digest. rewrite He, Ho. reflexivity.
Qed.

Section SignatureProperties.
Variable self : GitHubWebhookHandler.
Variable payload : list byte.

(** An empty header and a header without the tag are refused before any
    digest is computed: the answer is [False], nothing is raised. *)
Lemma verify_signature_fails_closed (signature : string) :
  signature = "" \/ String.prefix "sha256=" signature = false ->
  verify_signature self payload signature = Ok false.
Proof.
  unfold verify_signature. intros [-> | ->]; [reflexivity|].
  rewrite orb_true_r. reflexivity.
Qed.

(** The answer is [True] exactly when the header is the tag followed by
    the hexadecimal HMAC-SHA256 digest of the body under the secret. *)
Lemma verify_signature_true_iff (signature : string) :
  verify_signature self payload signature = Ok true
  <-> signature = ("sha256=" ++ Hmac.hexdigest (secret self) payload)%string.
Proof.
  apply signature_check_true_iff. apply is_ascii_hexdigest.
Qed.

(** Against the header made for one secret and body, another secret and
    body are accepted exactly when they give the same digest. *)
Lemma verify_signature_other (self' : GitHubWebhookHandler)
    (payload' : list byte) :
  verify_signature self' payload'
    ("sha256=" ++ Hmac.hexdigest (secret self) payload)
  = Ok (String.eqb (Hmac.hexdigest (secret self') payload')
                   (Hmac.hexdigest (secret self) payload)).
Proof.
  apply signature_check_other; apply is_ascii_hexdigest.
Qed.

End SignatureProperties.

(** What is proved of [verify_signature] for every secret, body and
    header: it fails closed on an empty or untagged header, it answers
    [True] exactly on the tag followed by the digest, so the header made
    with the right secret is accepted; and after a change of the body or
    of the secret that header is refused unless the changed input has the
    same HMAC-SHA256 digest.  That a change of one byte always changes the
    digest is a property of the hash function, not of this code. *)
Lemma verify_signature_contract (self : GitHubWebhookHandler)
    (payload : list byte) :
  (forall signature,
      signature = "" \/ String.prefix "sha256=" signature = false ->
      verify_signature self payload signature = Ok false)
  /\ (forall signature,
        verify_signature self payload signature = Ok true
        <-> signature
            = ("sha256=" ++ Hmac.hexdigest (secret self) payload)%string)
  /\ verify_signature self payload
       ("sha256=" ++ Hmac.hexdigest (secret self) payload) = Ok true
  /\ (forall self' payload',
        verify_signature self' payload'
          ("sha256=" ++ Hmac.hexdigest (secret self) payload) = Ok false
        <-> Hmac.hexdigest (secret self') payload'
            <> Hmac.hexdigest (secret self) payload).
Proof.
  split; [apply verify_signature_fails_closed|].
  split; [apply verify_signature_true_iff|].
  split; [apply verify_signature_true_iff; reflexivity|].
  intros self' payload'. rewrite verify_signature_other.
  destruct (String.eqb_spec (Hmac.hexdigest (secret self') payload')
                            (Hmac.hexdigest (secret self) payload))
    as [Heq | Hne].
  - split; [discriminate | intros Hne; contradiction].
  - split; [intros _; assumption | reflexivity].
Qed.

Example verify_signature_on_fixture :
  verify_signature Fixture.handler Fixture.body Fixture.signature = Ok true
  /\ verify_signature Fixture.handler Fixture.body "sha256=invalid" = Ok false
  /\ verify_signature Fixture.handler Fixture.body "" = Ok false
  /\ verify_signature Fixture.handler
       (bytes_of ("{" ++ Fixture.dq ++ "test" ++ Fixture.dq ++ ": "
                  ++ Fixture.dq ++ "datb" ++ Fixture.dq ++ "}")%string)
       Fixture.signature = Ok false
  /\ verify_signature (new_handler (R := Fixture.runtime) "test-secreu")
       Fixture.body Fixture.signature = Ok false
  /\ verify_signature Fixture.handler Fixture.body
       ("sha256=" ++ String (ascii_of_nat 195) (String (ascii_of_nat 169) ""))
     = Raise TypeError.
Proof. vm_compute. repeat split. Qed.

(* ================================================================= *)
(** ** Request handling: the failures *)

Section RequestProperties.
Context {R : Runtime}.
Variable self : GitHubWebhookHandler.
Variable headers : list (string * string).
Variable body : list byte.
Variable now : string.

Lemma handle_request_unauthorized :
  verify_signature self body (signature_header headers) = Ok false ->
  handle_request self headers body now
  = Raise (ValueError "Invalid webhook signature").
Proof.
  unfold handle_request. fold (signature_header headers). intros ->. reflexivity.
Qed.

Lemma handle_request_unparsable e :
  verify_signature self body (signature_header headers) = Ok true ->
  json_loads body = Raise e ->
  handle_request self headers body now = Raise e.
Proof.
  unfold handle_request. fold (signature_header headers). intros -> Hloads.
  cbn [bind negb]. rewrite Hloads. reflexivity.
Qed.

Lemma handle_request_missing_headers payload :
  verify_signature self body (signature_header headers) = Ok true ->
  json_loads body = Ok payload ->
  header_missing (lookup "X-GitHub-Event" headers)
  || header_missing (lookup "X-GitHub-Delivery" headers) = true ->
  handle_request self headers body now
  = Raise (ValueError "Missing required headers").
Proof.
  unfold handle_request. fold (signature_header headers). intros -> Hloads Hmissing.
  cbn [bind negb]. rewrite Hloads. cbn [bind]. rewrite Hmissing.
  reflexivity.
Qed.

End RequestProperties.

(** The view answers an exception of [handle_request] by its class: a
    [ValueError], subclasses included, with 401 and the exception's
    message, any other exception with 500 and a fixed message. *)
Lemma github_webhook_exception {R : Runtime} {World : Type}
    (self : GitHubWebhookHandler) (event_publisher : EventPublisher World)
    (environ : list (string * string)) (body : list byte) (now : string)
    (w : World) (e : exn) :
  handle_request self (header_dict environ) body now = Raise e ->
  github_webhook self event_publisher environ body now w
  = if is_ValueError e
    then {| status_code := 401;
            response_body := [("status", "error");
                              ("message", exn_message e)] |}
    else {| status_code := 500;
            response_body := [("status", "error");
                              ("message", "Internal server error")] |}.
Proof.
  unfold github_webhook. intros ->. reflexivity.
Qed.

(** C7, as the code has it.  [handle_request] checks the signature first
    and raises [ValueError('Invalid webhook signature')] when it does not
    verify.  With a verified signature, a body that [json.loads] refuses
    raises the exception of [json.loads], unchanged, and a parsed body
    with the event or the delivery header absent (or empty) raises
    [ValueError('Missing required headers')].  The two exceptions that
    [handle_request] raises itself have the same class, [ValueError], and
    differ in their message only.  The exception of [json.loads] is of
    another class: [JSONDecodeError] and [UnicodeDecodeError] are
    subclasses of [ValueError], [RecursionError] is not.  [github_webhook]
    answers an exception of [handle_request] with status 401 and the
    exception's message when it is a [ValueError] or of a subclass, and
    with status 500 and a fixed message otherwise. *)
Theorem handle_request_failures {R : Runtime} {World : Type} :
  forall (self : GitHubWebhookHandler)
         (event_publisher : EventPublisher World)
         (headers : list (string * string)) (body : list byte)
         (now : string),
    (verify_signature self body (signature_header headers) = Ok false ->
     handle_request self headers body now
     = Raise (ValueError "Invalid webhook signature"))
    /\ (verify_signature self body (signature_header headers) = Ok true ->
        forall e, json_loads body = Raise e ->
                  handle_request self headers body now = Raise e)
    /\ (verify_signature self body (signature_header headers) = Ok true ->
        forall payload,
          json_loads body = Ok payload ->
          header_missing (lookup "X-GitHub-Event" headers)
          || header_missing (lookup "X-GitHub-Delivery" headers) = true ->
          handle_request self headers body now
          = Raise (ValueError "Missing required headers"))
    /\ class_of (ValueError "Missing required headers")
       = class_of (ValueError "Invalid webhook signature")
    /\ (forall msg,
          is_ValueError (ValueError msg) = true
          /\ is_ValueError (JSONDecodeError msg) = true
          /\ is_ValueError (UnicodeDecodeError msg) = true
          /\ class_of (JSONDecodeError msg) <> class_of (ValueError msg)
          /\ class_of (UnicodeDecodeError msg) <> class_of (ValueError msg))
    /\ is_ValueError RecursionError = false
    /\ (forall environ w e,
          handle_request self (header_dict environ) body now = Raise e ->
          github_webhook self event_publisher environ body now w
          = if is_ValueError e
            then {| status_code := 401;
                    response_body := [("status", "error");
                                      ("message", exn_message e)] |}
            else {| status_code := 500;
                    response_body := [("status", "error");
                                      ("message", "Internal server error")] |}).
Proof.
  intros self event_publisher headers body now.
  split; [apply handle_request_unauthorized|].
  split; [intros Hv e; apply handle_request_unparsable; assumption|].
  split; [intros Hv payload; apply handle_request_missing_headers; assumption|].
  split; [reflexivity|].
  split; [intros msg; repeat split; discriminate|].
  split; [reflexivity|].
  intros environ w e. apply github_webhook_exception.
Qed.

Lemma handle_request_failures_witness :
  handle_request (R := Fixture.runtime) Fixture.handler
    Fixture.headers_signed_only Fixture.body Fixture.now
  = Raise (ValueError "Missing required headers")
  /\ handle_request (R := Fixture.runtime) Fixture.handler
       Fixture.headers_bad_signature Fixture.body Fixture.now
     = Raise (ValueError "Invalid webhook signature")
  /\ handle_request (R := Fixture.runtime) Fixture.handler
       (Fixture.headers_complete Fixture.signature_not_json)
       Fixture.body_not_json Fixture.now
     = Raise (JSONDecodeError "Expecting value: line 1 column 1 (char 0)")
  /\ github_webhook (R := Fixture.runtime) Fixture.handler
       (Fixture.sink "console" true)
       [("HTTP_X_HUB_SIGNATURE_256", Fixture.signature_not_json)]
       Fixture.body_not_json Fixture.now []
     = {| status_code := 401;
          response_body :=
            [("status", "error");
             ("message", "Expecting value: line 1 column 1 (char 0)")] |}
  /\ github_webhook (R := Sample.runtime) Sample.handler
       (Fixture.sink "console" true)
       (Sample.environ "push" Sample.deep_signature)
       Sample.deep_body Fixture.now []
     = {| status_code := 500;
          response_body := [("status", "error");
                            ("message", "Internal server error")] |}.
Proof.
  split; [|split; [|split; [|split]]].
  - destruct (@handle_request_failures Fixture.runtime (list string)
                Fixture.handler (Fixture.sink "console" true)
                Fixture.headers_signed_only Fixture.body Fixture.now)
      as (_ & _ & Hmissing & _).
    apply (Hmissing ltac:(vm_compute; reflexivity)
             (JObj [("test", JStr "data")]));
      vm_compute; reflexivity.
  - destruct (@handle_request_failures Fixture.runtime (list string)
                Fixture.handler (Fixture.sink "console" true)
                Fixture.headers_bad_signature Fixture.body Fixture.now)
      as (Hunauthorized & _).
    apply Hunauthorized. vm_compute. reflexivity.
  - destruct (@handle_request_failures Fixture.runtime (list string)
                Fixture.handler (Fixture.sink "console" true)
                (Fixture.headers_complete Fixture.signature_not_json)
                Fixture.body_not_json Fixture.now)
      as (_ & Hunparsable & _).
    apply (Hunparsable ltac:(vm_compute; reflexivity)).
    vm_compute. reflexivity.
  - destruct (@handle_request_failures Fixture.runtime (list string)
                Fixture.handler (Fixture.sink "console" true)
                [] Fixture.body_not_json Fixture.now)
      as (_ & _ & _ & _ & _ & _ & Hview).
    apply (Hview [("HTTP_X_HUB_SIGNATURE_256", Fixture.signature_not_json)]
             []
             (JSONDecodeError "Expecting value: line 1 column 1 (char 0)")).
    vm_compute. reflexivity.
  - destruct (@handle_request_failures Sample.runtime (list string)
                Sample.handler (Fixture.sink "console" true)
                [] Sample.deep_body Fixture.now)
      as (_ & _ & _ & _ & _ & _ & Hview).
    apply (Hview (Sample.environ "push" Sample.deep_signature) []
             RecursionError).
    vm_compute. reflexivity.
Defined.

(** C7, as the claim states it, fails: a signed request without the event
    and delivery headers and a request with a wrong signature end in
    exceptions of the same class, which the clause [except ValueError] of
    the caller cannot tell apart, and the caller answers both with the
    same status, 401, that of an authentication failure. *)
Lemma malformed_not_distinct_from_unauthorized :
  exists e_malformed e_unauthorized,
    handle_request (R := Fixture.runtime) Fixture.handler
      Fixture.headers_signed_only Fixture.body Fixture.now
    = Raise e_malformed
    /\ handle_request (R := Fixture.runtime) Fixture.handler
         Fixture.headers_bad_signature Fixture.body Fixture.now
       = Raise e_unauthorized
    /\ class_of e_malformed = class_of e_unauthorized
    /\ is_ValueError e_malformed = is_ValueError e_unauthorized
    /\ status_code
         (github_webhook (R := Fixture.runtime) Fixture.handler
            (Fixture.sink "console" true)
            [("HTTP_X_HUB_SIGNATURE_256", Fixture.signature)]
            Fixture.body Fixture.now [])
       = 401
    /\ status_code
         (github_webhook (R := Fixture.runtime) Fixture.handler
            (Fixture.sink "console" true)
            [ ("HTTP_X_HUB_SIGNATURE_256", "sha256=invalid");
              ("HTTP_X_GITHUB_EVENT", "push");
              ("HTTP_X_GITHUB_DELIVERY", "test-delivery-id") ]
            Fixture.body Fixture.now [])
       = 401.
Proof.
  exists (ValueError "Missing required headers"),
         (ValueError "Invalid webhook signature").
  vm_compute. repeat split.
Qed.

(** An unsupported category is acknowledged, and a supported one goes to
    its mapper: the request of the test suite's push payload is outside
    the stand-in decoder, so the dispatch is shown on [process_webhook]. *)
Example process_webhook_dispatch :
  process_webhook Fixture.handler "star"
    Fixture.push "test-delivery-id" Fixture.now = Ok None
  /\ exists ev,
       process_webhook Fixture.handler "push"
         Fixture.push "test-delivery-id" Fixture.now = Ok (Some ev)
       /\ StandardEvent.type ev = CODE_PUSH
       /\ List.length (StandardEvent.changes ev) = 1%nat
       /\ EventMetadata.ref (StandardEvent.metadata ev)
          = JStr "refs/heads/main".
Proof.
  split; [reflexivity|]. eexists. split; [reflexivity|]. repeat split.
Qed.
(* ================================================================= *)
(** * Further properties of the code *)

(** ** Actors and repositories *)

(** [extract_actor] succeeds exactly on a dict that has [login] and an
    [id] that [str] converts.  Then the actor's [id] is the [str] of the
    payload's id, [username] is the login, and [name], [email] and
    [avatar_url] are the payload's values, [None] where the key is
    absent.  A dict without [id] raises [KeyError('id')]; one whose [id]
    [str] refuses raises the exception of [str], whether it has a [login]
    or not, since the id is converted first; one with a convertible [id]
    but without [login] raises [KeyError('login')]; and a value that is
    not a dict raises [TypeError]. *)
Theorem extract_actor_spec {R : Runtime} :
  forall user_data,
    (forall a,
        extract_actor user_data = Ok a ->
        exists d id_ id_str login,
          user_data = JObj d
          /\ lookup "id" d = Some id_ /\ py_str id_ = Ok id_str
          /\ lookup "login" d = Some login
          /\ Actor.id a = JStr id_str
          /\ Actor.username a = login
          /\ Actor.name a = kwarg d "name" JNull
          /\ Actor.email a = kwarg d "email" JNull
          /\ Actor.avatar_url a = kwarg d "avatar_url" JNull)
    /\ ((exists a, extract_actor user_data = Ok a)
        <-> user_object user_data = true)
    /\ (forall d, user_data = JObj d -> lookup "id" d = None ->
                  extract_actor user_data = Raise (KeyError "id"))
    /\ (forall d id_ e,
          user_data = JObj d -> lookup "id" d = Some id_ ->
          py_str id_ = Raise e ->
          extract_actor user_data = Raise e)
    /\ (forall d id_ id_str,
          user_data = JObj d -> lookup "id" d = Some id_ ->
          py_str id_ = Ok id_str ->
          lookup "login" d = None ->
          extract_actor user_data = Raise (KeyError "login"))
    /\ ((forall d, user_data <> JObj d) ->
        extract_actor user_data = Raise TypeError).
Proof.
  intros u. split; [|split; [|split; [|split; [|split]]]].
  - intros a H. unfold extract_actor in H.
    apply bind_Ok in H. destruct H as (id_ & Eid & H).
    apply bind_Ok in H. destruct H as (id_str & Estr & H).
    apply bind_Ok in H. destruct H as (login & Elogin & H).
    apply getitem_Ok_dict in Eid. destruct Eid as (d & -> & Eid).
    apply getitem_Ok_dict in Elogin. destruct Elogin as (d' & Hd & Elogin).
    injection Hd as <-.
    rewrite !get_JObj in H. cbn [bind] in H. injection H as <-.
    exists d, id_, id_str, login. repeat split; assumption.
  - split.
    + intros (a & H). unfold extract_actor in H.
      apply bind_Ok in H. destruct H as (id_ & Eid & H).
      apply bind_Ok in H. destruct H as (id_str & Estr & H).
      apply bind_Ok in H. destruct H as (login & Elogin & _).
      unfold user_object, field_ok, str_defined. rewrite Eid, Estr.
      apply getitem_Ok_dict in Eid. destruct Eid as (d & -> & Eid).
      apply getitem_Ok_dict in Elogin. destruct Elogin as (d' & Hd & Elogin).
      injection Hd as <-.
      simpl. rewrite Eid, Elogin. reflexivity.
    + apply extract_actor_total.
  - intros d -> Hid. unfold extract_actor. simpl. rewrite Hid. reflexivity.
  - intros d id_ e -> Hid Hstr. unfold extract_actor. simpl.
    rewrite Hid. cbn [bind]. rewrite Hstr. reflexivity.
  - intros d id_ id_str -> Hid Hstr Hlogin. unfold extract_actor. simpl.
    rewrite Hid. cbn [bind]. rewrite Hstr. cbn [bind]. rewrite Hlogin.
    reflexivity.
  - intros Hnot. destruct u; try reflexivity. exfalso. eapply Hnot.
    reflexivity.
Qed.

Lemma extract_actor_spec_witness :
  (exists a,
      extract_actor (R := Fixture.runtime) Fixture.sender = Ok a
      /\ Actor.id a = JStr "1"
      /\ Actor.username a = JStr "testuser"
      /\ Actor.name a = JNull /\ Actor.email a = JNull
      /\ Actor.avatar_url a = JStr "https://github.com/testuser.png")
  /\ extract_actor (R := Fixture.runtime) (JObj [("id", Sample.long_id)])
     = Raise (ValueError
                "Exceeds the limit (4300 digits) for integer string conversion").
Proof.
  split.
  - destruct (@extract_actor_spec Fixture.runtime Fixture.sender)
      as (Hvalues & Hdomain & _).
    destruct (proj2 Hdomain eq_refl) as (a & Ha).
    exists a. split; [exact Ha|].
    destruct (Hvalues a Ha)
      as (d & id_ & id_str & login & Hd & Hid & Hstr & Hlogin
          & H1 & H2 & H3 & H4 & H5).
    injection Hd as <-. injection Hid as <-. injection Hlogin as <-.
    injection Hstr as <-.
    repeat split; assumption.
  - destruct (@extract_actor_spec Fixture.runtime
                (JObj [("id", Sample.long_id)]))
      as (_ & _ & _ & Hstr & _).
    apply (Hstr _ Sample.long_id _ eq_refl eq_refl).
    vm_compute. reflexivity.
Defined.

(** [extract_repository] succeeds exactly on a dict that has [name],
    [full_name], [html_url], an [id] that [str] converts and an [owner]
    dict with a [login].  Then [owner] is that login, [url] is
    [html_url], [id] is the [str] of the payload's id, and
    [default_branch] is the payload's value, the text main where the key
    is absent.  When [str] refuses the id its exception is raised, before
    any other key is looked up. *)
Theorem extract_repository_spec {R : Runtime} :
  forall repo_data,
    (forall r,
        extract_repository repo_data = Ok r ->
        exists d id_ id_str owner,
          repo_data = JObj d
          /\ lookup "id" d = Some id_ /\ py_str id_ = Ok id_str
          /\ Repository.id r = JStr id_str
          /\ lookup "name" d = Some (Repository.name r)
          /\ lookup "full_name" d = Some (Repository.full_name r)
          /\ lookup "owner" d = Some owner
          /\ getitem owner "login" = Ok (Repository.owner r)
          /\ lookup "html_url" d = Some (Repository.url r)
          /\ Repository.default_branch r
             = kwarg d "default_branch" (JStr "main"))
    /\ ((exists r, extract_repository repo_data = Ok r)
        <-> repository_object repo_data = true)
    /\ (forall d id_ e,
          repo_data = JObj d -> lookup "id" d = Some id_ ->
          py_str id_ = Raise e ->
          extract_repository repo_data = Raise e).
Proof.
  intros u. split; [|split; [split|]].
  - intros r H. unfold extract_repository in H.
    apply bind_Ok in H. destruct H as (id_ & Eid & H).
    apply bind_Ok in H. destruct H as (id_str & Estr & H).
    apply bind_Ok in H. destruct H as (name & Ename & H).
    apply bind_Ok in H. destruct H as (full_name & Efull & H).
    apply bind_Ok in H. destruct H as (owner & Eowner & H).
    apply bind_Ok in H. destruct H as (login & Elogin & H).
    apply bind_Ok in H. destruct H as (url & Eurl & H).
    apply getitem_Ok_dict in Eid. destruct Eid as (d & -> & Eid).
    rewrite get_JObj in H. cbn [bind] in H. injection H as <-.
    simpl in Ename, Efull, Eowner, Eurl.
    destruct (lookup "name" d) as [name' |] eqn:E1; [|discriminate].
    destruct (lookup "full_name" d) as [full_name' |] eqn:E2; [|discriminate].
    destruct (lookup "owner" d) as [owner' |] eqn:E3; [|discriminate].
    destruct (lookup "html_url" d) as [url' |] eqn:E4; [|discriminate].
    injection Ename as <-. injection Efull as <-.
    injection Eowner as <-. injection Eurl as <-.
    exists d, id_, id_str, owner'. repeat split; assumption.
  - intros (r & H). unfold extract_repository in H.
    apply bind_Ok in H. destruct H as (id_ & Eid & H).
    apply bind_Ok in H. destruct H as (id_str & Estr & H).
    apply bind_Ok in H. destruct H as (name & Ename & H).
    apply bind_Ok in H. destruct H as (full_name & Efull & H).
    apply bind_Ok in H. destruct H as (owner & Eowner & H).
    apply bind_Ok in H. destruct H as (login & Elogin & H).
    apply bind_Ok in H. destruct H as (url & Eurl & _).
    unfold repository_object, field_ok, str_defined.
    rewrite Eid, Estr, Eowner.
    apply getitem_Ok_dict in Eid. destruct Eid as (d & -> & Eid).
    apply getitem_Ok_dict in Elogin. destruct Elogin as (od & -> & Elogin).
    simpl in Ename, Efull, Eurl. simpl.
    destruct (lookup "name" d); [|discriminate].
    destruct (lookup "full_name" d); [|discriminate].
    destruct (lookup "html_url" d); [|discriminate].
    rewrite Eid, Elogin. reflexivity.
  - apply extract_repository_total.
  - intros d id_ e -> Hid Hstr. unfold extract_repository. simpl.
    rewrite Hid. cbn [bind]. rewrite Hstr. reflexivity.
Qed.

Lemma extract_repository_spec_witness :
  (exists r,
      extract_repository (R := Fixture.runtime) Fixture.repository_pr = Ok r
      /\ Repository.id r = JStr "123"
      /\ Repository.owner r = JStr "testuser"
      /\ Repository.default_branch r = JStr "main")
  /\ extract_repository (R := Fixture.runtime)
       (JObj [ ("id", Sample.long_id); ("name", JStr "test-repo");
               ("full_name", JStr "testuser/test-repo");
               ("owner", JObj [("login", JStr "testuser")]);
               ("html_url", JStr "https://github.com/testuser/test-repo") ])
     = Raise (ValueError
                "Exceeds the limit (4300 digits) for integer string conversion").
Proof.
  split.
  - destruct (@extract_repository_spec Fixture.runtime Fixture.repository_pr)
      as (Hvalues & Hdomain & _).
    destruct (proj2 Hdomain eq_refl) as (r & Hr).
    exists r. split; [exact Hr|].
    destruct (Hvalues r Hr)
      as (d & id_ & id_str & owner & Hd & Hid & Hstr & Hrid & _ & _
          & Howner & Hlogin & _ & Hbranch).
    injection Hd as <-. injection Hid as <-. injection Howner as <-.
    injection Hstr as <-.
    split; [exact Hrid|]. split; [|exact Hbranch].
    simpl in Hlogin. injection Hlogin as <-. reflexivity.
  - destruct (@extract_repository_spec Fixture.runtime
                (JObj [ ("id", Sample.long_id); ("name", JStr "test-repo");
                        ("full_name", JStr "testuser/test-repo");
                        ("owner", JObj [("login", JStr "testuser")]);
                        ("html_url",
                          JStr "https://github.com/testuser/test-repo") ]))
      as (_ & _ & Hstr).
    apply (Hstr _ Sample.long_id _ eq_refl eq_refl).
    vm_compute. reflexivity.
Defined.

(* ================================================================= *)
(** ** The other mappers *)

(** The type table of [map_issue_event]: opened, closed and reopened have
    their own types; edited, assigned, labeled and every other action,
    also one that is not a [str], give ISSUE_UPDATED. *)
Theorem map_issue_event_type {R : Runtime} :
  forall payload delivery_id now ev,
    map_issue_event payload delivery_id now = Ok ev ->
    exists action,
      getitem payload "action" = Ok action
      /\ (action = JStr "opened" -> StandardEvent.type ev = ISSUE_OPENED)
      /\ (action = JStr "closed" -> StandardEvent.type ev = ISSUE_CLOSED)
      /\ (action = JStr "reopened" -> StandardEvent.type ev = ISSUE_REOPENED)
      /\ (~ In action (map JStr ["opened"; "closed"; "reopened"]) ->
          StandardEvent.type ev = ISSUE_UPDATED).
Proof.
  intros payload did now ev H. unfold map_issue_event in H.
  apply bind_Ok in H. destruct H as (issue & Eissue & H).
  apply bind_Ok in H. destruct H as (action & Eaction & H).
  apply bind_Ok in H. destruct H as (ty & Ety & H).
  bind_inv H. inversion H; subst; simpl.
  exists action. split; [assumption|].
  unfold table_get in Ety.
  repeat split.
  - intros ->. simpl in Ety. congruence.
  - intros ->. simpl in Ety. congruence.
  - intros ->. simpl in Ety. congruence.
  - intros Hnot. destruct action as [| b | z | f | s | l | o];
      simpl in Ety; try congruence.
    revert Ety.
    repeat match goal with
           | |- context [String.eqb s ?k] =>
               destruct (String.eqb_spec s k) as [-> | _];
               [ first [ exfalso; apply Hnot; simpl; tauto
                       | intros Ety; congruence ] | ]
           end.
    congruence.
Qed.

Lemma map_issue_event_type_witness :
  exists ev,
    map_issue_event (R := Fixture.runtime)
      (Sample.issue_event (JStr "transferred")) "d-1" Fixture.now = Ok ev
    /\ StandardEvent.type ev = ISSUE_UPDATED.
Proof.
  eexists. split; [reflexivity|].
  destruct (@map_issue_event_type Fixture.runtime
              (Sample.issue_event (JStr "transferred")) "d-1" Fixture.now
              _ eq_refl) as (action & Haction & _ & _ & _ & Hother).
  injection Haction as <-. apply Hother.
  simpl. intuition discriminate.
Defined.

(** A projection [[x[key] for x in items]] over a list keeps length and
    order: its i-th element is the i-th item's value under [key]. *)
Lemma project_list key items vs :
  project key (JArr items) = Ok vs ->
  exists names,
    vs = JArr names
    /\ List.length names = List.length items
    /\ forall i x, nth_error items i = Some x ->
                   exists n, nth_error names i = Some n
                             /\ getitem x key = Ok n.
Proof.
  unfold project. cbn [iterate bind]. intros H.
  apply bind_Ok in H. destruct H as (names & Hnames & H).
  injection H as <-. exists names. split; [reflexivity|].
  split; [eapply for_each_length; eassumption|].
  intros i x Hi. eapply for_each_nth in Hnames; eassumption.
Qed.

(** [map_issue_event] projects the issue's labels to their names and its
    assignees to their logins, element by element and in order; a missing
    [labels] or [assignees] key gives the empty list. *)
Theorem map_issue_event_labels_assignees {R : Runtime} :
  forall payload delivery_id now ev,
    map_issue_event payload delivery_id now = Ok ev ->
    exists d,
      getitem payload "issue" = Ok (JObj d)
      /\ (forall items,
            lookup "labels" d = Some (JArr items) ->
            exists names,
              EventMetadata.labels (StandardEvent.metadata ev) = JArr names
              /\ List.length names = List.length items
              /\ forall i x, nth_error items i = Some x ->
                             exists n, nth_error names i = Some n
                                       /\ getitem x "name" = Ok n)
      /\ (lookup "labels" d = None ->
          EventMetadata.labels (StandardEvent.metadata ev) = JArr [])
      /\ (forall items,
            lookup "assignees" d = Some (JArr items) ->
            exists logins,
              EventMetadata.assignees (StandardEvent.metadata ev) = JArr logins
              /\ List.length logins = List.length items
              /\ forall i x, nth_error items i = Some x ->
                             exists n, nth_error logins i = Some n
                                       /\ getitem x "login" = Ok n)
      /\ (lookup "assignees" d = None ->
          EventMetadata.assignees (StandardEvent.metadata ev) = JArr []).
Proof.
  intros payload did now ev H. unfold map_issue_event in H.
  apply bind_Ok in H. destruct H as (issue & Eissue & H).
  apply bind_Ok in H. destruct H as (action & Eaction & H).
  apply bind_Ok in H. destruct H as (ty & Ety & H).
  apply bind_Ok in H. destruct H as (sender & Esender & H).
  apply bind_Ok in H. destruct H as (actor & Eactor & H).
  apply bind_Ok in H. destruct H as (repo & Erepo & H).
  apply bind_Ok in H. destruct H as (repository & Erepository & H).
  apply bind_Ok in H. destruct H as (number & Enumber & H).
  apply bind_Ok in H. destruct H as (title & Etitle & H).
  apply bind_Ok in H. destruct H as (state & Estate & H).
  apply bind_Ok in H. destruct H as (url & Eurl & H).
  apply bind_Ok in H. destruct H as (user & Euser & H).
  apply bind_Ok in H. destruct H as (author & Eauthor & H).
  apply bind_Ok in H. destruct H as (ls & Els & H).
  apply bind_Ok in H. destruct H as (labels & Elabels & H).
  apply bind_Ok in H. destruct H as (as_ & Eas & H).
  apply bind_Ok in H. destruct H as (assignees & Eassignees & H).
  injection H as <-. simpl. unfold kwarg. simpl.
  apply getitem_Ok_dict in Enumber. destruct Enumber as (d & -> & _).
  rewrite get_JObj in Els, Eas. injection Els as <-. injection Eas as <-.
  exists d. split; [assumption|].
  split; [|split; [|split]].
  - intros items Hl. rewrite Hl in Elabels.
    apply project_list in Elabels. exact Elabels.
  - intros Hl. rewrite Hl in Elabels. unfold project in Elabels.
    simpl in Elabels. congruence.
  - intros items Hl. rewrite Hl in Eassignees.
    apply project_list in Eassignees. exact Eassignees.
  - intros Hl. rewrite Hl in Eassignees. unfold project in Eassignees.
    simpl in Eassignees. congruence.
Qed.

Lemma map_issue_event_labels_assignees_witness :
  exists ev,
    map_issue_event (R := Fixture.runtime)
      (Sample.issue_event (JStr "opened")) "d-1" Fixture.now = Ok ev
    /\ EventMetadata.labels (StandardEvent.metadata ev)
       = JArr [JStr "bug"; JStr "help wanted"]
    /\ EventMetadata.assignees (StandardEvent.metadata ev)
       = JArr [JStr "alice"; JStr "bob"].
Proof.
  eexists. split; [reflexivity|].
  destruct (@map_issue_event_labels_assignees Fixture.runtime
              (Sample.issue_event (JStr "opened")) "d-1" Fixture.now
              _ eq_refl) as (d & Hd & Hlabels & _ & Hassignees & _).
  injection Hd as <-.
  destruct (Hlabels _ eq_refl) as (names & Hn & _).
  destruct (Hassignees _ eq_refl) as (logins & Hl & _).
  split; reflexivity.
Defined.

(** The labels of a pull request are projected in the same way. *)
Theorem map_pull_request_event_labels {R : Runtime} :
  forall payload delivery_id now ev,
    map_pull_request_event payload delivery_id now = Ok ev ->
    exists d,
      getitem payload "pull_request" = Ok (JObj d)
      /\ (forall items,
            lookup "labels" d = Some (JArr items) ->
            exists names,
              EventMetadata.labels (StandardEvent.metadata ev) = JArr names
              /\ List.length names = List.length items
              /\ forall i x, nth_error items i = Some x ->
                             exists n, nth_error names i = Some n
                                       /\ getitem x "name" = Ok n)
      /\ (lookup "labels" d = None ->
          EventMetadata.labels (StandardEvent.metadata ev) = JArr [])
      /\ EventMetadata.assignees (StandardEvent.metadata ev) = JArr [].
Proof.
  intros payload did now ev H. unfold map_pull_request_event in H.
  apply bind_Ok in H. destruct H as (pr & Epr & H).
  apply bind_Ok in H. destruct H as (action & Eaction & H).
  apply bind_Ok in H. destruct H as (merged & Emerged & H).
  apply bind_Ok in H. destruct H as (ty & Ety & H).
  apply bind_Ok in H. destruct H as (sender & Esender & H).
  apply bind_Ok in H. destruct H as (actor & Eactor & H).
  apply bind_Ok in H. destruct H as (repo & Erepo & H).
  apply bind_Ok in H. destruct H as (repository & Erepository & H).
  apply bind_Ok in H. destruct H as (number & Enumber & H).
  apply bind_Ok in H. destruct H as (title & Etitle & H).
  apply bind_Ok in H. destruct H as (state & Estate & H).
  apply bind_Ok in H. destruct H as (url & Eurl & H).
  apply bind_Ok in H. destruct H as (merged' & Emerged' & H).
  apply bind_Ok in H. destruct H as (draft & Edraft & H).
  apply bind_Ok in H. destruct H as (base & Ebase & H).
  apply bind_Ok in H. destruct H as (base_ref & Ebase_ref & H).
  apply bind_Ok in H. destruct H as (head & Ehead & H).
  apply bind_Ok in H. destruct H as (head_ref & Ehead_ref & H).
  apply bind_Ok in H. destruct H as (user & Euser & H).
  apply bind_Ok in H. destruct H as (author & Eauthor & H).
  apply bind_Ok in H. destruct H as (ls & Els & H).
  apply bind_Ok in H. destruct H as (labels & Elabels & H).
  injection H as <-. simpl. unfold kwarg. simpl.
  apply getitem_Ok_dict in Enumber. destruct Enumber as (d & -> & _).
  rewrite get_JObj in Els. injection Els as <-.
  exists d. split; [assumption|].
  split; [|split].
  - intros items Hl. rewrite Hl in Elabels.
    apply project_list in Elabels. exact Elabels.
  - intros Hl. rewrite Hl in Elabels. unfold project in Elabels.
    simpl in Elabels. congruence.
  - reflexivity.
Qed.

Lemma map_pull_request_event_labels_witness :
  exists ev,
    map_pull_request_event (R := Fixture.runtime) Sample.pull_request_labeled
      "d-1" Fixture.now = Ok ev
    /\ EventMetadata.labels (StandardEvent.metadata ev)
       = JArr [JStr "enhancement"; JStr "needs review"]
    /\ EventMetadata.assignees (StandardEvent.metadata ev) = JArr [].
Proof.
  eexists. split; [reflexivity|].
  destruct (@map_pull_request_event_labels Fixture.runtime
              Sample.pull_request_labeled "d-1" Fixture.now _ eq_refl)
    as (d & Hd & Hlabels & _ & Hassignees).
  injection Hd as <-. split; [|exact Hassignees].
  destruct (Hlabels _ eq_refl) as (names & Hn & Hlen & Hnth).
  rewrite Hn.
  destruct (Hnth 0%nat _ eq_refl) as (n0 & Hn0 & Hg0).
  destruct (Hnth 1%nat _ eq_refl) as (n1 & Hn1 & Hg1).
  simpl in Hg0, Hg1. injection Hg0 as <-. injection Hg1 as <-.
  destruct names as [| a [| b [| c rest]]]; simpl in Hlen;
    try discriminate Hlen.
  simpl in Hn0, Hn1. injection Hn0 as ->. injection Hn1 as ->.
  reflexivity.
Defined.

(* ================================================================= *)
(** ** What the six mappers share *)

Section SharedFields.
Context {R : Runtime}.

Lemma extract_actor_id_str u a :
  extract_actor u = Ok a -> exists s, Actor.id a = JStr s.
Proof.
  unfold extract_actor. intros H. bind_inv H. injection H as <-.
  eexists. reflexivity.
Qed.

Lemma extract_repository_id_str u r :
  extract_repository u = Ok r -> exists s, Repository.id r = JStr s.
Proof.
  unfold extract_repository. intros H. bind_inv H. injection H as <-.
  eexists. reflexivity.
Qed.

Lemma push_shared payload delivery_id now ev :
  map_push_event payload delivery_id now = Ok ev ->
  StandardEvent.timestamp ev = now
  /\ exists who repo,
       getitem payload "pusher" = Ok who
       /\ extract_actor who = Ok (StandardEvent.actor ev)
       /\ getitem payload "repository" = Ok repo
       /\ extract_repository repo = Ok (StandardEvent.repository ev).
Proof.
  unfold map_push_event. intros H.
  apply bind_Ok in H. destruct H as (cs & Ecs & H).
  apply bind_Ok in H. destruct H as (items & Eitems & H).
  apply bind_Ok in H. destruct H as (changes & Echanges & H).
  apply bind_Ok in H. destruct H as (who & Ewho & H).
  apply bind_Ok in H. destruct H as (actor & Eactor & H).
  apply bind_Ok in H. destruct H as (repo & Erepo & H).
  apply bind_Ok in H. destruct H as (repository & Erepository & H).
  bind_inv H. inversion H; subst; simpl.
  split; [reflexivity|]. exists who, repo. repeat split; assumption.
Qed.

Lemma pull_request_shared payload delivery_id now ev :
  map_pull_request_event payload delivery_id now = Ok ev ->
  StandardEvent.timestamp ev = now /\ StandardEvent.changes ev = []
  /\ exists who repo,
       getitem payload "sender" = Ok who
       /\ extract_actor who = Ok (StandardEvent.actor ev)
       /\ getitem payload "repository" = Ok repo
       /\ extract_repository repo = Ok (StandardEvent.repository ev).
Proof.
  unfold map_pull_request_event. intros H.
  apply bind_Ok in H. destruct H as (pr & Epr & H).
  apply bind_Ok in H. destruct H as (action & Eaction & H).
  apply bind_Ok in H. destruct H as (merged & Emerged & H).
  apply bind_Ok in H. destruct H as (ty & Ety & H).
  apply bind_Ok in H. destruct H as (who & Ewho & H).
  apply bind_Ok in H. destruct H as (actor & Eactor & H).
  apply bind_Ok in H. destruct H as (repo & Erepo & H).
  apply bind_Ok in H. destruct H as (repository & Erepository & H).
  bind_inv H. inversion H; subst; simpl.
  split; [reflexivity|]. split; [reflexivity|].
  exists who, repo. repeat split; assumption.
Qed.

Lemma issue_shared payload delivery_id now ev :
  map_issue_event payload delivery_id now = Ok ev ->
  StandardEvent.timestamp ev = now /\ StandardEvent.changes ev = []
  /\ exists who repo,
       getitem payload "sender" = Ok who
       /\ extract_actor who = Ok (StandardEvent.actor ev)
       /\ getitem payload "repository" = Ok repo
       /\ extract_repository repo = Ok (StandardEvent.repository ev).
Proof.
  unfold map_issue_event. intros H.
  apply bind_Ok in H. destruct H as (issue & Eissue & H).
  apply bind_Ok in H. destruct H as (action & Eaction & H).
  apply bind_Ok in H. destruct H as (ty & Ety & H).
  apply bind_Ok in H. destruct H as (who & Ewho & H).
  apply bind_Ok in H. destruct H as (actor & Eactor & H).
  apply bind_Ok in H. destruct H as (repo & Erepo & H).
  apply bind_Ok in H. destruct H as (repository & Erepository & H).
  bind_inv H. inversion H; subst; simpl.
  split; [reflexivity|]. split; [reflexivity|].
  exists who, repo. repeat split; assumption.
Qed.

Lemma issue_comment_shared payload delivery_id now ev :
  map_issue_comment_event payload delivery_id now = Ok ev ->
  StandardEvent.timestamp ev = now /\ StandardEvent.changes ev = []
  /\ exists who repo,
       getitem payload "sender" = Ok who
       /\ extract_actor who = Ok (StandardEvent.actor ev)
       /\ getitem payload "repository" = Ok repo
       /\ extract_repository repo = Ok (StandardEvent.repository ev).
Proof.
  unfold map_issue_comment_event. intros H.
  apply bind_Ok in H. destruct H as (comment & Ecomment & H).
  apply bind_Ok in H. destruct H as (issue & Eissue & H).
  apply bind_Ok in H. destruct H as (is_pr & Eis_pr & H).
  apply bind_Ok in H. destruct H as (who & Ewho & H).
  apply bind_Ok in H. destruct H as (actor & Eactor & H).
  apply bind_Ok in H. destruct H as (repo & Erepo & H).
  apply bind_Ok in H. destruct H as (repository & Erepository & H).
  bind_inv H. inversion H; subst; simpl.
  split; [reflexivity|]. split; [reflexivity|].
  exists who, repo. repeat split; assumption.
Qed.

Lemma pull_request_review_shared payload delivery_id now ev :
  map_pull_request_review_event payload delivery_id now = Ok ev ->
  StandardEvent.timestamp ev = now /\ StandardEvent.changes ev = []
  /\ exists who repo,
       getitem payload "sender" = Ok who
       /\ extract_actor who = Ok (StandardEvent.actor ev)
       /\ getitem payload "repository" = Ok repo
       /\ extract_repository repo = Ok (StandardEvent.repository ev).
Proof.
  unfold map_pull_request_review_event. intros H.
  apply bind_Ok in H. destruct H as (review & Ereview & H).
  apply bind_Ok in H. destruct H as (pr & Epr & H).
  apply bind_Ok in H. destruct H as (who & Ewho & H).
  apply bind_Ok in H. destruct H as (actor & Eactor & H).
  apply bind_Ok in H. destruct H as (repo & Erepo & H).
  apply bind_Ok in H. destruct H as (repository & Erepository & H).
  bind_inv H. inversion H; subst; simpl.
  split; [reflexivity|]. split; [reflexivity|].
  exists who, repo. repeat split; assumption.
Qed.

Lemma release_shared payload delivery_id now ev :
  map_release_event payload delivery_id now = Ok ev ->
  StandardEvent.timestamp ev = now /\ StandardEvent.changes ev = []
  /\ exists who repo,
       getitem payload "sender" = Ok who
       /\ extract_actor who = Ok (StandardEvent.actor ev)
       /\ getitem payload "repository" = Ok repo
       /\ extract_repository repo = Ok (StandardEvent.repository ev).
Proof.
  unfold map_release_event. intros H.
  apply bind_Ok in H. destruct H as (release & Erelease & H).
  apply bind_Ok in H. destruct H as (who & Ewho & H).
  apply bind_Ok in H. destruct H as (actor & Eactor & H).
  apply bind_Ok in H. destruct H as (repo & Erepo & H).
  apply bind_Ok in H. destruct H as (repository & Erepository & H).
  bind_inv H. inversion H; subst; simpl.
  split; [reflexivity|]. split; [reflexivity|].
  exists who, repo. repeat split; assumption.
Qed.

End SharedFields.

(** Every registered mapper hands the payload on unchanged as
    [raw_payload] and stamps the event with the clock reading of the
    mapping, whatever times the payload holds; only the push mapper fills
    [changes], the other five leave it empty. *)
Theorem registered_mapper_payload_clock_changes {R : Runtime} :
  forall secret_text category m payload delivery_id now ev,
    lookup category (event_mappers (new_handler secret_text)) = Some m ->
    m payload delivery_id now = Ok ev ->
    StandardEvent.raw_payload ev = payload
    /\ StandardEvent.timestamp ev = now
    /\ (category <> "push" -> StandardEvent.changes ev = []).
Proof.
  intros s category m payload did now ev Hreg Hrun.
  apply event_mappers_registered in Hreg.
  destruct Hreg
    as [[-> ->] | [[-> ->] | [[-> ->] | [[-> ->] | [[-> ->] | [-> ->]]]]]].
  - pose proof (map_push_event_id_source _ _ _ _ Hrun) as H1.
    pose proof (push_shared _ _ _ _ Hrun) as H2.
    split; [tauto|]. split; [tauto|]. intros Hne. congruence.
  - pose proof (map_pull_request_event_id_source _ _ _ _ Hrun) as H1.
    pose proof (pull_request_shared _ _ _ _ Hrun) as H2. tauto.
  - pose proof (map_issue_event_id_source _ _ _ _ Hrun) as H1.
    pose proof (issue_shared _ _ _ _ Hrun) as H2. tauto.
  - pose proof (map_issue_comment_event_id_source _ _ _ _ Hrun) as H1.
    pose proof (issue_comment_shared _ _ _ _ Hrun) as H2. tauto.
  - pose proof (map_pull_request_review_event_id_source _ _ _ _ Hrun) as H1.
    pose proof (pull_request_review_shared _ _ _ _ Hrun) as H2. tauto.
  - pose proof (map_release_event_id_source _ _ _ _ Hrun) as H1.
    pose proof (release_shared _ _ _ _ Hrun) as H2. tauto.
Qed.

Lemma registered_mapper_payload_clock_changes_witness :
  exists ev,
    map_release_event (R := Fixture.runtime)
      (Sample.release_event (JStr "published")) "d-1" Fixture.now = Ok ev
    /\ StandardEvent.raw_payload ev = Sample.release_event (JStr "published")
    /\ StandardEvent.timestamp ev = Fixture.now
    /\ StandardEvent.changes ev = [].
Proof.
  eexists. split; [reflexivity|].
  destruct (@registered_mapper_payload_clock_changes Fixture.runtime
              Fixture.secret_text "release"
              (map_release_event (R := Fixture.runtime))
              (Sample.release_event (JStr "published")) "d-1" Fixture.now
              _ eq_refl eq_refl) as (Hraw & Hclock & Hchanges).
  split; [exact Hraw|]. split; [exact Hclock|].
  apply Hchanges. discriminate.
Defined.

(** The actor of a push event is extracted from the payload's [pusher],
    that of every other event from its [sender]; the repository always
    from [repository]; and the [id] of both is a [str], whatever the type
    of the id in the payload. *)
Theorem registered_mapper_actor_repository {R : Runtime} :
  forall secret_text category m payload delivery_id now ev,
    lookup category (event_mappers (new_handler secret_text)) = Some m ->
    m payload delivery_id now = Ok ev ->
    exists who repo,
      getitem payload (actor_key category) = Ok who
      /\ extract_actor who = Ok (StandardEvent.actor ev)
      /\ getitem payload "repository" = Ok repo
      /\ extract_repository repo = Ok (StandardEvent.repository ev)
      /\ (exists s, Actor.id (StandardEvent.actor ev) = JStr s)
      /\ (exists s, Repository.id (StandardEvent.repository ev) = JStr s).
Proof.
  intros s category m payload did now ev Hreg Hrun.
  assert (H : exists who repo,
             getitem payload (actor_key category) = Ok who
             /\ extract_actor who = Ok (StandardEvent.actor ev)
             /\ getitem payload "repository" = Ok repo
             /\ extract_repository repo = Ok (StandardEvent.repository ev)).
  { apply event_mappers_registered in Hreg.
    destruct Hreg
      as [[-> ->] | [[-> ->] | [[-> ->] | [[-> ->] | [[-> ->] | [-> ->]]]]]].
    - apply push_shared in Hrun. tauto.
    - apply pull_request_shared in Hrun. tauto.
    - apply issue_shared in Hrun. tauto.
    - apply issue_comment_shared in Hrun. tauto.
    - apply pull_request_review_shared in Hrun. tauto.
    - apply release_shared in Hrun. tauto. }
  destruct H as (who & repo & Hwho & Hactor & Hrepo & Hrepository).
  exists who, repo. repeat split; try assumption.
  - eapply extract_actor_id_str. eassumption.
  - eapply extract_repository_id_str. eassumption.
Qed.

Lemma registered_mapper_actor_repository_witness :
  exists ev,
    map_push_event (R := Fixture.runtime) Fixture.push "d-1" Fixture.now
    = Ok ev
    /\ extract_actor (R := Fixture.runtime) Fixture.pusher
       = Ok (StandardEvent.actor ev)
    /\ Actor.id (StandardEvent.actor ev) = JStr "1".
Proof.
  eexists. split; [reflexivity|].
  destruct (@registered_mapper_actor_repository Fixture.runtime
              Fixture.secret_text "push"
              (map_push_event (R := Fixture.runtime))
              Fixture.push "d-1" Fixture.now _ eq_refl eq_refl)
    as (who & repo & Hwho & Hactor & _).
  injection Hwho as <-. split; [exact Hactor | reflexivity].
Defined.

(** A payload that is not a JSON object (a list, a string, a number,
    [None]) is mapped by no registered mapper: the push mapper raises
    [AttributeError], since it starts with [payload.get], and the other
    five raise [TypeError], since they start with a subscript. *)
Theorem non_object_payload_raises {R : Runtime} :
  forall secret_text category m payload delivery_id now,
    lookup category (event_mappers (new_handler secret_text)) = Some m ->
    (forall d, payload <> JObj d) ->
    m payload delivery_id now
    = Raise (if String.eqb category "push" then AttributeError
             else TypeError).
Proof.
  intros s category m payload did now Hreg Hnot.
  apply event_mappers_registered in Hreg.
  assert (Hget : forall k dflt, get payload k dflt = Raise AttributeError).
  { intros k dflt. destruct payload; try reflexivity.
    exfalso. eapply Hnot. reflexivity. }
  assert (Hitem : forall k, getitem payload k = Raise TypeError).
  { intros k. destruct payload; try reflexivity.
    exfalso. eapply Hnot. reflexivity. }
  destruct Hreg
    as [[-> ->] | [[-> ->] | [[-> ->] | [[-> ->] | [[-> ->] | [-> ->]]]]]];
    cbn [String.eqb Ascii.eqb Bool.eqb].
  - unfold map_push_event. rewrite Hget. reflexivity.
  - unfold map_pull_request_event. rewrite Hitem. reflexivity.
  - unfold map_issue_event. rewrite Hitem. reflexivity.
  - unfold map_issue_comment_event. rewrite Hitem. reflexivity.
  - unfold map_pull_request_review_event. rewrite Hitem. reflexivity.
  - unfold map_release_event. rewrite Hitem. reflexivity.
Qed.

Lemma non_object_payload_raises_witness :
  map_push_event (R := Fixture.runtime) (JArr [Fixture.push]) "d-1"
    Fixture.now = Raise AttributeError
  /\ map_release_event (R := Fixture.runtime) JNull "d-1" Fixture.now
     = Raise TypeError.
Proof.
  split.
  - apply (@non_object_payload_raises Fixture.runtime Fixture.secret_text
             "push" (map_push_event (R := Fixture.runtime))
             (JArr [Fixture.push]) "d-1" Fixture.now eq_refl).
    intros d. discriminate.
  - apply (@non_object_payload_raises Fixture.runtime Fixture.secret_text
             "release" (map_release_event (R := Fixture.runtime))
             JNull "d-1" Fixture.now eq_refl).
    intros d. discriminate.
Defined.

(* ================================================================= *)
(** ** Which payloads the release, review and comment mappers accept *)

Lemma getitem_has_keys (ks : list string) (o : json) :
  (exists d, o = JObj d) ->
  (forall k, In k ks -> exists v, getitem o k = Ok v) ->
  has_keys ks o = true.
Proof.
  intros (d & ->) H. simpl. apply forallb_forall. intros k Hk.
  destruct (H k Hk) as (v & Hv). simpl in Hv.
  destruct (lookup k d); [reflexivity | discriminate].
Qed.

Lemma getitem_field_ok (o : json) (k : string) (p : json -> bool) (v : json) :
  getitem o k = Ok v -> p v = true -> field_ok o k p = true.
Proof. unfold field_ok. intros -> H. exact H. Qed.

(** Builds a [has_keys] fact from the subscripts of a run. *)
Ltac keys_from_run :=
  apply getitem_has_keys;
  [ match goal with
    | E : getitem ?o _ = Ok _ |- exists d, ?o = JObj d =>
        apply getitem_Ok_dict in E; destruct E as (? & -> & _);
        eexists; reflexivity
    end
  | let k := fresh "k" in
    let Hk := fresh "Hk" in
    intros k Hk; simpl in Hk;
    repeat (destruct Hk as [<- | Hk]; [eexists; eassumption|]);
    destruct Hk ].

Section AcceptedPayloads.
Context {R : Runtime}.

Lemma extract_actor_user_object u a :
  extract_actor u = Ok a -> user_object u = true.
Proof.
  unfold extract_actor, user_object. intros H.
  apply bind_Ok in H. destruct H as (id_ & Eid & H).
  apply bind_Ok in H. destruct H as (id_str & Estr & H).
  apply bind_Ok in H. destruct H as (login & Elogin & _).
  apply andb_true_iff. split.
  - keys_from_run.
  - eapply getitem_field_ok; [eassumption|].
    unfold str_defined. rewrite Estr. reflexivity.
Qed.

Lemma extract_repository_repository_object u r :
  extract_repository u = Ok r -> repository_object u = true.
Proof.
  unfold extract_repository, repository_object. intros H.
  apply bind_Ok in H. destruct H as (id_ & Eid & H).
  apply bind_Ok in H. destruct H as (id_str & Estr & H).
  apply bind_Ok in H. destruct H as (name & Ename & H).
  apply bind_Ok in H. destruct H as (full_name & Efull & H).
  apply bind_Ok in H. destruct H as (owner & Eowner & H).
  apply bind_Ok in H. destruct H as (login & Elogin & H).
  apply bind_Ok in H. destruct H as (url & Eurl & _).
  apply andb_true_iff. split; [apply andb_true_iff; split|].
  - keys_from_run.
  - eapply getitem_field_ok; [eassumption|].
    unfold str_defined. rewrite Estr. reflexivity.
  - eapply getitem_field_ok; [eassumption|]. keys_from_run.
Qed.

Lemma map_release_event_accepts payload delivery_id now ev :
  map_release_event payload delivery_id now = Ok ev ->
  release_payload payload = true.
Proof.
  unfold map_release_event, release_payload. intros H.
  apply bind_Ok in H. destruct H as (release & Erelease & H).
  apply bind_Ok in H. destruct H as (sender & Esender & H).
  apply bind_Ok in H. destruct H as (actor & Eactor & H).
  apply bind_Ok in H. destruct H as (repo & Erepo & H).
  apply bind_Ok in H. destruct H as (repository & Erepository & H).
  apply bind_Ok in H. destruct H as (v1 & E1 & H).
  apply bind_Ok in H. destruct H as (v2 & E2 & H).
  apply bind_Ok in H. destruct H as (v3 & E3 & H).
  apply bind_Ok in H. destruct H as (v4 & E4 & H).
  apply bind_Ok in H. destruct H as (v5 & E5 & H).
  apply bind_Ok in H. destruct H as (v6 & E6 & H).
  apply bind_Ok in H. destruct H as (action & Eaction & _).
  repeat (apply andb_true_iff; split).
  - eapply getitem_field_ok; [eassumption|]. keys_from_run.
  - eapply getitem_field_ok; [eassumption|].
    eapply extract_actor_user_object; eassumption.
  - eapply getitem_field_ok; [eassumption|].
    eapply extract_repository_repository_object; eassumption.
  - keys_from_run.
Qed.

Lemma map_pull_request_review_event_accepts payload delivery_id now ev :
  map_pull_request_review_event payload delivery_id now = Ok ev ->
  review_payload payload = true.
Proof.
  unfold map_pull_request_review_event, review_payload. intros H.
  apply bind_Ok in H. destruct H as (review & Ereview & H).
  apply bind_Ok in H. destruct H as (pr & Epr & H).
  apply bind_Ok in H. destruct H as (sender & Esender & H).
  apply bind_Ok in H. destruct H as (actor & Eactor & H).
  apply bind_Ok in H. destruct H as (repo & Erepo & H).
  apply bind_Ok in H. destruct H as (repository & Erepository & H).
  apply bind_Ok in H. destruct H as (v1 & E1 & H).
  apply bind_Ok in H. destruct H as (v2 & E2 & H).
  apply bind_Ok in H. destruct H as (v3 & E3 & H).
  apply bind_Ok in H. destruct H as (v4 & E4 & H).
  apply bind_Ok in H. destruct H as (v5 & E5 & H).
  apply bind_Ok in H. destruct H as (v6 & E6 & H).
  apply bind_Ok in H. destruct H as (action & Eaction & _).
  repeat (apply andb_true_iff; split).
  - eapply getitem_field_ok; [eassumption|]. keys_from_run.
  - eapply getitem_field_ok; [eassumption|]. keys_from_run.
  - eapply getitem_field_ok; [eassumption|].
    eapply extract_actor_user_object; eassumption.
  - eapply getitem_field_ok; [eassumption|].
    eapply extract_repository_repository_object; eassumption.
  - keys_from_run.
Qed.

Lemma map_issue_comment_event_accepts payload delivery_id now ev :
  map_issue_comment_event payload delivery_id now = Ok ev ->
  issue_comment_payload payload = true.
Proof.
  unfold map_issue_comment_event, issue_comment_payload. intros H.
  apply bind_Ok in H. destruct H as (comment & Ecomment & H).
  apply bind_Ok in H. destruct H as (issue & Eissue & H).
  apply bind_Ok in H. destruct H as (is_pr & Eis_pr & H).
  apply bind_Ok in H. destruct H as (sender & Esender & H).
  apply bind_Ok in H. destruct H as (actor & Eactor & H).
  apply bind_Ok in H. destruct H as (repo & Erepo & H).
  apply bind_Ok in H. destruct H as (repository & Erepository & H).
  apply bind_Ok in H. destruct H as (v1 & E1 & H).
  apply bind_Ok in H. destruct H as (v2 & E2 & H).
  apply bind_Ok in H. destruct H as (v3 & E3 & H).
  apply bind_Ok in H. destruct H as (v4 & E4 & H).
  apply bind_Ok in H. destruct H as (v5 & E5 & H).
  apply bind_Ok in H. destruct H as (action & Eaction & _).
  repeat (apply andb_true_iff; split).
  - keys_from_run.
  - eapply getitem_field_ok; [eassumption|]. keys_from_run.
  - eapply getitem_field_ok; [eassumption|]. keys_from_run.
  - eapply getitem_field_ok; [eassumption|].
    eapply extract_actor_user_object; eassumption.
  - eapply getitem_field_ok; [eassumption|].
    eapply extract_repository_repository_object; eassumption.
Qed.

End AcceptedPayloads.

(** [map_release_event] maps a payload exactly when it has an [action], a
    [release] dict with [id], [name], [tag_name], [html_url], [draft] and
    [prerelease] (the last two are required, unlike the [draft] of a pull
    request), a sender and a repository, each with an [id] that [str]
    converts; and the event's type is RELEASE_PUBLISHED whatever the
    action is. *)
Theorem map_release_event_accepted {R : Runtime} :
  forall payload delivery_id now,
    ((exists ev, map_release_event payload delivery_id now = Ok ev)
     <-> release_payload payload = true)
    /\ (forall ev, map_release_event payload delivery_id now = Ok ev ->
                   StandardEvent.type ev = RELEASE_PUBLISHED).
Proof.
  intros payload did now. split.
  - split.
    + intros (ev & H). eapply map_release_event_accepts. eassumption.
    + apply map_release_event_total.
  - intros ev H. apply map_release_event_id_source in H. tauto.
Qed.

Lemma map_release_event_accepted_witness :
  (exists ev,
      map_release_event (R := Fixture.runtime)
        (Sample.release_event (JStr "deleted")) "d-1" Fixture.now = Ok ev
      /\ StandardEvent.type ev = RELEASE_PUBLISHED)
  /\ release_payload (R := Fixture.runtime)
       (Sample.release_event (JStr "deleted")) = true
  /\ release_payload (R := Fixture.runtime) Sample.release_long_id = false.
Proof.
  destruct (@map_release_event_accepted Fixture.runtime
              (Sample.release_event (JStr "deleted")) "d-1" Fixture.now)
    as (Hdomain & Htype).
  destruct (proj2 Hdomain eq_refl) as (ev & Hev).
  split; [|split].
  - exists ev. split; [exact Hev | exact (Htype ev Hev)].
  - apply Hdomain. exists ev. exact Hev.
  - assert (Hrun : map_release_event (R := Fixture.runtime)
                     Sample.release_long_id "d-1" Fixture.now
                   = Raise (ValueError
                              "Exceeds the limit (4300 digits) for integer string conversion"))
      by (vm_compute; reflexivity).
    apply not_true_is_false. intros E.
    apply (proj2 (proj1 (@map_release_event_accepted Fixture.runtime
                           Sample.release_long_id "d-1" Fixture.now))) in E.
    destruct E as (ev' & Hev'). rewrite Hrun in Hev'. discriminate Hev'.
Defined.

(** [map_pull_request_review_event] maps a payload exactly when it has an
    [action], a [review] dict with [id], [state] and [html_url] (its [body]
    may be absent), a [pull_request] dict with [number] and [title], a
    sender and a repository, each with an [id] that [str] converts; the
    type is always PR_REVIEWED. *)
Theorem map_pull_request_review_event_accepted {R : Runtime} :
  forall payload delivery_id now,
    ((exists ev, map_pull_request_review_event payload delivery_id now = Ok ev)
     <-> review_payload payload = true)
    /\ (forall ev,
          map_pull_request_review_event payload delivery_id now = Ok ev ->
          StandardEvent.type ev = PR_REVIEWED).
Proof.
  intros payload did now. split.
  - split.
    + intros (ev & H). eapply map_pull_request_review_event_accepts.
      eassumption.
    + apply map_pull_request_review_event_total.
  - intros ev H. apply map_pull_request_review_event_id_source in H. tauto.
Qed.

Lemma map_pull_request_review_event_accepted_witness :
  exists ev,
    map_pull_request_review_event (R := Fixture.runtime) Fixture.review
      "d-1" Fixture.now = Ok ev
    /\ StandardEvent.type ev = PR_REVIEWED.
Proof.
  destruct (@map_pull_request_review_event_accepted Fixture.runtime
              Fixture.review "d-1" Fixture.now) as (Hdomain & Htype).
  destruct (proj2 Hdomain eq_refl) as (ev & Hev).
  exists ev. split; [exact Hev | exact (Htype ev Hev)].
Defined.

(** [map_issue_comment_event] maps a payload exactly when it has an
    [action], a [comment] dict with [id], [body] and [html_url], an [issue]
    dict with [number] and [title], a sender and a repository, each with
    an [id] that [str] converts. *)
Theorem map_issue_comment_event_accepted {R : Runtime} :
  forall payload delivery_id now,
    (exists ev, map_issue_comment_event payload delivery_id now = Ok ev)
    <-> issue_comment_payload payload = true.
Proof.
  intros payload did now. split.
  - intros (ev & H). eapply map_issue_comment_event_accepts. eassumption.
  - apply map_issue_comment_event_total.
Qed.

Lemma map_issue_comment_event_accepted_witness :
  (exists ev,
      map_issue_comment_event (R := Fixture.runtime)
        (Fixture.issue_comment false) "d-1" Fixture.now = Ok ev)
  /\ map_issue_comment_event (R := Fixture.runtime)
       (JObj [ ("action", JStr "created"); ("sender", Fixture.sender);
               ("repository", Fixture.repository_pr);
               ("issue", Fixture.issue false) ]) "d-1" Fixture.now
     = Raise (KeyError "comment").
Proof.
  split.
  - apply (proj2 (@map_issue_comment_event_accepted Fixture.runtime
                    (Fixture.issue_comment false) "d-1" Fixture.now)).
    reflexivity.
  - reflexivity.
Defined.

(* ================================================================= *)
(** ** Dispatch and request handling *)




Lemma handle_request_verified {R : Runtime} self headers body now r :
  handle_request self headers body now = Ok r ->
  signature_header headers
  = ("sha256=" ++ Hmac.hexdigest (secret self) body)%string
  /\ exists payload event_type delivery_id,
       json_loads body = Ok payload
       /\ lookup "X-GitHub-Event" headers = Some event_type
       /\ event_type <> ""
       /\ lookup "X-GitHub-Delivery" headers = Some delivery_id
       /\ delivery_id <> ""
       /\ process_webhook self event_type payload delivery_id now = Ok r.
Proof.
  unfold handle_request.
  fold (signature_header headers). intros H.
  apply bind_Ok in H. destruct H as (valid & Hvalid & H).
  destruct valid; [|discriminate]. cbn [negb] in H.
  apply verify_signature_true_iff in Hvalid. split; [exact Hvalid|].
  apply bind_Ok in H. destruct H as (payload & Hpayload & H).
  destruct (lookup "X-GitHub-Event" headers) as [event_type |];
    [|discriminate].
  destruct (lookup "X-GitHub-Delivery" headers) as [delivery_id |];
    [| simpl in H; destruct (String.eqb event_type ""); discriminate].
  simpl in H.
  destruct (String.eqb_spec event_type "") as [Heq | Hevent];
    [simpl in H; discriminate|].
  destruct (String.eqb_spec delivery_id "") as [Heq | Hdelivery];
    [simpl in H; discriminate|].
  simpl in H.
  exists payload, event_type, delivery_id. repeat split; assumption.
Qed.

(** Whatever [handle_request] returns, an event or [None], it returns
    only for a request whose signature header is the tag followed by the
    HMAC-SHA256 digest of the body under the secret, whose body
    [json.loads] decoded, and whose event and delivery headers are
    present and not empty; the result is then that of [process_webhook]
    on those values. *)
Theorem handle_request_returns_only_verified {R : Runtime} :
  forall self headers body now r,
    handle_request self headers body now = Ok r ->
    signature_header headers
    = ("sha256=" ++ Hmac.hexdigest (secret self) body)%string
    /\ exists payload event_type delivery_id,
         json_loads body = Ok payload
         /\ lookup "X-GitHub-Event" headers = Some event_type
         /\ event_type <> ""
         /\ lookup "X-GitHub-Delivery" headers = Some delivery_id
         /\ delivery_id <> ""
         /\ process_webhook self event_type payload delivery_id now = Ok r.
Proof.
  intros self headers body now r H.
  destruct (handle_request_verified self headers body now r H)
    as (Hsignature & payload & event_type & delivery_id & Hrest).
  split; [exact Hsignature|].
  exists payload, event_type, delivery_id. exact Hrest.
Qed.

Lemma handle_request_returns_only_verified_witness :
  exists ev,
    handle_request (R := Sample.runtime) Sample.handler
      (Sample.headers "push" Sample.push_signature) Sample.push_body
      Fixture.now = Ok (Some ev)
    /\ signature_header (Sample.headers "push" Sample.push_signature)
       = ("sha256=" ++ Hmac.hexdigest (secret Sample.handler)
                         Sample.push_body)%string.
Proof.
  eexists. split.
  - vm_compute. reflexivity.
  - eapply (@handle_request_returns_only_verified Sample.runtime
              Sample.handler (Sample.headers "push" Sample.push_signature)
              Sample.push_body Fixture.now).
    vm_compute. reflexivity.
Defined.

Lemma registered_mapper_fields {R : Runtime}
    secret_text category m payload delivery_id now ev :
  lookup category (event_mappers (new_handler secret_text)) = Some m ->
  m payload delivery_id now = Ok ev ->
  StandardEvent.id ev = delivery_id /\ StandardEvent.source ev = "github"
  /\ StandardEvent.raw_payload ev = payload.
Proof.
  intros Hreg Hrun. apply event_mappers_registered in Hreg.
  destruct Hreg as [[_ ->] | [[_ ->] | [[_ ->] | [[_ ->] | [[_ ->] | [_ ->]]]]]].
  - apply map_push_event_id_source in Hrun. tauto.
  - apply map_pull_request_event_id_source in Hrun. tauto.
  - apply map_issue_event_id_source in Hrun. tauto.
  - apply map_issue_comment_event_id_source in Hrun. tauto.
  - apply map_pull_request_review_event_id_source in Hrun. tauto.
  - apply map_release_event_id_source in Hrun. tauto.
Qed.

Lemma handle_request_event_fields {R : Runtime}
    secret_text headers body now ev :
  handle_request (new_handler secret_text) headers body now = Ok (Some ev) ->
  lookup "X-GitHub-Delivery" headers = Some (StandardEvent.id ev)
  /\ StandardEvent.source ev = "github"
  /\ json_loads body = Ok (StandardEvent.raw_payload ev)
  /\ exists category m,
       lookup "X-GitHub-Event" headers = Some category
       /\ lookup category (event_mappers (new_handler secret_text)) = Some m
       /\ m (StandardEvent.raw_payload ev) (StandardEvent.id ev) now = Ok ev.
Proof.
  intros H.
  apply handle_request_verified in H.
  destruct H as (_ & payload & category & did & Hp & Hc & _ & Hd & _ & H).
  unfold process_webhook in H.
  destruct (lookup category (event_mappers (new_handler secret_text)))
    as [m |] eqn:Hm; [|discriminate].
  apply bind_Ok in H. destruct H as (ev' & Hrun & H). injection H as <-.
  destruct (registered_mapper_fields secret_text category m payload did now
              ev' Hm Hrun) as (Hid & Hsource & Hraw).
  subst. repeat split; try assumption.
  exists category, m. repeat split; assumption.
Qed.

(** The event [handle_request] returns carries the delivery header as its
    [id], comes from the mapper registered for the event header, and has
    the decoded body as [raw_payload]. *)
Theorem handle_request_event {R : Runtime} :
  forall secret_text headers body now ev,
    handle_request (new_handler secret_text) headers body now = Ok (Some ev) ->
    lookup "X-GitHub-Delivery" headers = Some (StandardEvent.id ev)
    /\ StandardEvent.source ev = "github"
    /\ json_loads body = Ok (StandardEvent.raw_payload ev)
    /\ exists category m,
         lookup "X-GitHub-Event" headers = Some category
         /\ lookup category (event_mappers (new_handler secret_text)) = Some m
         /\ m (StandardEvent.raw_payload ev) (StandardEvent.id ev) now = Ok ev.
Proof.
  intros s headers body now ev H.
  destruct (handle_request_event_fields s headers body now ev H)
    as (Hid & Hsource & Hraw & category & m & Hmapper).
  split; [exact Hid|]. split; [exact Hsource|]. split; [exact Hraw|].
  exists category, m. exact Hmapper.
Qed.

Lemma handle_request_event_witness :
  exists ev,
    handle_request (R := Sample.runtime) Sample.handler
      (Sample.headers "push" Sample.push_signature) Sample.push_body
      Fixture.now = Ok (Some ev)
    /\ StandardEvent.id ev = "72d3162e-cc78-11e3-81ab-4c9367dc0958"
    /\ StandardEvent.raw_payload ev = Sample.push_payload.
Proof.
  assert (H : exists ev,
             handle_request (R := Sample.runtime) Sample.handler
               (Sample.headers "push" Sample.push_signature)
               Sample.push_body Fixture.now = Ok (Some ev)).
  { eexists. vm_compute. reflexivity. }
  destruct H as (ev & Hev). exists ev. split; [exact Hev|].
  destruct (@handle_request_event Sample.runtime Fixture.secret_text
              (Sample.headers "push" Sample.push_signature)
              Sample.push_body Fixture.now ev Hev)
    as (Hid & _ & Hraw & _).
  split.
  - simpl in Hid. congruence.
  - assert (Hl : json_loads (Runtime := Sample.runtime) Sample.push_body
                 = Ok Sample.push_payload) by (vm_compute; reflexivity).
    congruence.
Defined.

(** [handle_request] reads three headers, by their exact names; two
    header dicts that agree on these three give the same result, whatever
    else they hold. *)
Theorem handle_request_headers_read {R : Runtime} :
  forall self headers headers' body now,
    (forall k, In k request_headers ->
               lookup k headers = lookup k headers') ->
    handle_request self headers body now
    = handle_request self headers' body now.
Proof.
  intros self headers headers' body now H. unfold handle_request.
  rewrite <- (H "X-Hub-Signature-256") by (simpl; tauto).
  rewrite <- (H "X-GitHub-Event") by (simpl; tauto).
  rewrite <- (H "X-GitHub-Delivery") by (simpl; tauto).
  reflexivity.
Qed.

Lemma handle_request_headers_read_witness :
  handle_request (R := Sample.runtime) Sample.handler
    (("User-Agent", "GitHub-Hookshot/044aadd")
       :: ("x-github-event", "push")
       :: Sample.headers "ping" Sample.ping_signature)
    Sample.ping_body Fixture.now
  = Ok None.
Proof.
  rewrite (@handle_request_headers_read Sample.runtime Sample.handler _
             (Sample.headers "ping" Sample.ping_signature)).
  - vm_compute. reflexivity.
  - intros k Hk. simpl in Hk.
    destruct Hk as [<- | [<- | [<- | []]]]; reflexivity.
Defined.

(* ================================================================= *)
(** ** Signature verification: every outcome *)

(** [verify_signature] raises nothing but [TypeError], and raises it
    exactly when the header starts with the tag and holds a character
    outside ASCII after it (where [hmac.compare_digest] refuses to
    compare); on every other header it returns a [bool]. *)
Theorem verify_signature_raises_iff :
  forall self payload signature,
    (forall e, verify_signature self payload signature = Raise e ->
               e = TypeError)
    /\ (verify_signature self payload signature = Raise TypeError
        <-> String.prefix "sha256=" signature = true
            /\ is_ascii (drop 7 signature) = false)
    /\ (is_ascii signature = true ->
        exists b, verify_signature self payload signature = Ok b).
Proof.
  intros self payload signature.
  assert (Hform :
            verify_signature self payload signature
            = if String.eqb signature ""
                 || negb (String.prefix "sha256=" signature)
              then Ok false
              else if is_ascii (drop 7 signature)
                   then Ok (String.eqb (Hmac.hexdigest (secret self) payload)
                                       (drop 7 signature))
                   else Raise TypeError).
  { unfold verify_signature, compare_digest.
    rewrite is_ascii_hexdigest. reflexivity. }
  rewrite Hform. clear Hform.
  destruct (String.eqb_spec signature "") as [-> | Hne].
  - simpl. split; [discriminate|]. split; [split; [discriminate|]|].
    + intros (H & _). discriminate H.
    + intros _. eexists. reflexivity.
  - cbn [orb].
    destruct (String.prefix "sha256=" signature) eqn:Hp; cbn [negb].
    + destruct (is_ascii (drop 7 signature)) eqn:Ha.
      * split; [discriminate|]. split.
        -- split; [discriminate | intros (_ & H); discriminate H].
        -- intros _. eexists. reflexivity.
      * split; [intros e H; congruence|]. split.
        -- split; [intros _; split; reflexivity | reflexivity].
        -- intros Hascii. exfalso.
           apply prefix_drop in Hp. rewrite Hp in Hascii.
           change (String.length "sha256=") with 7%nat in Hascii.
           cbn [append] in Hascii.
           repeat (rewrite is_ascii_String in Hascii;
                   apply andb_true_iff in Hascii;
                   destruct Hascii as (_ & Hascii)).
           congruence.
    + split; [discriminate|]. split.
      * split; [discriminate | intros (H & _); discriminate H].
      * intros _. eexists. reflexivity.
Qed.

Lemma verify_signature_raises_iff_witness :
  verify_signature Fixture.handler Fixture.body
    ("sha256=" ++ String (ascii_of_nat 195) (String (ascii_of_nat 169) ""))
  = Raise TypeError
  /\ exists b,
       verify_signature Fixture.handler Fixture.body "sha256=invalid" = Ok b.
Proof.
  split.
  - apply (proj1 (proj2 (verify_signature_raises_iff Fixture.handler
                           Fixture.body _))).
    split; reflexivity.
  - apply (proj2 (proj2 (verify_signature_raises_iff Fixture.handler
                           Fixture.body "sha256=invalid"))).
    reflexivity.
Defined.

Lemma be_bytes_length (n : nat) (z : Z) :
  List.length (Sha256.be_bytes n z) = n.
Proof. induction n as [| n IH]; simpl; [reflexivity | f_equal; exact IH]. Qed.

Lemma Sha256_digest_length (msg : list byte) :
  List.length (Sha256.digest msg) = 32%nat.
Proof.
  unfold Sha256.digest. cbn [flat_map].
  rewrite !length_app, !be_bytes_length. reflexivity.
Qed.

Lemma hex_length (bs : list byte) :
  String.length (Hmac.hex bs) = (2 * List.length bs)%nat.
Proof.
  induction bs as [| b bs IH]; [reflexivity|].
  cbn [Hmac.hex String.length List.length]. rewrite IH. lia.
Qed.

Lemma hex_lower (bs : list byte) :
  forallb is_lower_hex (list_ascii_of_string (Hmac.hex bs)) = true.
Proof.
  induction bs as [| b bs IH]; [reflexivity|].
  cbn [Hmac.hex list_ascii_of_string forallb]. rewrite IH.
  destruct b; reflexivity.
Qed.

(** A header that [verify_signature] accepts has exactly 71 characters:
    the tag and 64 lower-case hexadecimal digits.  A digest written in
    upper case, a truncated one, or one with trailing space is refused
    whatever the secret is. *)
Theorem verify_signature_accepts_form :
  forall self payload signature,
    verify_signature self payload signature = Ok true ->
    String.length signature = 71%nat
    /\ String.prefix "sha256=" signature = true
    /\ forallb is_lower_hex (list_ascii_of_string (drop 7 signature)) = true.
Proof.
  intros self payload signature H.
  apply verify_signature_true_iff in H. subst signature.
  change 7%nat with (String.length "sha256=").
  rewrite prefix_append, drop_append.
  split; [|split; [reflexivity|]].
  - cbn [append String.length]. unfold Hmac.hexdigest, Hmac.digest.
    rewrite hex_length, Sha256_digest_length. reflexivity.
  - apply hex_lower.
Qed.

Lemma verify_signature_accepts_form_witness :
  String.length Fixture.signature = 71%nat
  /\ verify_signature Fixture.handler Fixture.body
       ("sha256=B4820CEC871EFF53285EDFBF9E7CD0081E8E5CCA759FA3B0453D9023489421A3")
     = Ok false.
Proof.
  split.
  - apply (verify_signature_accepts_form Fixture.handler Fixture.body
             Fixture.signature).
    vm_compute. reflexivity.
  - vm_compute. reflexivity.
Defined.

(* ================================================================= *)
(** ** Publishers: composition and the console *)

Lemma MultiPublisher_publish_raise_witness :
  MultiPublisher_publish
    [ Fixture.sink "first" false; MessageQueuePublisher;
      Fixture.sink "third" true ] Fixture.event []
  = (Raise NotImplementedError, ["first"]).
Proof.
  apply (MultiPublisher_publish_raise [Fixture.sink "first" false]
           [Fixture.sink "third" true] MessageQueuePublisher
           Fixture.event [] NotImplementedError).
  - repeat constructor. eexists. reflexivity.
  - reflexivity.
Defined.

Section Composition.
Context {World : Type}.

Lemma publish_each_app (l1 l2 : list (EventPublisher World)) ev w :
  publish_each (l1 ++ l2) ev w
  = match publish_each l1 ev w with
    | (Raise e, w1) => (Raise e, w1)
    | (Ok r1, w1) =>
        match publish_each l2 ev w1 with
        | (Raise e, w2) => (Raise e, w2)
        | (Ok r2, w2) => (Ok (r1 ++ r2), w2)
        end
    end.
Proof.
  revert w. induction l1 as [| p l1 IH]; intros w; simpl.
  - destruct (publish_each l2 ev w) as [[r2 | e] w2]; reflexivity.
  - destruct (publish p ev w) as [[r | e] w1]; [|reflexivity].
    rewrite IH.
    destruct (publish_each l1 ev w1) as [[r1 | e] w1']; [|reflexivity].
    destruct (publish_each l2 ev w1') as [[r2 | e] w2]; reflexivity.
Qed.

End Composition.

(** A composite publisher used as a sink of another composite behaves as
    if its sinks were written in place: same calls in the same order, same
    exception if a sink raises, same answer.  A composite without sinks
    answers true and does nothing. *)
Theorem MultiPublisher_nested {World : Type} :
  forall (inner rest : list (EventPublisher World)) ev w,
    MultiPublisher_publish (MultiPublisher inner :: rest) ev w
    = MultiPublisher_publish (inner ++ rest) ev w
    /\ MultiPublisher_publish (@nil (EventPublisher World)) ev w
       = (Ok true, w).
Proof.
  intros inner rest ev w. split; [|reflexivity].
  unfold MultiPublisher_publish. rewrite publish_each_app.
  cbn [publish_each publish MultiPublisher]. unfold MultiPublisher_publish.
  destruct (publish_each inner ev w) as [[r1 | e] w1]; [|reflexivity].
  destruct (publish_each rest ev w1) as [[r2 | e] w2]; [|reflexivity].
  cbn [forallb]. rewrite forallb_app. reflexivity.
Qed.

Lemma console_accepts_app {R : Runtime} (l1 l2 : list string) :
  console_accepts (l1 ++ l2) = console_accepts l1 && console_accepts l2.
Proof. unfold console_accepts. apply forallb_app. Qed.

(** On an event without changes the console publisher answers true
    exactly when [str] converts both names, [json.dumps] gives a text and
    the console takes the heading and that text. *)
Lemma ConsolePublisher_publish_true_iff {R : Runtime}
    (ev : StandardEvent.t) (out : list string) :
  StandardEvent.changes ev = [] ->
  (fst (publish ConsolePublisher ev out) = Ok true
   <-> exists username full_name text,
         py_str (Actor.username (StandardEvent.actor ev)) = Ok username
         /\ py_str (Repository.full_name (StandardEvent.repository ev))
            = Ok full_name
         /\ json_dumps (as_json (to_dict ev)) = Ok text
         /\ console_accepts (heading ev username full_name ++ [text]) = true).
Proof.
  intros Hc. split.
  - intros H.
    destruct (ConsolePublisher_publish_shape ev out) as (_ & _ & Htrue).
    destruct (Htrue H) as (username & full_name & text & Hu & Hf & Hd & Hacc).
    exists username, full_name, text.
    rewrite (proj1 (dumps_to_dict ev) Hc) in Hd. repeat split; assumption.
  - intros (username & full_name & text & Hu & Hf & Hd & Hacc).
    rewrite console_accepts_app in Hacc. apply andb_true_iff in Hacc.
    destruct Hacc as (Hhead & Htext).
    apply console_accepts_cons in Htext. destruct Htext as (Htext & _).
    rewrite (ConsolePublisher_publish_heading ev out username full_name
               Hu Hf Hhead).
    rewrite (proj1 (dumps_to_dict ev) Hc), Hd, Htext. reflexivity.
Qed.

(** An event with a change is never published on the console. *)
Lemma ConsolePublisher_publish_changes {R : Runtime}
    (ev : StandardEvent.t) (out : list string) :
  StandardEvent.changes ev <> [] ->
  exists e, fst (publish ConsolePublisher ev out) = Raise e.
Proof.
  intros Hne.
  destruct (ConsolePublisher_publish_shape ev out) as (_ & Hfalse & Htrue).
  destruct (fst (publish ConsolePublisher ev out)) as [[|] | e].
  - exfalso.
    destruct (Htrue eq_refl) as (username & full_name & text & _ & _ & Hd & _).
    destruct (proj2 (dumps_to_dict ev) Hne) as (j & _ & Hj).
    rewrite Hj in Hd. destruct (json_dumps j); discriminate Hd.
  - exfalso. apply Hfalse. reflexivity.
  - exists e. reflexivity.
Qed.

(** [ConsolePublisher.publish] keeps the texts that were on the console
    and never answers false.  It answers true only for an event without
    changes, after [str] has converted the actor's username and the
    repository's full name and [json.dumps] has given a text, and then
    it has printed nine texts: the heading, the text of [json.dumps] and
    the rule of 80 equal signs.  On an event with a change, once the
    heading is printed it raises what [json.dumps] raises, which is
    [TypeError] unless writing the fields before [changes] has failed,
    and the seven texts of the heading stay on the console.  When the
    console refuses a text of the heading it raises the exception of
    [print], having printed the texts before that one. *)
Theorem ConsolePublisher_publish_spec {R : Runtime} :
  forall ev out,
    (exists printed, snd (publish ConsolePublisher ev out) = out ++ printed)
    /\ fst (publish ConsolePublisher ev out) <> Ok false
    /\ (fst (publish ConsolePublisher ev out) = Ok true ->
        StandardEvent.changes ev = []
        /\ exists username full_name text,
             py_str (Actor.username (StandardEvent.actor ev)) = Ok username
             /\ py_str (Repository.full_name (StandardEvent.repository ev))
                = Ok full_name
             /\ json_dumps (as_json (to_dict ev)) = Ok text
             /\ snd (publish ConsolePublisher ev out)
                = out ++ heading ev username full_name
                      ++ [text; times "=" 80])
    /\ (forall username full_name,
          py_str (Actor.username (StandardEvent.actor ev)) = Ok username ->
          py_str (Repository.full_name (StandardEvent.repository ev))
          = Ok full_name ->
          console_accepts (heading ev username full_name) = true ->
          StandardEvent.changes ev <> [] ->
          exists j,
            written (to_dict ev) = Some j
            /\ publish ConsolePublisher ev out
               = (match json_dumps j with
                  | Ok _ => Raise TypeError
                  | Raise err => Raise err
                  end,
                  out ++ heading ev username full_name))
    /\ (forall username full_name before text after e,
          py_str (Actor.username (StandardEvent.actor ev)) = Ok username ->
          py_str (Repository.full_name (StandardEvent.repository ev))
          = Ok full_name ->
          heading ev username full_name = before ++ text :: after ->
          console_accepts before = true ->
          print_error text = Some e ->
          publish ConsolePublisher ev out = (Raise e, out ++ before)).
Proof.
  intros ev out.
  destruct (ConsolePublisher_publish_shape ev out)
    as (Hkept & Hfalse & Htrue).
  split; [exact Hkept|]. split; [exact Hfalse|].
  split; [|split].
  - intros H.
    assert (Hc : StandardEvent.changes ev = []).
    { destruct (StandardEvent.changes ev) as [| c cs] eqn:Ec;
        [reflexivity|].
      exfalso.
      destruct (ConsolePublisher_publish_changes ev out) as (e & He);
        [rewrite Ec; discriminate | congruence]. }
    split; [exact Hc|].
    destruct (Htrue H) as (username & full_name & text & Hu & Hf & Hd & Hacc).
    exists username, full_name, text.
    split; [exact Hu|]. split; [exact Hf|].
    rewrite console_accepts_app in Hacc. apply andb_true_iff in Hacc.
    destruct Hacc as (Hhead & Htext).
    apply console_accepts_cons in Htext. destruct Htext as (Htext & _).
    rewrite (ConsolePublisher_publish_heading ev out username full_name
               Hu Hf Hhead).
    rewrite Hd, Htext. rewrite (proj1 (dumps_to_dict ev) Hc) in Hd.
    split; [exact Hd | reflexivity].
  - intros username full_name Hu Hf Hacc Hne.
    rewrite (ConsolePublisher_publish_heading ev out username full_name
               Hu Hf Hacc).
    destruct (proj2 (dumps_to_dict ev) Hne) as (j & Hj & ->).
    exists j. split; [exact Hj|].
    destruct (json_dumps j); reflexivity.
  - intros username full_name before text after e.
    apply ConsolePublisher_publish_refused.
Qed.

Lemma ConsolePublisher_publish_spec_witness :
  (exists ev,
      map_push_event (R := Fixture.runtime) Fixture.push "d-1" Fixture.now
      = Ok ev
      /\ publish (ConsolePublisher (R := Fixture.runtime)) ev ["earlier"]
         = (Raise TypeError,
            "earlier" :: heading ev "testuser" "testuser/test-repo"))
  /\ publish (ConsolePublisher (R := Sample.ascii_console))
       Sample.accented_event ["earlier"]
     = (Raise (UnicodeEncodeError
                 "'ascii' codec can't encode character: ordinal not in range(128)"),
        ["earlier"; times "=" 80; "Event: pr.opened"; "Source: github"]).
Proof.
  split.
  - eexists. split; [reflexivity|].
    match goal with
    | |- publish _ ?ev _ = _ =>
        destruct (@ConsolePublisher_publish_spec Fixture.runtime ev
                    ["earlier"]) as (_ & _ & _ & Hchange & _)
    end.
    destruct (Hchange "testuser" "testuser/test-repo" eq_refl eq_refl
                eq_refl ltac:(discriminate)) as (j & Hj & Hrun).
    exact Hrun.
  - destruct (@ConsolePublisher_publish_spec Sample.ascii_console
                Sample.accented_event ["earlier"]) as (_ & _ & _ & _ & Hrefused).
    apply (Hrefused Sample.accented "testuser/test-repo"
             [times "=" 80; "Event: pr.opened"; "Source: github"]
             ("Actor: " ++ Sample.accented)%string
             [ "Repository: testuser/test-repo";
               ("Timestamp: " ++ Fixture.now)%string; times "-" 80 ]).
    + reflexivity.
    + reflexivity.
    + reflexivity.
    + reflexivity.
    + vm_compute. reflexivity.
Defined.

(** On the events of the mappers.  An event of the five mappers other
    than push, and a push event whose payload has no commit, is published
    on the console exactly when [str] converts the actor's username and
    the repository's full name, [json.dumps] gives a text and the console
    takes the heading and that text.  A push event whose payload has a
    commit is never published: the console publisher raises, and what it
    raises once the heading is printed is [TypeError], unless writing the
    fields before [changes] has failed. *)
Theorem ConsolePublisher_on_mapped_event {R : Runtime} :
  forall secret_text category m payload delivery_id now ev out,
    lookup category (event_mappers (new_handler secret_text)) = Some m ->
    m payload delivery_id now = Ok ev ->
    let published :=
      fst (publish ConsolePublisher ev out) = Ok true in
    let regular :=
      exists username full_name text,
        py_str (Actor.username (StandardEvent.actor ev)) = Ok username
        /\ py_str (Repository.full_name (StandardEvent.repository ev))
           = Ok full_name
        /\ json_dumps (as_json (to_dict ev)) = Ok text
        /\ console_accepts (heading ev username full_name ++ [text])
           = true in
    (category <> "push" -> (published <-> regular))
    /\ (category = "push" ->
        exists commits,
          push_commits payload = Ok commits
          /\ (commits = [] -> (published <-> regular))
          /\ (commits <> [] ->
              (exists e, fst (publish ConsolePublisher ev out) = Raise e)
              /\ forall username full_name,
                   py_str (Actor.username (StandardEvent.actor ev))
                   = Ok username ->
                   py_str (Repository.full_name
                             (StandardEvent.repository ev))
                   = Ok full_name ->
                   console_accepts (heading ev username full_name) = true ->
                   exists j,
                     written (to_dict ev) = Some j
                     /\ fst (publish ConsolePublisher ev out)
                        = match json_dumps j with
                          | Ok _ => Raise TypeError
                          | Raise err => Raise err
                          end)).
Proof.
  intros s category m payload did now ev out Hreg Hrun published regular.
  subst published regular.
  assert (Hchanges : category <> "push" -> StandardEvent.changes ev = []).
  { pose proof Hreg as Hreg'. apply event_mappers_registered in Hreg'.
    destruct Hreg'
      as [[-> ->] | [[-> ->] | [[-> ->] | [[-> ->] | [[-> ->] | [-> ->]]]]]].
    - congruence.
    - apply pull_request_shared in Hrun. tauto.
    - apply issue_shared in Hrun. tauto.
    - apply issue_comment_shared in Hrun. tauto.
    - apply pull_request_review_shared in Hrun. tauto.
    - apply release_shared in Hrun. tauto. }
  split.
  - intros Hne. apply ConsolePublisher_publish_true_iff. auto.
  - intros ->. simpl in Hreg. injection Hreg as <-.
    destruct (map_push_event_changes_of_run _ _ _ _ Hrun)
      as (commits & Hc & Hloop).
    exists commits. split; [assumption|].
    apply for_each_length in Hloop. split.
    + intros ->. apply ConsolePublisher_publish_true_iff.
      destruct (StandardEvent.changes ev); [reflexivity | discriminate].
    + intros Hne.
      assert (Hev : StandardEvent.changes ev <> []).
      { destruct commits; [congruence|].
        destruct (StandardEvent.changes ev); discriminate. }
      split; [apply ConsolePublisher_publish_changes; assumption|].
      intros username full_name Hu Hf Hacc.
      destruct (ConsolePublisher_publish_outcome ev out username full_name
                  Hu Hf Hacc Hev) as (j & Hj & Hout).
      exists j. split; [exact Hj|]. rewrite Hout. reflexivity.
Qed.

Lemma ConsolePublisher_on_mapped_event_witness :
  (exists ev,
      map_push_event (R := Fixture.runtime) Fixture.push "d-1" Fixture.now
      = Ok ev
      /\ fst (publish (ConsolePublisher (R := Fixture.runtime)) ev [])
         = Raise TypeError)
  /\ (exists ev,
        map_pull_request_event (R := Fixture.runtime) Fixture.pr_opened "d-1"
          Fixture.now = Ok ev
        /\ fst (publish (ConsolePublisher (R := Fixture.runtime)) ev [])
           = Ok true).
Proof.
  split.
  - eexists. split; [reflexivity|].
    destruct (@ConsolePublisher_on_mapped_event Fixture.runtime
                Fixture.secret_text "push"
                (map_push_event (R := Fixture.runtime)) Fixture.push "d-1"
                Fixture.now _ [] eq_refl eq_refl) as (_ & Hpush).
    destruct (Hpush eq_refl) as (commits & Hc & _ & Hcommits).
    injection Hc as <-.
    destruct (Hcommits ltac:(discriminate)) as (_ & Hregular).
    destruct (Hregular "testuser" "testuser/test-repo" eq_refl eq_refl
                eq_refl) as (j & Hj & Hout).
    exact Hout.
  - eexists. split; [reflexivity|].
    destruct (@ConsolePublisher_on_mapped_event Fixture.runtime
                Fixture.secret_text "pull_request"
                (map_pull_request_event (R := Fixture.runtime))
                Fixture.pr_opened "d-1" Fixture.now _ [] eq_refl eq_refl)
      as (Hother & _).
    apply (Hother ltac:(discriminate)).
    exists "testuser", "testuser/test-repo", "{...}".
    repeat split.
Defined.

(* ================================================================= *)
(** ** The HTTP endpoint *)

(** Changing the case of a letter gives a letter of the other case. *)
Lemma to_upper_is_upper (c : ascii) :
  is_lower c = true ->
  is_upper (to_upper c) = true /\ is_lower (to_upper c) = false.
Proof.
  destruct c as [[] [] [] [] [] [] [] []]; vm_compute;
    first [discriminate | split; reflexivity].
Qed.

Lemma to_lower_is_lower (c : ascii) :
  is_upper c = true -> is_lower (to_lower c) = true.
Proof.
  destruct c as [[] [] [] [] [] [] [] []]; vm_compute;
    first [discriminate | reflexivity].
Qed.

(** What [str.title()] returns is in title case. *)
Lemma title_from_titled (s : string) :
  forall previous_is_cased,
    titled previous_is_cased (title_from previous_is_cased s) = true.
Proof.
  induction s as [| c s IH]; intros p; [reflexivity|].
  cbn [title_from].
  destruct (is_lower c) eqn:Hl.
  - destruct p; cbn [titled].
    + rewrite Hl. exact (IH true).
    + destruct (to_upper_is_upper c Hl) as (Hu & Hl'). rewrite Hl', Hu.
      exact (IH true).
  - destruct (is_upper c) eqn:Hu.
    + destruct p; cbn [titled].
      * rewrite (to_lower_is_lower c Hu). exact (IH true).
      * rewrite Hl, Hu. exact (IH true).
    + cbn [titled]. rewrite Hl, Hu. exact (IH false).
Qed.

Lemma lookup_In {A : Type} (k : string) (d : list (string * A)) (v : A) :
  lookup k d = Some v -> In (k, v) d.
Proof.
  induction d as [| [k' v'] d IH]; simpl; [discriminate|].
  destruct (String.eqb_spec k k') as [-> | Hne].
  - intros H. injection H as <-. left. reflexivity.
  - intros H. right. apply IH. exact H.
Qed.

(** Every name in [dict(request.headers)] is in title case, and its value
    is that of a variable of the environment. *)
Lemma header_dict_In (environ : list (string * string)) (k v : string) :
  In (k, v) (header_dict environ) ->
  titled false k = true /\ exists key, In (key, v) environ.
Proof.
  unfold header_dict. rewrite in_flat_map.
  intros ([key value] & Hin & H). cbn [fst snd] in H.
  destruct (String.prefix "HTTP_" key
            && negb (String.eqb key "HTTP_CONTENT_TYPE"
                     || String.eqb key "HTTP_CONTENT_LENGTH")).
  - destruct H as [H | []]. injection H as <- <-.
    split; [apply title_from_titled | exists key; exact Hin].
  - destruct ((String.eqb key "CONTENT_TYPE"
               || String.eqb key "CONTENT_LENGTH")
              && negb (String.eqb value "")); [|destruct H].
    destruct H as [H | []]. injection H as <- <-.
    split; [apply title_from_titled | exists key; exact Hin].
Qed.

(** A name that is not in title case is not a key of
    [dict(request.headers)]. *)
Lemma header_dict_lookup (environ : list (string * string)) (k : string) :
  titled false k = false -> lookup k (header_dict environ) = None.
Proof.
  intros Hk. destruct (lookup k (header_dict environ)) as [v |] eqn:E;
    [|reflexivity].
  apply lookup_In in E. apply header_dict_In in E.
  destruct E as (Ht & _). congruence.
Qed.

(** Behind the view the event and delivery headers are never found, so
    a verified and parsed request ends in the error for missing headers
    and [process_webhook] is not reached. *)
Lemma handle_request_header_dict {R : Runtime}
    (self : GitHubWebhookHandler) (environ : list (string * string))
    (body : list byte) (now : string) :
  handle_request self (header_dict environ) body now
  = match verify_signature self body
            (signature_header (header_dict environ)) with
    | Raise e => Raise e
    | Ok false => Raise (ValueError "Invalid webhook signature")
    | Ok true =>
        match json_loads body with
        | Raise e => Raise e
        | Ok _ => Raise (ValueError "Missing required headers")
        end
    end.
Proof.
  unfold handle_request. fold (signature_header (header_dict environ)).
  rewrite (header_dict_lookup environ "X-GitHub-Event") by reflexivity.
  destruct (verify_signature self body
              (signature_header (header_dict environ))) as [[|] | e];
    cbn [bind negb]; reflexivity.
Qed.

(** [dict(request.headers)] names every header in title case.  The three
    GitHub fields of a delivery come out as [X-Hub-Signature-256],
    [X-Github-Event] and [X-Github-Delivery]; the names
    [X-GitHub-Event] and [X-GitHub-Delivery], which [handle_request]
    asks for, are keys of no such dict, whatever the environment
    holds. *)
Theorem header_dict_title_case :
  forall environ,
    (forall k v, In (k, v) (header_dict environ) ->
                 titled false k = true /\ exists key, In (key, v) environ)
    /\ lookup "X-GitHub-Event" (header_dict environ) = None
    /\ lookup "X-GitHub-Delivery" (header_dict environ) = None
    /\ (forall sig category delivery,
          header_dict [ ("HTTP_X_HUB_SIGNATURE_256", sig);
                        ("HTTP_X_GITHUB_EVENT", category);
                        ("HTTP_X_GITHUB_DELIVERY", delivery) ]
          = [ ("X-Hub-Signature-256", sig);
              ("X-Github-Event", category);
              ("X-Github-Delivery", delivery) ]).
Proof.
  intros environ.
  split; [intros k v; apply header_dict_In|].
  split; [apply header_dict_lookup; reflexivity|].
  split; [apply header_dict_lookup; reflexivity|].
  intros sig category delivery. reflexivity.
Qed.

Lemma header_dict_title_case_witness :
  titled false "X-Github-Event" = true
  /\ titled false "X-GitHub-Event" = false
  /\ lookup "X-GitHub-Event"
       (header_dict (Sample.environ "push" Sample.push_signature)) = None
  /\ lookup "X-Github-Event"
       (header_dict (Sample.environ "push" Sample.push_signature))
     = Some "push".
Proof.
  destruct (header_dict_title_case
              (Sample.environ "push" Sample.push_signature))
    as (Hkeys & Hevent & _).
  split; [|split; [reflexivity|split; [exact Hevent | reflexivity]]].
  apply (Hkeys "X-Github-Event" "push"). simpl. tauto.
Defined.

(** With the header dict that the view passes, [handle_request] never
    returns, neither an event nor [None]: it raises the exception of the
    signature check, or [ValueError('Invalid webhook signature')], or
    the exception of [json.loads], or, for every verified request whose
    body parses, [ValueError('Missing required headers')]. *)
Theorem handle_request_behind_flask {R : Runtime} :
  forall self environ body now,
    (forall r, handle_request self (header_dict environ) body now <> Ok r)
    /\ (forall e,
          verify_signature self body (signature_header (header_dict environ))
          = Raise e ->
          handle_request self (header_dict environ) body now = Raise e)
    /\ (verify_signature self body (signature_header (header_dict environ))
        = Ok false ->
        handle_request self (header_dict environ) body now
        = Raise (ValueError "Invalid webhook signature"))
    /\ (verify_signature self body (signature_header (header_dict environ))
        = Ok true ->
        (forall e, json_loads body = Raise e ->
                   handle_request self (header_dict environ) body now
                   = Raise e)
        /\ (forall payload,
              json_loads body = Ok payload ->
              handle_request self (header_dict environ) body now
              = Raise (ValueError "Missing required headers"))).
Proof.
  intros self environ body now.
  rewrite handle_request_header_dict.
  destruct (verify_signature self body
              (signature_header (header_dict environ))) as [[|] | e].
  - split; [intros r; destruct (json_loads body); discriminate|].
    split; [discriminate|]. split; [discriminate|].
    intros _. split.
    + intros e ->. reflexivity.
    + intros payload ->. reflexivity.
  - split; [discriminate|]. split; [discriminate|].
    split; [reflexivity | discriminate].
  - split; [discriminate|].
    split; [intros e' H; injection H as <-; reflexivity|].
    split; discriminate.
Qed.

Lemma handle_request_behind_flask_witness :
  handle_request (R := Sample.runtime) Sample.handler
    (header_dict (Sample.environ "push" Sample.push_signature))
    Sample.push_body Fixture.now
  = Raise (ValueError "Missing required headers")
  /\ exists ev,
       handle_request (R := Sample.runtime) Sample.handler
         (Sample.headers "push" Sample.push_signature)
         Sample.push_body Fixture.now
       = Ok (Some ev).
Proof.
  split.
  - destruct (@handle_request_behind_flask Sample.runtime Sample.handler
                (Sample.environ "push" Sample.push_signature)
                Sample.push_body Fixture.now) as (_ & _ & _ & Hverified).
    assert (Hv : verify_signature Sample.handler Sample.push_body
                   (signature_header
                      (header_dict
                         (Sample.environ "push" Sample.push_signature)))
                 = Ok true) by (vm_compute; reflexivity).
    apply (proj2 (Hverified Hv) Sample.push_payload).
    vm_compute. reflexivity.
  - eexists. vm_compute. reflexivity.
Defined.

(** [github_webhook] answers every request with 401 or 500, never with
    200, and the publisher has no part in the answer: a request whose
    signature does not verify gets 401 and the message Invalid webhook
    signature; a verified request whose body parses gets 401 and the
    message Missing required headers, whatever event and delivery fields
    it carries; otherwise the answer is that to the exception of the
    signature check or of [json.loads]. *)
Theorem github_webhook_status {R : Runtime} {World : Type} :
  forall self (event_publisher : EventPublisher World) environ body now w,
    let answer := github_webhook self event_publisher environ body now w in
    (status_code answer = 401 \/ status_code answer = 500)
    /\ (forall (other : EventPublisher World) w',
          github_webhook self other environ body now w' = answer)
    /\ (verify_signature self body (signature_header (header_dict environ))
        = Ok false ->
        answer
        = {| status_code := 401;
             response_body := [("status", "error");
                               ("message", "Invalid webhook signature")] |})
    /\ (verify_signature self body (signature_header (header_dict environ))
        = Ok true ->
        forall payload,
          json_loads body = Ok payload ->
          answer
          = {| status_code := 401;
               response_body := [("status", "error");
                                 ("message", "Missing required headers")] |})
    /\ (forall e,
          verify_signature self body (signature_header (header_dict environ))
          = Raise e
          \/ (verify_signature self body
                (signature_header (header_dict environ)) = Ok true
              /\ json_loads body = Raise e) ->
          status_code answer = if is_ValueError e then 401 else 500).
Proof.
  intros self pub environ body now w answer. subst answer.
  unfold github_webhook. rewrite handle_request_header_dict.
  destruct (verify_signature self body
              (signature_header (header_dict environ))) as [[|] | e].
  - destruct (json_loads body) as [payload | e].
    + split; [left; reflexivity|]. split; [reflexivity|].
      split; [discriminate|]. split; [reflexivity|].
      intros e [H | (_ & H)]; discriminate H.
    + split; [destruct (is_ValueError e); [left | right]; reflexivity|].
      split; [reflexivity|]. split; [discriminate|].
      split; [intros _ payload H; discriminate H|].
      intros e' [H | (_ & H)]; [discriminate H|].
      injection H as <-. destruct (is_ValueError e); reflexivity.
  - split; [left; reflexivity|]. split; [reflexivity|].
    split; [reflexivity|]. split; [discriminate|].
    intros e [H | (H & _)]; discriminate H.
  - split; [destruct (is_ValueError e); [left | right]; reflexivity|].
    split; [reflexivity|]. split; [discriminate|]. split; [discriminate|].
    intros e' [H | (H & _)]; [|discriminate H].
    injection H as <-. destruct (is_ValueError e); reflexivity.
Qed.

Lemma github_webhook_status_witness :
  github_webhook (R := Sample.runtime) Sample.handler
    (Fixture.sink "console" true)
    (Sample.environ "push" Sample.push_signature) Sample.push_body
    Fixture.now []
  = {| status_code := 401;
       response_body := [("status", "error");
                         ("message", "Missing required headers")] |}
  /\ status_code
       (github_webhook (R := Sample.runtime) Sample.handler
          (Fixture.sink "console" true)
          (Sample.environ "push"
             ("sha256=" ++ String (ascii_of_nat 195)
                             (String (ascii_of_nat 169) "")))
          Sample.push_body Fixture.now [])
     = 500.
Proof.
  split.
  - destruct (@github_webhook_status Sample.runtime (list string)
                Sample.handler (Fixture.sink "console" true)
                (Sample.environ "push" Sample.push_signature)
                Sample.push_body Fixture.now [])
      as (_ & _ & _ & Hverified & _).
    assert (Hv : verify_signature Sample.handler Sample.push_body
                   (signature_header
                      (header_dict
                         (Sample.environ "push" Sample.push_signature)))
                 = Ok true) by (vm_compute; reflexivity).
    apply (Hverified Hv Sample.push_payload).
    vm_compute. reflexivity.
  - destruct (@github_webhook_status Sample.runtime (list string)
                Sample.handler (Fixture.sink "console" true)
                (Sample.environ "push"
                   ("sha256=" ++ String (ascii_of_nat 195)
                                   (String (ascii_of_nat 169) "")))
                Sample.push_body Fixture.now [])
      as (_ & _ & _ & _ & Hraise).
    apply (Hraise TypeError). left. vm_compute. reflexivity.
Defined.

(* ================================================================= *)
(** ** The schema: codes and serialisation *)

(** No two event types share a string code, and no two change types do:
    the code that [to_dict] writes for [type] identifies the member. *)
Theorem enum_values_distinct :
  (forall t1 t2 : EventType,
      EventType_value t1 = EventType_value t2 -> t1 = t2)
  /\ (forall c1 c2 : ChangeType,
        ChangeType_value c1 = ChangeType_value c2 -> c1 = c2).
Proof.
  split.
  - intros t1 t2 H. destruct t1; destruct t2; try reflexivity;
      discriminate H.
  - intros c1 c2 H. destruct c1; destruct c2; try reflexivity;
      discriminate H.
Qed.

Lemma enum_values_distinct_witness :
  PR_MERGED = PR_MERGED /\ EventType_value PR_MERGED = "pr.merged".
Proof.
  split.
  - apply (proj1 enum_values_distinct). reflexivity.
  - reflexivity.
Defined.

Lemma EventType_value_inj (t1 t2 : EventType) :
  EventType_value t1 = EventType_value t2 -> t1 = t2.
Proof.
  intros H. destruct t1; destruct t2; try reflexivity; discriminate H.
Qed.

Lemma Change_dict_inj (c1 c2 : Change.t) :
  Change_dict c1 = Change_dict c2 -> c1 = c2.
Proof.
  destruct c1 as [t1 i1 m1 ts1 a1 fa1 fm1 fr1].
  destruct c2 as [t2 i2 m2 ts2 a2 fa2 fm2 fr2].
  unfold Change_dict. simpl. intros H.
  injection H as Ht Hi Hm Hts Ha Hfa Hfm Hfr. subst.
  destruct a1 as [x1 |], a2 as [x2 |]; try discriminate; [|reflexivity].
  injection Ha as <-. reflexivity.
Qed.

Lemma map_Change_dict_inj (l1 l2 : list Change.t) :
  map (fun c => PDict (Change_dict c)) l1
  = map (fun c => PDict (Change_dict c)) l2 -> l1 = l2.
Proof.
  revert l2. induction l1 as [| c1 l1 IH]; intros [| c2 l2] H;
    try discriminate; [reflexivity|].
  cbn [map] in H.
  assert (Hc : Change_dict c1 = Change_dict c2) by congruence.
  assert (Hl : map (fun c => PDict (Change_dict c)) l1
               = map (fun c => PDict (Change_dict c)) l2) by congruence.
  apply Change_dict_inj in Hc. subst. f_equal. apply IH. assumption.
Qed.

(** [to_dict] loses nothing: it lists every field of the event, of its
    actor, repository and metadata and of each change, so two events with
    the same dictionary are the same event. *)
Theorem to_dict_injective :
  forall e1 e2 : StandardEvent.t, to_dict e1 = to_dict e2 -> e1 = e2.
Proof.
  intros [id1 t1 s1 ts1 a1 r1 m1 c1 p1] [id2 t2 s2 ts2 a2 r2 m2 c2 p2].
  unfold to_dict. cbn [StandardEvent.id StandardEvent.type
                       StandardEvent.source StandardEvent.timestamp
                       StandardEvent.actor StandardEvent.repository
                       StandardEvent.metadata StandardEvent.changes
                       StandardEvent.raw_payload].
  intros H.
  assert (Ht : EventType_value t1 = EventType_value t2) by congruence.
  assert (Hc : map (fun c => PDict (Change_dict c)) c1
               = map (fun c => PDict (Change_dict c)) c2) by congruence.
  assert (Ha : Actor.dict a1 = Actor.dict a2) by congruence.
  assert (Hr : Repository.dict r1 = Repository.dict r2) by congruence.
  assert (Hm : EventMetadata.dict m1 = EventMetadata.dict m2) by congruence.
  assert (Hrest : id1 = id2 /\ s1 = s2 /\ ts1 = ts2 /\ p1 = p2)
    by (repeat split; congruence).
  destruct Hrest as (-> & -> & -> & ->).
  apply EventType_value_inj in Ht. apply map_Change_dict_inj in Hc.
  subst t2 c2.
  assert (a1 = a2).
  { destruct a1, a2. unfold Actor.dict in Ha. simpl in Ha.
    injection Ha. intros. subst. reflexivity. }
  assert (r1 = r2).
  { destruct r1, r2. unfold Repository.dict in Hr. simpl in Hr.
    injection Hr. intros. subst. reflexivity. }
  assert (m1 = m2).
  { destruct m1, m2. unfold EventMetadata.dict in Hm. simpl in Hm.
    injection Hm. intros. subst. reflexivity. }
  subst. reflexivity.
Qed.

Lemma to_dict_injective_witness :
  {| StandardEvent.id := "test-delivery-id";
     StandardEvent.type := PR_OPENED;
     StandardEvent.source := "github";
     StandardEvent.timestamp := Fixture.now;
     StandardEvent.actor := StandardEvent.actor Fixture.event;
     StandardEvent.repository := StandardEvent.repository Fixture.event;
     StandardEvent.metadata := EventMetadata.init [("pr_number", JNull)];
     StandardEvent.changes := [];
     StandardEvent.raw_payload := JObj [] |}
  = Fixture.event.
Proof.
  apply to_dict_injective. reflexivity.
Defined.

(* ================================================================= *)
(** ** Signature verification: the contract on a delivery *)

Lemma verify_signature_contract_witness :
  verify_signature Fixture.handler Fixture.body
    ("sha256=" ++ Hmac.hexdigest (secret Fixture.handler) Fixture.body)
  = Ok true
  /\ verify_signature Fixture.handler Fixture.body "" = Ok false
  /\ verify_signature Fixture.handler Fixture.body "b4820cec871eff53" = Ok false
  /\ verify_signature (new_handler (R := Fixture.runtime) "test-secreu")
       Fixture.body
       ("sha256=" ++ Hmac.hexdigest (secret Fixture.handler) Fixture.body)
     = Ok false.
Proof.
  destruct (verify_signature_contract Fixture.handler Fixture.body)
    as (Hclosed & _ & Hright & Hother).
  split; [exact Hright|].
  split; [apply Hclosed; left; reflexivity|].
  split; [apply Hclosed; right; reflexivity|].
  apply Hother. intros H. vm_compute in H. discriminate H.
Defined.
